(** * Finder-Backend: the payment ledger and the contact paywall

    A shallow embedding of the request handlers that move money
    (routes/payments.js, the contact route of routes/posts.js), of the
    profile update of routes/auth.js and of the Mongoose models they use
    (models/User.js, models/Transaction.js, a corner of models/Post.js).

    Conventions of the embedding.
    - A JavaScript [Number] holding an amount of money is an integer [Z]:
      the embedding covers whole amounts of magnitude below 2^53, on which
      the binary64 [+], [-] and [>=] of the code are those of the integers
      (module [Binary64] has the same statements on doubles, and the last
      part of the file proves the agreement).  A sum written in a statement
      is the number the code computes there; on fractional amounts and on
      larger totals the code rounds.
    - A Mongoose collection is a finite map (users, posts, keyed by
      ObjectId) or a list in insertion order (transactions, since
      [findOne] returns the first match and a saved document is written
      back at its own position).
    - Every handler is a function from the database to a new database and
      an HTTP response.  What the handler cannot compute itself (the
      clock, [Math.random], the replies of the bKash gateway) is an
      argument.
    - [await] points matter for one property only (two contact views
      racing); the contact handler therefore also has a small-step
      version, one step per [await]. *)

From Stdlib Require Import ZArith String List Lia Bool.
From Stdlib Require SpecFloat.
From stdpp Require Import base option list gmap strings pretty.

Local Open Scope string_scope.
Local Open Scope list_scope.
Local Open Scope Z_scope.

(** ** JSON values and request bodies

    The values the handlers below read their body fields as: JSON
    scalars, a number being a whole number.  A field that holds a JSON
    object or array is not represented (in a filter Mongoose takes an
    object with [$]-keys for a query operator); the statements about the
    look-up of a transaction by id therefore name the string id they are
    about. *)

Inductive JsValue :=
  | JNull
  | JBool (b : bool)
  | JNum (n : Z)
  | JStr (s : string).

#[global] Instance JsValue_eq_dec : EqDecision JsValue.
Proof. solve_decision. Defined.

(** [req.body]: a JSON object, keys to values. *)
Abbreviation Body := (gmap string JsValue).

(** ObjectIds of users and posts. *)
Abbreviation ObjectId := nat.

(** JavaScript truthiness of an optional string ([undefined] and the empty
    string are falsy). *)
Definition truthy (o : option string) : bool :=
  match o with
  | Some s => negb (String.eqb s "")
  | None => false
  end.

(** What Mongoose makes of a filter value on a [String] path: strings stay,
    numbers and booleans are cast to their text (for a whole number of
    magnitude below 2^53, its decimal digits), [null] and [undefined]
    match no document that has the (required) field. *)
Definition castString (o : option JsValue) : option string :=
  match o with
  | Some (JStr s) => Some s
  | Some (JNum n) => Some (pretty n)
  | Some (JBool true) => Some "true"
  | Some (JBool false) => Some "false"
  | Some JNull | None => None
  end.

(** HTTP response: status code, the [success] flag and the [message] of the
    JSON payload. *)
Record Response := mkResponse {
  code : nat;
  success : bool;
  message : string
}.

#[global] Instance Response_eq_dec : EqDecision Response.
Proof. solve_decision. Defined.

(** ** models/User.js *)

Module User.

Record t := mk {
  name : string;
  email : string;
  phone : string;
  password : string;
  userType : string;
  accountBalance : Z;
  totalSpent : Z;
  totalEarned : Z;
  isVerified : bool;
  isActive : bool;
  isBanned : bool
}.

Definition userTypes : list string :=
  ["teacher"; "guardian"; "student"; "house_owner"; "general_buyer"].

Definition set_accountBalance (b : Z) (u : t) : t :=
  mk (name u) (email u) (phone u) (password u) (userType u)
     b (totalSpent u) (totalEarned u) (isVerified u) (isActive u) (isBanned u).

Definition set_totalSpent (b : Z) (u : t) : t :=
  mk (name u) (email u) (phone u) (password u) (userType u)
     (accountBalance u) b (totalEarned u) (isVerified u) (isActive u) (isBanned u).

(** [canViewContact]: BDT 5 required to view a contact. *)
Definition canViewContact (u : t) : bool := 5 <=? accountBalance u.

(** [deductContactViewCost], on the in-memory document; [None] is the
    thrown [Error('Insufficient balance')].  The caller persists the
    result ([this.save()]). *)
Definition deductContactViewCost (u : t) : option t :=
  if 5 <=? accountBalance u
  then Some (set_totalSpent (totalSpent u + 5)
               (set_accountBalance (accountBalance u - 5) u))
  else None.

End User.

(** ** models/Transaction.js *)

Module Transaction.

Inductive Kind := recharge | contact_view | featured_post | subscription | refund.
Inductive Status := pending | completed | failed | cancelled | refunded.

#[global] Instance Kind_eq_dec : EqDecision Kind.
Proof. solve_decision. Defined.
#[global] Instance Status_eq_dec : EqDecision Status.
Proof. solve_decision. Defined.

(** The [paymentGateway] sub-document. *)
Record Gateway := mkGateway {
  provider : option string;
  gwTransactionId : option string;
  paymentId : option string;
  reference : option string;
  fee : option Z
}.

Definition noGateway : Gateway := mkGateway None None None None None.

Record t := mk {
  transactionId : string;
  user : ObjectId;
  type : Kind;
  amount : Z;
  paymentMethod : string;
  paymentGateway : Gateway;
  status : Status;
  description : string;
  postId : option ObjectId;          (* metadata.postId *)
  contactOwnerId : option ObjectId;  (* metadata.contactOwnerId *)
  completedAt : option Z;
  failedAt : option Z;
  balanceBefore : option Z;
  balanceAfter : option Z
}.

(** The [enum] of the [paymentMethod] path. *)
Definition paymentMethods : list string :=
  ["bkash"; "nagad"; "rocket"; "bank_transfer"; "card"; "admin_credit"].

(** Schema validation run by [save()] on a new document: every other
    path of the documents built by the handlers is of an enumerated or
    unconstrained type, so only [paymentMethod] can be rejected. *)
Definition validate (x : t) : bool :=
  bool_decide (paymentMethod x ∈ paymentMethods).

(** [generateTransactionId]: "FND", then [Date.now()], then up to nine
    characters drawn from [Math.random()]. *)
Definition generateTransactionId (now : Z) (random : string) : string :=
  "FND" +:+ pretty now +:+ random.

Definition set_status (s : Status) (x : t) : t :=
  mk (transactionId x) (user x) (type x) (amount x) (paymentMethod x)
     (paymentGateway x) s (description x) (postId x) (contactOwnerId x)
     (completedAt x) (failedAt x) (balanceBefore x) (balanceAfter x).

Definition set_description (d : string) (x : t) : t :=
  mk (transactionId x) (user x) (type x) (amount x) (paymentMethod x)
     (paymentGateway x) (status x) d (postId x) (contactOwnerId x)
     (completedAt x) (failedAt x) (balanceBefore x) (balanceAfter x).

Definition set_completedAt (d : Z) (x : t) : t :=
  mk (transactionId x) (user x) (type x) (amount x) (paymentMethod x)
     (paymentGateway x) (status x) (description x) (postId x) (contactOwnerId x)
     (Some d) (failedAt x) (balanceBefore x) (balanceAfter x).

Definition set_failedAt (d : Z) (x : t) : t :=
  mk (transactionId x) (user x) (type x) (amount x) (paymentMethod x)
     (paymentGateway x) (status x) (description x) (postId x) (contactOwnerId x)
     (completedAt x) (Some d) (balanceBefore x) (balanceAfter x).

Definition set_balanceAfter (b : Z) (x : t) : t :=
  mk (transactionId x) (user x) (type x) (amount x) (paymentMethod x)
     (paymentGateway x) (status x) (description x) (postId x) (contactOwnerId x)
     (completedAt x) (failedAt x) (balanceBefore x) (Some b).

Definition set_paymentGateway (g : Gateway) (x : t) : t :=
  mk (transactionId x) (user x) (type x) (amount x) (paymentMethod x)
     g (status x) (description x) (postId x) (contactOwnerId x)
     (completedAt x) (failedAt x) (balanceBefore x) (balanceAfter x).

(** The argument of [markCompleted]. *)
Record GatewayData := mkGatewayData {
  gdTransactionId : option string;
  gdReference : option string;
  gdFee : option Z
}.

Definition orElse {A} (cond : bool) (new : option A) (old : option A) : option A :=
  if cond then new else old.

(** [markCompleted(gatewayData)] at time [now]: no look at the current
    status. *)
Definition markCompleted (gd : GatewayData) (now : Z) (x : t) : t :=
  let g := paymentGateway x in
  let g' :=
    mkGateway (provider g)
      (orElse (truthy (gdTransactionId gd)) (gdTransactionId gd) (gwTransactionId g))
      (paymentId g)
      (orElse (truthy (gdReference gd)) (gdReference gd) (reference g))
      (orElse (match gdFee gd with Some f => negb (f =? 0) | None => false end)
              (gdFee gd) (fee g)) in
  set_paymentGateway g' (set_completedAt now (set_status completed x)).

(** [markFailed(reason)] at time [now]: no look at the current status
    either. *)
Definition markFailed (reason : string) (now : Z) (x : t) : t :=
  set_description (if String.eqb reason "" then description x else reason)
    (set_failedAt now (set_status failed x)).

(** A status from which the ledger's life cycle has no way on. *)
Definition terminal (s : Status) : bool :=
  match s with
  | completed | failed | cancelled => true
  | pending | refunded => false
  end.

End Transaction.

(** ** models/Post.js (in src/unnamed/part_000; the part the contact route
    touches) *)

Module Post.

Record t := mk {
  title : string;
  postedBy : ObjectId;
  contactInfo : string;
  contactViews : Z
}.

(** [incrementContactViews] on the in-memory document. *)
Definition incrementContactViews (p : t) : t :=
  mk (title p) (postedBy p) (contactInfo p) (contactViews p + 1).

End Post.

(** ** The database *)

Record Db := mkDb {
  users : gmap ObjectId User.t;
  transactions : list Transaction.t;
  posts : gmap ObjectId Post.t
}.

Definition set_users (us : gmap ObjectId User.t) (db : Db) : Db :=
  mkDb us (transactions db) (posts db).
Definition set_transactions (ts : list Transaction.t) (db : Db) : Db :=
  mkDb (users db) ts (posts db).
Definition set_posts (ps : gmap ObjectId Post.t) (db : Db) : Db :=
  mkDb (users db) (transactions db) ps.

(** [Transaction.findOne({ transactionId })]: position and content of the
    first document with that id. *)
Definition findOne (tid : option string) (db : Db) : option (nat * Transaction.t) :=
  match tid with
  | Some s => list_find (λ x, Transaction.transactionId x = s) (transactions db)
  | None => None
  end.

(** [Transaction.findOne({ transactionId, user })]. *)
Definition findOneOf (tid : option string) (uid : ObjectId) (db : Db)
  : option (nat * Transaction.t) :=
  match tid with
  | Some s =>
      list_find (λ x, Transaction.transactionId x = s ∧ Transaction.user x = uid)
        (transactions db)
  | None => None
  end.

(** [save()] of a document already in the collection, at position [i]. *)
Definition saveTx (i : nat) (x : Transaction.t) (db : Db) : Db :=
  set_transactions (<[i := x]> (transactions db)) db.

(** [save()] of a new transaction: schema validation, then the insert,
    which the unique index on [transactionId] refuses for an id already
    there.  [None] is the rejected promise. *)
Definition insertTx (x : Transaction.t) (db : Db) : option Db :=
  if Transaction.validate x then
    match findOne (Some (Transaction.transactionId x)) db with
    | Some _ => None
    | None => Some (set_transactions (transactions db ++ [x]) db)
    end
  else None.

(** [user.save()] after a change of the balance fields: Mongoose sends the
    modified paths only, as absolute values. *)
Definition saveUserBalance (uid : ObjectId) (u : User.t) (db : Db) : Db :=
  set_users
    (alter (λ old, User.set_totalSpent (User.totalSpent u)
                     (User.set_accountBalance (User.accountBalance u) old))
           uid (users db)) db.

(** ** The bKash gateway, as seen by the handlers

    Every field is what one HTTP call returns; [None] is a rejected call
    (network failure, time-out, non-2xx reply), which [axios] turns into an
    exception. *)

Module Bkash.

Record CreateData := mkCreate {
  paymentID : option string;
  bkashURL : option string
}.

Record ExecuteData := mkExecute {
  statusCode : string;
  trxID : option string;
  merchantInvoiceNumber : option string;
  statusMessage : string
}.

Record t := mk {
  (* POST /tokenized/checkout/token/grant: the id_token *)
  grantToken : option string;
  (* POST /tokenized/checkout/create, by merchantInvoiceNumber and amount *)
  create : string → Z → option CreateData;
  (* POST /tokenized/checkout/execute, by the paymentID of the request *)
  execute : option JsValue → option ExecuteData;
  (* POST /tokenized/checkout/payment/status, by the stored paymentId *)
  queryStatus : option string → option ExecuteData
}.

(** [getBkashToken] followed by one call [k]; the token only travels in
    the headers. *)
Definition withToken {A} (gw : t) (k : option A) : option A :=
  match grantToken gw with
  | Some _ => k
  | None => None
  end.

End Bkash.

(** ** routes/payments.js *)

Module Payments.

Import Transaction.

(** The two fields [POST /recharge] reads.  [amount] is the number the
    field denotes, [None] when it is missing or not numeric;
    [paymentMethod] is the text of the field. *)
Record RechargeReq := mkRecharge {
  reqAmount : option Z;
  reqPaymentMethod : option string
}.

Definition rechargeMethods : list string := ["bkash"; "nagad"; "rocket"].

(** [body('amount').isFloat({ min: 10, max: 10000 })] *)
Definition amountOk (r : RechargeReq) : bool :=
  match reqAmount r with
  | Some a => (10 <=? a) && (a <=? 10000)
  | None => false
  end.

(** [body('paymentMethod').isIn(['bkash', 'nagad', 'rocket'])] *)
Definition methodOk (r : RechargeReq) : bool :=
  match reqPaymentMethod r with
  | Some m => bool_decide (m ∈ rechargeMethods)
  | None => false
  end.

Definition validRecharge (r : RechargeReq) : bool := amountOk r && methodOk r.

(** The document built at lines 69-80. *)
Definition newRecharge (id : string) (uid : ObjectId) (a : Z) (m : string)
    (u : User.t) : Transaction.t :=
  Transaction.mk id uid recharge a m noGateway pending
    ("Account recharge via " +:+ m) None None None None
    (Some (User.accountBalance u)) None.

(** First half of [POST /recharge], up to the first [transaction.save()]:
    either a final response, or the database with the new document, its
    position and the document. *)
Definition rechargeOpen (now : Z) (random : string) (uid : ObjectId)
    (r : RechargeReq) (db : Db) : Response + Db * nat * Transaction.t :=
  if negb (validRecharge r) then inl (mkResponse 400 false "Validation failed")
  else
    match reqAmount r, reqPaymentMethod r with
    | Some a, Some m =>
        match users db !! uid with
        | None => inl (mkResponse 404 false "User not found")
        | Some u =>
            let x := newRecharge (generateTransactionId now random) uid a m u in
            match insertTx x db with
            | Some db1 => inr (db1, length (transactions db), x)
            | None =>
                inl (mkResponse 500 false
                       "Server error occurred while initiating payment")
            end
        end
    | _, _ => inl (mkResponse 400 false "Validation failed")
    end.

(** Second half: the bKash payment session for a [bkash] recharge. *)
Definition rechargeGateway (gw : Bkash.t) (now : Z) (i : nat)
    (x : Transaction.t) (db1 : Db) : Db * Response :=
  if String.eqb (paymentMethod x) "bkash" then
    match Bkash.withToken gw (Bkash.create gw (transactionId x) (amount x)) with
    | Some cd =>
        let g := paymentGateway x in
        let x' :=
          set_paymentGateway
            (mkGateway (Some "bkash") (gwTransactionId g)
               (Bkash.paymentID cd)
               (reference g) (fee g)) x in
        (saveTx i x' db1, mkResponse 200 true "Payment initiated successfully")
    | None =>
        (saveTx i (markFailed "bKash payment creation failed" now x) db1,
         mkResponse 500 false "Failed to create bKash payment")
    end
  else (db1, mkResponse 200 true "Payment initiated successfully").

(** [POST /api/payments/recharge] for the authenticated user [uid]. *)
Definition recharge (gw : Bkash.t) (now : Z) (random : string)
    (uid : ObjectId) (r : RechargeReq) (db : Db) : Db * Response :=
  match rechargeOpen now random uid r db with
  | inl resp => (db, resp)
  | inr (db1, i, x) => rechargeGateway gw now i x db1
  end.

(** [status === 'success'] *)
Definition isSuccess (o : option JsValue) : bool :=
  match o with
  | Some (JStr s) => String.eqb s "success"
  | _ => false
  end.

(** Lines 187-200: credit the owner, mark the transaction completed,
    record [balanceAfter].  [None] when the owner is gone (the
    [TypeError] on [user.accountBalance]). *)
Definition credit (gd : GatewayData) (now : Z) (i : nat) (x : Transaction.t)
    (db : Db) : option (Db * User.t) :=
  match users db !! user x with
  | None => None
  | Some u =>
      let u' := User.set_accountBalance (User.accountBalance u + amount x) u in
      let x' := set_balanceAfter (User.accountBalance u')
                  (markCompleted gd now x) in
      Some (saveTx i x' (set_users (<[user x := u']> (users db)) db), u')
  end.

(** [POST /api/payments/callback] (public). *)
Definition callback (gw : Bkash.t) (now : Z) (body : Body) (db : Db)
    : Db * Response :=
  match findOne (castString (body !! "transactionId")) db with
  | None => (db, mkResponse 404 false "Transaction not found")
  | Some (i, x) =>
      if isSuccess (body !! "status") then
        match Bkash.withToken gw (Bkash.execute gw (body !! "paymentID")) with
        | Some ex =>
            if String.eqb (Bkash.statusCode ex) "0000" then
              match credit (mkGatewayData (Bkash.trxID ex)
                              (Bkash.merchantInvoiceNumber ex) None)
                           now i x db with
              | Some (db', _) =>
                  (db', mkResponse 200 true "Payment completed successfully")
              | None =>
                  (saveTx i (markFailed "Payment execution error" now x) db,
                   mkResponse 500 false "Payment execution failed")
              end
            else
              (saveTx i (markFailed ("bKash execution failed: "
                                     +:+ Bkash.statusMessage ex) now x) db,
               mkResponse 400 false "Payment execution failed")
        | None =>
            (saveTx i (markFailed "Payment execution error" now x) db,
             mkResponse 500 false "Payment execution failed")
        end
      else
        (saveTx i (markFailed "Payment cancelled by user" now x) db,
         mkResponse 200 false "Payment was cancelled")
  end.

(** [body('transactionId').notEmpty()] *)
Definition notEmpty (o : option JsValue) : bool :=
  match o with
  | Some (JStr s) => negb (String.eqb s "")
  | Some (JNum _) | Some (JBool _) => true
  | Some JNull | None => false
  end.

(** [POST /api/payments/verify] for the authenticated user [uid]. *)
Definition verify (gw : Bkash.t) (now : Z) (uid : ObjectId) (body : Body)
    (db : Db) : Db * Response :=
  if negb (notEmpty (body !! "transactionId")) then
    (db, mkResponse 400 false "Validation failed")
  else
    match findOneOf (castString (body !! "transactionId")) uid db with
    | None => (db, mkResponse 404 false "Transaction not found")
    | Some (i, x) =>
        if bool_decide (status x = completed) then
          (db, mkResponse 200 true "Transaction already completed")
        else if String.eqb (paymentMethod x) "bkash"
                && bool_decide (status x = pending) then
          match Bkash.withToken gw
                  (Bkash.queryStatus gw (paymentId (paymentGateway x))) with
          | Some q =>
              if String.eqb (Bkash.statusCode q) "0000" then
                match credit (mkGatewayData (Bkash.trxID q) None None)
                             now i x db with
                | Some (db', _) => (db', mkResponse 200 true "")
                | None => (db, mkResponse 200 true "")
                end
              else (db, mkResponse 200 true "")
          | None => (db, mkResponse 200 true "")
          end
        else (db, mkResponse 200 true "")
    end.

End Payments.

(** ** routes/posts.js (in src/unnamed/part_001):
    [POST /api/posts/:id/contact] *)

Module Posts.

Import Transaction.

(** The document built at lines 775-790, from the post and the user
    document after the deduction. *)
Definition newContactView (id : string) (uid pid : ObjectId) (p : Post.t)
    (u' : User.t) (now : Z) : Transaction.t :=
  Transaction.mk id uid contact_view 5 "account_balance" noGateway completed
    ("Contact view for post: " +:+ Post.title p)
    (Some pid) (Some (Post.postedBy p)) (Some now) None
    (Some (User.accountBalance u' + 5)) (Some (User.accountBalance u')).

(** [post.save()] after [incrementContactViews]: the modified path only. *)
Definition savePostViews (pid : ObjectId) (p : Post.t) (db : Db) : Db :=
  set_posts
    (alter (λ old, Post.mk (Post.title old) (Post.postedBy old)
                     (Post.contactInfo old) (Post.contactViews p))
           pid (posts db)) db.

(** [error.message] of a rejected insert. *)
Definition insertError (x : Transaction.t) : string :=
  if validate x then "E11000 duplicate key error"
  else "Transaction validation failed: paymentMethod".

Definition notFound := mkResponse 404 false "Post not found".
Definition insufficient :=
  mkResponse 400 false "Insufficient balance. Please recharge your account.".
Definition unlocked :=
  mkResponse 200 true "Contact information retrieved successfully".

(** The handler for the authenticated user [uid] and the post [pid], run
    from start to end without another request in between. *)
Definition contact (now : Z) (random : string) (uid pid : ObjectId) (db : Db)
    : Db * Response :=
  match posts db !! pid with
  | None => (db, notFound)
  | Some p =>
      match users db !! uid with
      | None => (db, mkResponse 500 false "Cannot read properties of null")
      | Some u =>
          if negb (User.canViewContact u) then (db, insufficient)
          else
            match User.deductContactViewCost u with
            | None => (db, mkResponse 500 false "Insufficient balance")
            | Some u' =>
                let db1 := saveUserBalance uid u' db in
                let x := newContactView (generateTransactionId now random)
                           uid pid p u' now in
                match insertTx x db1 with
                | None => (db1, mkResponse 500 false (insertError x))
                | Some db2 =>
                    (savePostViews pid (Post.incrementContactViews p) db2,
                     unlocked)
                end
            end
      end
  end.

(** *** The same handler, one step per [await]

    Where a request stands between two database round trips, with the
    documents it holds in memory. *)
Inductive Pc :=
  | Start                                     (* before Post.findById *)
  | HavePost (p : Post.t)                     (* before User.findById *)
  | Saving (p : Post.t) (u' : User.t)         (* user.save() under way *)
  | Inserting (p : Post.t) (u' : User.t)      (* transaction.save() under way *)
  | Counting (p : Post.t)                     (* post.save() under way *)
  | Done (r : Response).

Definition cstep (now : Z) (random : string) (uid pid : ObjectId)
    (db : Db) (pc : Pc) : Db * Pc :=
  match pc with
  | Start =>
      match posts db !! pid with
      | None => (db, Done notFound)
      | Some p => (db, HavePost p)
      end
  | HavePost p =>
      match users db !! uid with
      | None => (db, Done (mkResponse 500 false "Cannot read properties of null"))
      | Some u =>
          if negb (User.canViewContact u) then (db, Done insufficient)
          else
            match User.deductContactViewCost u with
            | None => (db, Done (mkResponse 500 false "Insufficient balance"))
            | Some u' => (db, Saving p u')
            end
      end
  | Saving p u' => (saveUserBalance uid u' db, Inserting p u')
  | Inserting p u' =>
      let x := newContactView (generateTransactionId now random)
                 uid pid p u' now in
      match insertTx x db with
      | None => (db, Done (mkResponse 500 false (insertError x)))
      | Some db2 => (db2, Counting (Post.incrementContactViews p))
      end
  | Counting p' => (savePostViews pid p' db, Done unlocked)
  | Done r => (db, Done r)
  end.

End Posts.

(** *** Two contact requests in flight

    Node runs one handler at a time between two [await]s, so a run of two
    requests is a list saying who takes the next step. *)

Module Race.

Import Posts.

Inductive Who := First | Second.

(** The parameters of one request. *)
Record Req := mkReq {
  now : Z;
  random : string;
  uid : ObjectId;
  pid : ObjectId
}.

Record St := mkSt {
  db : Db;
  pc1 : Pc;
  pc2 : Pc
}.

Definition step1 (a b : Req) (st : St) (w : Who) : St :=
  match w with
  | First =>
      let '(d, p) := cstep (now a) (random a) (uid a) (pid a) (db st) (pc1 st) in
      mkSt d p (pc2 st)
  | Second =>
      let '(d, p) := cstep (now b) (random b) (uid b) (pid b) (db st) (pc2 st) in
      mkSt d (pc1 st) p
  end.

Definition race (a b : Req) (sched : list Who) (d : Db) : St :=
  fold_left (step1 a b) sched (mkSt d Start Start).

End Race.

(** ** routes/auth.js (src/unnamed/part_003): [PUT /api/auth/profile] *)

Module Auth.

(** The five [delete updates.<key>] statements. *)
Definition strip (body : Body) : Body :=
  delete "isBanned"
    (delete "isVerified"
       (delete "accountBalance"
          (delete "email"
             (delete "password" body)))).

(** [$set] of one top-level path of the user schema to a value of the
    path's own JSON type, stored as given: the schema's setters ([trim]
    on [name]) are not applied.  Paths the schema does not have are
    dropped (strict mode); nothing here knows which keys the handler
    stripped. *)
Definition setPath (k : string) (v : JsValue) (u : User.t) : User.t :=
  let '(User.mk n e ph pw ut bal sp ea ver act ban) := u in
  match v with
  | JStr s =>
      if String.eqb k "name" then User.mk s e ph pw ut bal sp ea ver act ban
      else if String.eqb k "email" then User.mk n s ph pw ut bal sp ea ver act ban
      else if String.eqb k "phone" then User.mk n e s pw ut bal sp ea ver act ban
      else if String.eqb k "password" then User.mk n e ph s ut bal sp ea ver act ban
      else if String.eqb k "userType" then User.mk n e ph pw s bal sp ea ver act ban
      else u
  | JNum z =>
      if String.eqb k "accountBalance" then User.mk n e ph pw ut z sp ea ver act ban
      else if String.eqb k "totalSpent" then User.mk n e ph pw ut bal z ea ver act ban
      else if String.eqb k "totalEarned" then User.mk n e ph pw ut bal sp z ver act ban
      else u
  | JBool b =>
      if String.eqb k "isVerified" then User.mk n e ph pw ut bal sp ea b act ban
      else if String.eqb k "isActive" then User.mk n e ph pw ut bal sp ea ver b ban
      else if String.eqb k "isBanned" then User.mk n e ph pw ut bal sp ea ver act b
      else u
  | JNull => u
  end.

Definition stringPaths : list string :=
  ["name"; "email"; "phone"; "password"; "userType"].
Definition numberPaths : list string :=
  ["accountBalance"; "totalSpent"; "totalEarned"].
Definition booleanPaths : list string :=
  ["isVerified"; "isActive"; "isBanned"].

(** Casting and [runValidators] for one path, on values of the path's own
    JSON type: [userType] must be within its [enum].  A value of another
    type is taken as a failed cast (Mongoose would convert some of them,
    a number on a [String] path for one), and the [required] and [unique]
    checks on [name] and [phone] are not modelled; what is proved about
    the values an update stores is stated for the paths without such
    checks.  A failure rejects the whole update. *)
Definition pathOk (k : string) (v : JsValue) : bool :=
  if bool_decide (k ∈ stringPaths) then
    match v with
    | JStr s => if String.eqb k "userType"
                then bool_decide (s ∈ User.userTypes) else true
    | _ => false
    end
  else if bool_decide (k ∈ numberPaths) then
    match v with JNum _ => true | _ => false end
  else if bool_decide (k ∈ booleanPaths) then
    match v with JBool _ => true | _ => false end
  else true.

(** [{ $set: updates }] applied to a document. *)
Definition applySet (updates : Body) (u : User.t) : User.t :=
  map_fold setPath u updates.

(** The handler for the authenticated user [uid]. *)
Definition profile (uid : ObjectId) (body : Body) (db : Db) : Db * Response :=
  let updates := strip body in
  if bool_decide (map_Forall (λ k v, pathOk k v = true) updates) then
    match users db !! uid with
    | None => (db, mkResponse 404 false "User not found")
    | Some u =>
        (set_users (<[uid := applySet updates u]> (users db)) db,
         mkResponse 200 true "Profile updated successfully")
    end
  else (db, mkResponse 500 false "Server error occurred while updating profile").

End Auth.

(** ** Sequences of requests *)

Inductive Op :=
  | Recharge (gw : Bkash.t) (now : Z) (random : string) (uid : ObjectId)
      (r : Payments.RechargeReq)
  | Callback (gw : Bkash.t) (now : Z) (body : Body)
  | Verify (gw : Bkash.t) (now : Z) (uid : ObjectId) (body : Body)
  | Contact (now : Z) (random : string) (uid pid : ObjectId)
  | Profile (uid : ObjectId) (body : Body).

Definition handle (o : Op) (db : Db) : Db * Response :=
  match o with
  | Recharge gw now random uid r => Payments.recharge gw now random uid r db
  | Callback gw now body => Payments.callback gw now body db
  | Verify gw now uid body => Payments.verify gw now uid body db
  | Contact now random uid pid => Posts.contact now random uid pid db
  | Profile uid body => Auth.profile uid body db
  end.

(** The database after the requests [ops], served one after the other. *)
Definition run (ops : list Op) (db : Db) : Db :=
  fold_left (λ d o, fst (handle o d)) ops db.

(** The responses, in order. *)
Fixpoint responses (ops : list Op) (db : Db) : list Response :=
  match ops with
  | [] => []
  | o :: rest => snd (handle o db) :: responses rest (fst (handle o db))
  end.

(** The balance of a user, [None] for an unknown id. *)
Definition balanceOf (uid : ObjectId) (db : Db) : option Z :=
  User.accountBalance <$> users db !! uid.

(** ** The arithmetic of the money routes on binary64

    The statements that move money, on IEEE 754 doubles as the standard
    library specifies them ([SpecFloat], precision 53, largest exponent
    1024): what the integers of the handlers above stand for. *)

Module Binary64.

Abbreviation t := SpecFloat.spec_float.

Definition add : t → t → t := SpecFloat.SFadd 53 1024.
Definition sub : t → t → t := SpecFloat.SFsub 53 1024.

(** [a >= b], false when either side is [NaN]. *)
Definition geb (a b : t) : bool := SpecFloat.SFleb b a.

(** The double nearest to a whole number, and the double nearest to the
    quotient of two whole numbers of magnitude below 2^53: the number a
    JSON literal such as 10.1 denotes, as 101/10. *)
Definition ofZ (n : Z) : t := SpecFloat.binary_normalize 53 1024 n 0 false.
Definition ratio (n d : Z) : t := SpecFloat.SFdiv 53 1024 (ofZ n) (ofZ d).

(** [user.accountBalance += transaction.amount] (routes/payments.js). *)
Definition credit (balance amount : t) : t := add balance amount.

(** [canViewContact] (models/User.js). *)
Definition canViewContact (balance : t) : bool := geb balance (ofZ 5).

(** [deductContactViewCost] (models/User.js): the new balance and the new
    [totalSpent], [None] for the thrown error. *)
Definition deductContactViewCost (balance spent : t) : option (t * t) :=
  if geb balance (ofZ 5) then Some (sub balance (ofZ 5), add spent (ofZ 5))
  else None.

End Binary64.

(** * Properties *)

(** ** Basic facts about the store *)

Section Store.

Implicit Types (db : Db) (x : Transaction.t) (l : list Transaction.t).

Lemma findOne_lookup tid db i x :
  findOne tid db = Some (i, x) → transactions db !! i = Some x.
Proof.
  destruct tid as [s|]; simpl; [|done].
  by intros (? & _)%list_find_Some.
Qed.

Lemma findOneOf_lookup tid uid db i x :
  findOneOf tid uid db = Some (i, x) → transactions db !! i = Some x.
Proof.
  destruct tid as [s|]; simpl; [|done].
  by intros (? & _)%list_find_Some.
Qed.

Lemma saveTx_lookup i x db :
  (i < length (transactions db))%nat →
  transactions (saveTx i x db) !! i = Some x.
Proof. intros. simpl. by apply list_lookup_insert_eq. Qed.

Lemma insertTx_Some x db db' :
  insertTx x db = Some db' →
  Transaction.validate x = true
  ∧ findOne (Some (Transaction.transactionId x)) db = None
  ∧ db' = set_transactions (transactions db ++ [x]) db.
Proof.
  unfold insertTx. destruct (Transaction.validate x); [|done].
  destruct (findOne _ db); [done|]. by intros [= <-].
Qed.

Lemma insertTx_fresh x db :
  Transaction.validate x = true →
  findOne (Some (Transaction.transactionId x)) db = None →
  insertTx x db = Some (set_transactions (transactions db ++ [x]) db).
Proof. unfold insertTx. by intros -> ->. Qed.

Lemma insertTx_taken x db :
  is_Some (findOne (Some (Transaction.transactionId x)) db) →
  insertTx x db = None.
Proof.
  unfold insertTx. intros [? ->]. by destruct (Transaction.validate x).
Qed.

(** The contact route's document never passes the schema: its payment
    method is not in the [enum] of models/Transaction.js. *)
Lemma contact_view_rejected id uid pid p u' now db :
  insertTx (Posts.newContactView id uid pid p u' now) db = None.
Proof. done. Qed.

End Store.

(** ** The profile update cannot reach the protected fields *)

Definition protectedKeys : list string :=
  ["password"; "email"; "accountBalance"; "isVerified"; "isBanned"].

(** The five fields the handler strips from the update. *)
Definition protected (u : User.t) : Z * string * string * bool * bool :=
  (User.accountBalance u, User.password u, User.email u,
   User.isVerified u, User.isBanned u).

Lemma strip_lookup_protected (body : Body) k :
  k ∈ protectedKeys → Auth.strip body !! k = None.
Proof.
  unfold protectedKeys, Auth.strip. rewrite !elem_of_cons, elem_of_nil.
  intros [->|[->|[->|[->|[->|[]]]]]];
    repeat first [ apply lookup_delete_eq | rewrite lookup_delete_ne by done ].
Qed.


Lemma setPath_protected k v u :
  k ∉ protectedKeys → protected (Auth.setPath k v u) = protected u.
Proof.
  unfold protectedKeys. rewrite !not_elem_of_cons. intros (? & ? & ? & ? & ? & _).
  destruct u, v; simpl;
    repeat match goal with
           | |- context [String.eqb k ?s] =>
               destruct (String.eqb_spec k s); [subst; try done|]
           end; done.
Qed.

Lemma applySet_protected (updates : Body) u :
  (∀ k, k ∈ protectedKeys → updates !! k = None) →
  protected (Auth.applySet updates u) = protected u.
Proof.
  unfold Auth.applySet.
  apply (map_fold_weak_ind
           (λ r (m : Body), (∀ k, k ∈ protectedKeys → m !! k = None) →
                            protected r = protected u)).
  - done.
  - intros k v m r Hk IH Hm.
    rewrite setPath_protected.
    + apply IH. intros k' Hk'. specialize (Hm k' Hk').
      destruct (decide (k = k')) as [->|]; [done|].
      by rewrite lookup_insert_ne in Hm.
    + intros Hin. specialize (Hm k Hin). by rewrite lookup_insert_eq in Hm.
Qed.

(** Without the [delete]s the update would reach the balance: the model of
    [$set] does write [accountBalance] when the key is present. *)
Example applySet_writes_balance :
  let u := User.mk "A" "a@x.bd" "017" "h" "student" 0 0 0 false true false in
  User.accountBalance (Auth.applySet {[ "accountBalance" := JNum 999 ]} u) = 999.
Proof. reflexivity. Qed.

Lemma profile_protected uid body db uid' :
  protected <$> users (Auth.profile uid body db).1 !! uid'
  = protected <$> users db !! uid'.
Proof.
  unfold Auth.profile. case_bool_decide; [|done].
  destruct (users db !! uid) as [u|] eqn:Hu; [|done]. simpl.
  destruct (decide (uid = uid')) as [<-|].
  - rewrite lookup_insert_eq, Hu. simpl. f_equal.
    apply applySet_protected. intros. by apply strip_lookup_protected.
  - by rewrite lookup_insert_ne.
Qed.

(** C10.  Whatever the body of [PUT /api/auth/profile] holds, the update
    leaves [accountBalance], [password], [email], [isVerified] and
    [isBanned] of the caller (and of every other user) as they were. *)
Theorem profile_update_keeps_protected_fields :
  ∀ (uid : ObjectId) (body : Body) (db : Db) (uid' : ObjectId),
    protected <$> users (Auth.profile uid body db).1 !! uid'
    = protected <$> users db !! uid'.
Proof. intros. apply profile_protected. Qed.

(** ** The webhook callback *)

Section Callback.

Import Transaction Payments.

Variables (gw : Bkash.t) (now : Z).

(** The callback reads three keys of the body and nothing else. *)
Lemma callback_body_ext (b1 b2 : Body) db :
  b1 !! "transactionId" = b2 !! "transactionId" →
  b1 !! "status" = b2 !! "status" →
  b1 !! "paymentID" = b2 !! "paymentID" →
  callback gw now b1 db = callback gw now b2 db.
Proof. unfold callback. by intros -> -> ->. Qed.

Lemma delete_amount_lookup (b1 b2 : Body) k :
  delete "amount" b1 = delete "amount" b2 → k ≠ "amount" →
  b1 !! k = b2 !! k.
Proof.
  intros Heq Hk.
  rewrite <- (lookup_delete_ne b1 "amount" k), <- (lookup_delete_ne b2 "amount" k)
    by done.
  by rewrite Heq.
Qed.

Lemma credit_Some gd i x db db' u' :
  credit gd now i x db = Some (db', u') →
  ∃ u, users db !! user x = Some u
       ∧ u' = User.set_accountBalance (User.accountBalance u + amount x) u
       ∧ db' = saveTx i (set_balanceAfter (User.accountBalance u + amount x)
                           (markCompleted gd now x))
                 (set_users (<[user x := u']> (users db)) db).
Proof.
  unfold credit. destruct (users db !! user x) as [u|]; [|done].
  intros [= <- <-]. eauto.
Qed.

(** What a completed callback has done to the database. *)
Lemma callback_completed body db db' :
  callback gw now body db
  = (db', mkResponse 200 true "Payment completed successfully") →
  ∃ i x u ex,
    findOne (castString (body !! "transactionId")) db = Some (i, x)
    ∧ users db !! user x = Some u
    ∧ Bkash.withToken gw (Bkash.execute gw (body !! "paymentID")) = Some ex
    ∧ db' = saveTx i
              (set_balanceAfter (User.accountBalance u + amount x)
                 (markCompleted (mkGatewayData (Bkash.trxID ex)
                                   (Bkash.merchantInvoiceNumber ex) None) now x))
              (set_users
                 (<[user x :=
                      User.set_accountBalance (User.accountBalance u + amount x) u]>
                    (users db)) db).
Proof.
  unfold callback.
  destruct (findOne _ db) as [[i x]|] eqn:Hf; [|done].
  destruct (isSuccess _); [|done].
  destruct (Bkash.withToken _ _) as [ex|]; [|done].
  destruct (String.eqb _ "0000"); [|done].
  destruct (credit _ now i x db) as [[d u']|] eqn:Hc; [|done].
  intros [= <-]. apply credit_Some in Hc as (u & Hu & -> & ->).
  by exists i, x, u, ex.
Qed.

End Callback.

(** C8.  Two callback requests that differ at most in an [amount] field
    have the same effect and the same response; and when a callback
    credits a balance, the sum added is the [amount] of the stored
    transaction. *)
Theorem callback_never_uses_request_amount :
  ∀ (gw : Bkash.t) (now : Z) (b1 b2 : Body) (db : Db),
    delete "amount" b1 = delete "amount" b2 →
    Payments.callback gw now b1 db = Payments.callback gw now b2 db
    ∧ ∀ db', Payments.callback gw now b1 db
             = (db', mkResponse 200 true "Payment completed successfully") →
        ∃ i x u,
          findOne (castString (b1 !! "transactionId")) db = Some (i, x)
          ∧ users db !! Transaction.user x = Some u
          ∧ balanceOf (Transaction.user x) db'
            = Some (User.accountBalance u + Transaction.amount x).
Proof.
  intros gw now b1 b2 db Heq. split.
  - apply callback_body_ext; by apply delete_amount_lookup.
  - intros db' (i & x & u & ex & Hf & Hu & _ & ->)%callback_completed.
    exists i, x, u. split_and!; [done..|].
    unfold balanceOf. simpl. by rewrite lookup_insert_eq.
Qed.

(** C7, as stated, fails: a callback for an unknown transaction id is
    answered with 404, not with a 200-class acknowledgment. *)
Lemma callback_unknown_id_is_404 :
  let gw := Bkash.mk None (λ _ _, None) (λ _, None) (λ _, None) in
  let body : Body := {[ "transactionId" := JStr "FND0"; "status" := JStr "success" ]} in
  ¬ (200 ≤ code (Payments.callback gw 0 body (mkDb ∅ [] ∅)).2 < 300)%nat.
Proof. vm_compute. lia. Qed.

(** C7, amended.  For a callback whose [transactionId] is a string: the
    answer is 404, and the database is left alone, when no stored
    transaction carries that id.  When the id is that of a pending
    transaction, the answer is 200 with [success: true] when the request
    says [success], the gateway executes the payment with status code
    "0000" and the owner exists (the transaction is then recorded
    [completed]); 200 with [success: false] when the request reports
    anything but [success]; 400 when the gateway declines; 500 when the
    token or execute call fails or the owner is gone.  In each of the last
    three cases the transaction is recorded [failed]. *)
Theorem callback_response_matches_outcome :
  ∀ (gw : Bkash.t) (now : Z) (body : Body) (db : Db) (tid : string),
    body !! "transactionId" = Some (JStr tid) →
    let exec := Bkash.withToken gw (Bkash.execute gw (body !! "paymentID")) in
    let db' := (Payments.callback gw now body db).1 in
    let r := (Payments.callback gw now body db).2 in
    ((∀ x, x ∈ transactions db → Transaction.transactionId x ≠ tid) →
       code r = 404%nat ∧ db' = db)
    ∧ ∀ i x, findOne (Some tid) db = Some (i, x) →
        Transaction.status x = Transaction.pending →
        ∃ x', transactions db' !! i = Some x'
          ∧ Transaction.transactionId x' = tid
          ∧ (Payments.isSuccess (body !! "status") = false →
               code r = 200%nat ∧ success r = false
               ∧ Transaction.status x' = Transaction.failed)
          ∧ (Payments.isSuccess (body !! "status") = true →
               match exec with
               | None => code r = 500%nat ∧ Transaction.status x' = Transaction.failed
               | Some ex =>
                   if String.eqb (Bkash.statusCode ex) "0000" then
                     match users db !! Transaction.user x with
                     | Some _ =>
                         code r = 200%nat ∧ success r = true
                         ∧ Transaction.status x' = Transaction.completed
                     | None =>
                         code r = 500%nat
                         ∧ Transaction.status x' = Transaction.failed
                     end
                   else code r = 400%nat ∧ Transaction.status x' = Transaction.failed
               end).
Proof.
  intros gw now body db tid Hid exec db' r. subst db' r.
  unfold Payments.callback. fold exec. rewrite Hid. simpl castString. split.
  - intros Hnone.
    assert (findOne (Some tid) db = None) as ->; [|done].
    apply list_find_None, Forall_forall. intros x Hx. by apply Hnone.
  - intros i x Hf _. rewrite Hf.
    pose proof (findOne_lookup _ _ _ _ Hf) as Hi.
    assert (Transaction.transactionId x = tid) as Hx.
    { simpl in Hf. by apply list_find_Some in Hf as (_ & ? & _). }
    apply lookup_lt_Some in Hi.
    destruct (Payments.isSuccess _).
    + destruct exec as [ex|].
      * destruct (String.eqb _ "0000").
        -- unfold Payments.credit.
           destruct (users db !! Transaction.user x) as [u|]; simpl;
             (eexists; split; [by apply list_lookup_insert_eq|]); done.
        -- simpl. eexists; split; [by apply list_lookup_insert_eq|]. done.
      * simpl. eexists; split; [by apply list_lookup_insert_eq|]. done.
    + simpl. eexists; split; [by apply list_lookup_insert_eq|]. done.
Qed.

(** ** The paywall, one request at a time *)

Section Contact.

Import Posts.

Variables (now : Z) (random : string) (uid pid : ObjectId).

Lemma contact_refused db u :
  users db !! uid = Some u → User.accountBalance u < 5 →
  contact now random uid pid db
  = (db, match posts db !! pid with Some _ => insufficient | None => notFound end).
Proof.
  intros Hu Hlt. unfold contact. rewrite Hu.
  destruct (posts db !! pid); [|done].
  unfold User.canViewContact.
  by destruct (Z.leb_spec 5 (User.accountBalance u)); [lia|].
Qed.

(** A request that gets past the check writes the balance less five and
    then fails on the insert of its transaction. *)
Lemma contact_debits db u p :
  users db !! uid = Some u → posts db !! pid = Some p →
  5 ≤ User.accountBalance u →
  ∃ msg,
    contact now random uid pid db
    = (saveUserBalance uid
         (User.set_totalSpent (User.totalSpent u + 5)
            (User.set_accountBalance (User.accountBalance u - 5) u)) db,
       mkResponse 500 false msg).
Proof.
  intros Hu Hp Hle. unfold contact. rewrite Hu, Hp.
  unfold User.canViewContact, User.deductContactViewCost.
  destruct (Z.leb_spec 5 (User.accountBalance u)); [|lia]. simpl negb. cbv iota.
  rewrite contact_view_rejected. eauto.
Qed.

(** The five steps of [cstep], taken without interruption, are
    [contact]. *)
Lemma contact_steps db :
  let s1 := cstep now random uid pid db Start in
  let s2 := cstep now random uid pid s1.1 s1.2 in
  let s3 := cstep now random uid pid s2.1 s2.2 in
  let s4 := cstep now random uid pid s3.1 s3.2 in
  let s5 := cstep now random uid pid s4.1 s4.2 in
  s5 = ((contact now random uid pid db).1, Done (contact now random uid pid db).2).
Proof.
  unfold contact. simpl.
  destruct (posts db !! pid) as [p|]; [|done]. simpl.
  destruct (users db !! uid) as [u|]; [|done]. simpl.
  destruct (User.canViewContact u); [|done]. simpl.
  destruct (User.deductContactViewCost u) as [u'|]; [|done]. simpl.
  reflexivity.
Qed.

End Contact.

(** C6.  A contact-view request by a user whose balance is below the price
    of 5 changes nothing in the database (balance, [totalSpent] and the
    stored transactions included), and, the post being there, is answered
    with the insufficient-balance error. *)
Theorem contact_insufficient_balance_no_effect :
  ∀ (now : Z) (random : string) (uid pid : ObjectId) (db : Db) (u : User.t),
    users db !! uid = Some u →
    User.accountBalance u < 5 →
    (Posts.contact now random uid pid db).1 = db
    ∧ (is_Some (posts db !! pid) →
       (Posts.contact now random uid pid db).2 = Posts.insufficient).
Proof.
  intros now random uid pid db u Hu Hlt.
  rewrite (contact_refused _ _ _ _ _ _ Hu Hlt). split; [done|].
  by intros [p ->].
Qed.

(** ** Recharge initiation *)

Section Ids.

Lemma string_app_inj_length (a a' r r' : string) :
  String.length a = String.length a' →
  a +:+ r = a' +:+ r' → a = a' ∧ r = r'.
Proof.
  revert a'. induction a as [|c a IH]; intros [|c' a'] Hlen Heq;
    simpl in *; try done.
  injection Heq as -> Heq. injection Hlen as Hlen.
  destruct (IH a' Hlen Heq) as [-> ->]. done.
Qed.

End Ids.

Section Recharge.

Import Transaction Payments.

Lemma validRecharge_spec r :
  validRecharge r = true ↔
  ∃ a m, reqAmount r = Some a ∧ reqPaymentMethod r = Some m
         ∧ 10 ≤ a ≤ 10000 ∧ m ∈ rechargeMethods.
Proof.
  unfold validRecharge, amountOk, methodOk. rewrite andb_true_iff.
  destruct (reqAmount r) as [a|], (reqPaymentMethod r) as [m|].
  - rewrite andb_true_iff, bool_decide_eq_true, !Z.leb_le. split.
    + intros [[??] ?]. exists a, m. auto.
    + intros (? & ? & [= <-] & [= <-] & [??] & ?). auto.
  - split; [by intros [_ ?]|]. by intros (? & ? & _ & ? & _).
  - split; [by intros [? _]|]. by intros (? & ? & ? & _).
  - split; [by intros [? _]|]. by intros (? & ? & ? & _).
Qed.

Lemma rechargeMethods_valid m : m ∈ rechargeMethods → m ∈ paymentMethods.
Proof.
  unfold rechargeMethods, paymentMethods. rewrite !elem_of_cons, elem_of_nil.
  intros [->|[->|[->|[]]]]; auto.
Qed.

Lemma rechargeGateway_users gw now i x db :
  users (rechargeGateway gw now i x db).1 = users db.
Proof.
  unfold rechargeGateway. destruct (String.eqb _ _); [|done].
  by destruct (Bkash.withToken _ _).
Qed.

Lemma rechargeGateway_transactions gw now x l db :
  transactions db = l ++ [x] →
  ∃ x', transactions (rechargeGateway gw now (length l) x db).1 = l ++ [x']
        ∧ transactionId x' = transactionId x
        ∧ amount x' = amount x
        ∧ user x' = user x
        ∧ balanceBefore x' = balanceBefore x
        ∧ balanceAfter x' = balanceAfter x
        ∧ (status x' = status x
           ∨ status x' = failed ∧ paymentMethod x = "bkash"
             ∧ Bkash.withToken gw (Bkash.create gw (transactionId x) (amount x))
               = None).
Proof.
  intros Hl. unfold rechargeGateway.
  assert (∀ y, <[length l := y]> (l ++ [x]) = l ++ [y]) as Hins.
  { intros y. rewrite insert_app_r_alt, Nat.sub_diag by done. done. }
  destruct (String.eqb_spec (paymentMethod x) "bkash") as [Hm|].
  - destruct (Bkash.withToken _ _) eqn:Hgw; simpl; rewrite Hl, Hins;
      eexists; (split; [done|]); simpl; naive_solver.
  - exists x. naive_solver.
Qed.

(** What a recharge request leaves in the ledger: nothing, or one more
    transaction with the caller's balance as [balanceBefore] and no
    [balanceAfter]. *)
Lemma recharge_snapshot gw now random uid r db :
  transactions (recharge gw now random uid r db).1 = transactions db
  ∨ ∃ u x', users db !! uid = Some u
      ∧ transactions (recharge gw now random uid r db).1 = transactions db ++ [x']
      ∧ balanceBefore x' = Some (User.accountBalance u)
      ∧ balanceAfter x' = None.
Proof.
  unfold recharge, rechargeOpen.
  destruct (validRecharge r); [|by left]. simpl.
  destruct (reqAmount r) as [a|]; [|by left].
  destruct (reqPaymentMethod r) as [m|]; [|by left].
  destruct (users db !! uid) as [u|]; [|by left].
  destruct (insertTx _ db) as [db1|] eqn:Hins; [|by left].
  apply insertTx_Some in Hins as (_ & _ & ->).
  destruct (rechargeGateway_transactions gw now
              (newRecharge (generateTransactionId now random) uid a m u)
              (transactions db)
              (set_transactions
                 (transactions db
                  ++ [newRecharge (generateTransactionId now random) uid a m u])
                 db) eq_refl)
    as (x' & Hl & _ & _ & _ & Hbb & Hba & _).
  right. by exists u, x'.
Qed.

(** The id of a draw differs from every id made from another draw at a
    clock value of as many digits. *)
Lemma other_draws_fresh now random db :
  (∀ y, y ∈ transactions db →
        ∃ now' random',
          transactionId y = generateTransactionId now' random'
          ∧ String.length (pretty now') = String.length (pretty now)
          ∧ (now' ≠ now ∨ random' ≠ random)) →
  findOne (Some (generateTransactionId now random)) db = None.
Proof.
  intros Hothers. apply list_find_None, Forall_forall. intros y Hy Heq.
  destruct (Hothers y Hy) as (now' & random' & Hid & Hlen & Hne).
  rewrite Hid in Heq. unfold generateTransactionId in Heq.
  injection Heq as Heq.
  destruct (string_app_inj_length _ _ _ _ Hlen Heq) as [Hnow Hrandom].
  apply (inj pretty) in Hnow. destruct Hne; congruence.
Qed.

End Recharge.

(** C9, amended.  A recharge request whose amount is missing, not a number
    or outside 10..10000, or whose payment method is not one of bkash,
    nagad, rocket, is answered with the validation error and leaves the
    database as it was.  For a request within bounds by an existing user
    the id is drawn from the clock and [Math.random] without a look at the
    collection.  When a stored transaction already carries the drawn id,
    the unique index refuses the insert: the answer is 500 and nothing is
    persisted.  Otherwise one transaction is appended under that id,
    which is therefore fresh: stored [pending] by the first [save], with
    the requested amount, the balance snapshot and no [balanceAfter], and
    turned to [failed] within the same request only when the bKash session
    cannot be opened.  The second case is the one that occurs when every
    stored id comes from another draw at a clock value of as many digits.
    No balance changes in any case. *)
Theorem recharge_validates_before_persisting :
  ∀ (gw : Bkash.t) (now : Z) (random : string) (uid : ObjectId)
    (r : Payments.RechargeReq) (db : Db),
    let id := Transaction.generateTransactionId now random in
    let out := Payments.recharge gw now random uid r db in
    (¬ (∃ a m, Payments.reqAmount r = Some a ∧ Payments.reqPaymentMethod r = Some m
               ∧ 10 ≤ a ≤ 10000 ∧ m ∈ Payments.rechargeMethods) →
       out = (db, mkResponse 400 false "Validation failed"))
    ∧ (∀ a m u,
         Payments.reqAmount r = Some a → Payments.reqPaymentMethod r = Some m →
         10 ≤ a ≤ 10000 → m ∈ Payments.rechargeMethods →
         users db !! uid = Some u →
         users out.1 = users db
         ∧ ((∃ y, y ∈ transactions db ∧ Transaction.transactionId y = id)
            ∧ out = (db, mkResponse 500 false
                           "Server error occurred while initiating payment")
            ∨ (∀ y, y ∈ transactions db → Transaction.transactionId y ≠ id)
              ∧ (let x := Payments.newRecharge id uid a m u in
                 Payments.rechargeOpen now random uid r db
                 = inr (set_transactions (transactions db ++ [x]) db,
                        length (transactions db), x)
                 ∧ Transaction.status x = Transaction.pending)
              ∧ ∃ x', transactions out.1 = transactions db ++ [x']
                  ∧ Transaction.transactionId x' = id
                  ∧ Transaction.user x' = uid
                  ∧ Transaction.amount x' = a
                  ∧ Transaction.balanceBefore x' = Some (User.accountBalance u)
                  ∧ Transaction.balanceAfter x' = None
                  ∧ (Transaction.status x' = Transaction.pending
                     ∨ Transaction.status x' = Transaction.failed ∧ m = "bkash"
                       ∧ Bkash.withToken gw (Bkash.create gw id a) = None))
         ∧ ((∀ y, y ∈ transactions db →
                  ∃ now' random',
                    Transaction.transactionId y
                    = Transaction.generateTransactionId now' random'
                    ∧ String.length (pretty now') = String.length (pretty now)
                    ∧ (now' ≠ now ∨ random' ≠ random)) →
            length (transactions out.1) = S (length (transactions db)))).
Proof.
  intros gw now random uid r db id out. subst out. split.
  - intros Hbad. unfold Payments.recharge, Payments.rechargeOpen.
    destruct (Payments.validRecharge r) eqn:Hv; [|done].
    by apply validRecharge_spec in Hv.
  - intros a m u Ha Hm Hbounds Hmeth Hu.
    assert (Payments.validRecharge r = true) as Hv.
    { apply validRecharge_spec. by exists a, m. }
    unfold Payments.recharge, Payments.rechargeOpen.
    rewrite Hv, Ha, Hm, Hu. simpl negb. cbv iota. fold id.
    destruct (findOne (Some id) db) as [[j y]|] eqn:Hf.
    + rewrite (insertTx_taken (Payments.newRecharge id uid a m u) db)
        by (simpl Transaction.transactionId; rewrite Hf; eauto).
      split; [done|]. split.
      * left. split; [|done]. exists y.
        simpl in Hf. apply list_find_Some in Hf as (Hj & Hy & _).
        split; [|done]. by eapply list_elem_of_lookup_2.
      * intros Hothers. apply other_draws_fresh in Hothers.
        fold id in Hothers. congruence.
    + rewrite insertTx_fresh; [| |done].
      2:{ unfold Transaction.validate. apply bool_decide_eq_true.
          by apply rechargeMethods_valid. }
      destruct (rechargeGateway_transactions gw now
                  (Payments.newRecharge id uid a m u) (transactions db)
                  (set_transactions
                     (transactions db ++ [Payments.newRecharge id uid a m u]) db)
                  eq_refl)
        as (x' & Hl & Hid & Hamt & Hown & Hbb & Hba & Hst).
      split; [by rewrite rechargeGateway_users|]. split.
      * right. split.
        { simpl in Hf. apply list_find_None in Hf.
          intros y Hy. by apply (proj1 (Forall_forall _ _) Hf y). }
        split; [done|].
        exists x'. simpl in *. by split_and!.
      * intros _. rewrite Hl, length_app. simpl. lia.
Qed.

(** ** Invariants of request sequences *)

(** No balance is negative and no stored amount is negative. *)
Definition ledger_ok (db : Db) : Prop :=
  map_Forall (λ _ u, 0 ≤ User.accountBalance u) (users db)
  ∧ Forall (λ x, 0 ≤ Transaction.amount x) (transactions db).

(** A pending transaction has no [balanceAfter]. *)
Definition pending_unset (db : Db) : Prop :=
  Forall (λ x, Transaction.status x = Transaction.pending →
               Transaction.balanceAfter x = None) (transactions db).

Section Invariants.

Import Transaction Payments.

Implicit Types (db : Db) (x : Transaction.t).

Lemma saveTx_ledger_ok i x db :
  ledger_ok db → 0 ≤ amount x → ledger_ok (saveTx i x db).
Proof. intros [Hu Ht] Hx. split; [done|]. simpl. by apply Forall_insert. Qed.

Lemma lookup_amount_nonneg db i x :
  ledger_ok db → transactions db !! i = Some x → 0 ≤ amount x.
Proof. intros [_ Ht] Hi. by apply (Forall_lookup_1 _ _ _ _ Ht Hi). Qed.

Lemma credit_ledger_ok gd now i x db db' u' :
  ledger_ok db → 0 ≤ amount x →
  credit gd now i x db = Some (db', u') → ledger_ok db'.
Proof.
  intros [Hu Ht] Hx (u & Hlu & -> & ->)%credit_Some.
  split; simpl.
  - apply map_Forall_insert_2; [|done]. simpl.
    specialize (Hu _ _ Hlu). simpl in Hu. lia.
  - by apply Forall_insert.
Qed.

Lemma callback_ledger_ok gw now body db :
  ledger_ok db → ledger_ok (callback gw now body db).1.
Proof.
  intros Hok. unfold callback.
  destruct (findOne _ db) as [[i x]|] eqn:Hf; [|done].
  assert (0 ≤ amount x) as Hx
    by eauto using lookup_amount_nonneg, findOne_lookup.
  destruct (isSuccess _); [|by apply saveTx_ledger_ok].
  destruct (Bkash.withToken _ _) as [ex|]; [|by apply saveTx_ledger_ok].
  destruct (String.eqb _ "0000"); [|by apply saveTx_ledger_ok].
  destruct (credit _ now i x db) as [[d u']|] eqn:Hc;
    [|by apply saveTx_ledger_ok].
  simpl. eauto using credit_ledger_ok.
Qed.

Lemma verify_ledger_ok gw now uid body db :
  ledger_ok db → ledger_ok (verify gw now uid body db).1.
Proof.
  intros Hok. unfold verify.
  destruct (notEmpty _); [|done]. simpl.
  destruct (findOneOf _ uid db) as [[i x]|] eqn:Hf; [|done].
  assert (0 ≤ amount x) as Hx
    by eauto using lookup_amount_nonneg, findOneOf_lookup.
  case_bool_decide; [done|].
  destruct (_ && _); [|done].
  destruct (Bkash.withToken _ _) as [q|]; [|done].
  destruct (String.eqb _ "0000"); [|done].
  destruct (credit _ now i x db) as [[d u']|] eqn:Hc; [|done].
  simpl. eauto using credit_ledger_ok.
Qed.

Lemma recharge_ledger_ok gw now random uid r db :
  ledger_ok db → ledger_ok (recharge gw now random uid r db).1.
Proof.
  intros [Hu Ht]. unfold recharge, rechargeOpen.
  destruct (validRecharge r) eqn:Hv; [|done]. simpl.
  apply validRecharge_spec in Hv as (a & m & -> & -> & Ha & _).
  destruct (users db !! uid) as [u|]; [|done].
  destruct (insertTx _ db) as [db1|] eqn:Hins; [|done].
  apply insertTx_Some in Hins as (_ & _ & ->).
  assert (ledger_ok (set_transactions
            (transactions db
             ++ [newRecharge (generateTransactionId now random) uid a m u]) db))
    as Hok1.
  { split; [done|]. simpl. apply Forall_app. split; [done|].
    apply Forall_singleton. simpl. lia. }
  unfold rechargeGateway. destruct (String.eqb _ "bkash"); [|done].
  destruct (Bkash.withToken _ _); apply saveTx_ledger_ok; simpl; try done; lia.
Qed.

Lemma saveUserBalance_ledger_ok uid u' db :
  ledger_ok db → 0 ≤ User.accountBalance u' →
  ledger_ok (saveUserBalance uid u' db).
Proof.
  intros [Hu Ht] Hb. split; [|done]. simpl.
  intros k v. rewrite lookup_alter.
  case_decide as Hk; [|by apply Hu].
  by intros (w & _ & ->)%fmap_Some.
Qed.

Lemma contact_ledger_ok now random uid pid db :
  ledger_ok db → ledger_ok (Posts.contact now random uid pid db).1.
Proof.
  intros Hok. unfold Posts.contact.
  destruct (posts db !! pid) as [p|]; [|done].
  destruct (users db !! uid) as [u|] eqn:Hu; [|done].
  unfold User.canViewContact, User.deductContactViewCost.
  destruct (Z.leb_spec 5 (User.accountBalance u)); [|done]. simpl negb. cbv iota.
  rewrite contact_view_rejected. simpl.
  apply saveUserBalance_ledger_ok; [done|]. simpl. lia.
Qed.

Lemma profile_ledger_ok uid body db :
  ledger_ok db → ledger_ok (Auth.profile uid body db).1.
Proof.
  intros [Hu Ht]. split.
  - intros k v Hk.
    pose proof (profile_protected uid body db k) as Hp.
    rewrite Hk in Hp. simpl in Hp.
    destruct (users db !! k) as [v0|] eqn:Hk0; [|done].
    injection Hp as Hp. unfold protected in Hp.
    specialize (Hu _ _ Hk0). simpl in Hu. congruence.
  - unfold Auth.profile. case_bool_decide; [|done].
    by destruct (users db !! uid).
Qed.

Lemma handle_ledger_ok o db : ledger_ok db → ledger_ok (handle o db).1.
Proof.
  destruct o; simpl;
    auto using recharge_ledger_ok, callback_ledger_ok, verify_ledger_ok,
               contact_ledger_ok, profile_ledger_ok.
Qed.

Lemma run_ledger_ok ops db : ledger_ok db → ledger_ok (run ops db).
Proof.
  revert db. induction ops as [|o ops IH]; intros db Hok; [done|].
  apply IH. by apply handle_ledger_ok.
Qed.

End Invariants.

(** C5.  From a database in which no balance and no stored amount is
    negative (an empty ledger in particular), no sequence of recharge,
    callback, verify, contact-view and profile requests makes any user's
    balance negative. *)
Theorem balance_never_negative :
  ∀ (ops : list Op) (db : Db) (uid : ObjectId) (b : Z),
    ledger_ok db →
    balanceOf uid (run ops db) = Some b →
    0 ≤ b.
Proof.
  intros ops db uid b Hok Hb.
  destruct (run_ledger_ok ops db Hok) as [Hu _].
  unfold balanceOf in Hb.
  destruct (users (run ops db) !! uid) as [u|] eqn:Hlu; [|done].
  injection Hb as <-. by apply (Hu _ _ Hlu).
Qed.

Section PendingUnset.

Import Transaction Payments.

Implicit Types (db : Db) (x : Transaction.t).

Lemma saveTx_pending_unset i x db :
  pending_unset db → (status x = pending → balanceAfter x = None) →
  pending_unset (saveTx i x db).
Proof. intros Hp Hx. unfold pending_unset. simpl. by apply Forall_insert. Qed.

Lemma callback_pending_unset gw now body db :
  pending_unset db → pending_unset (callback gw now body db).1.
Proof.
  intros Hok. unfold callback.
  destruct (findOne _ db) as [[i x]|]; [|done].
  destruct (isSuccess _); [|by apply saveTx_pending_unset].
  destruct (Bkash.withToken _ _) as [ex|]; [|by apply saveTx_pending_unset].
  destruct (String.eqb _ "0000"); [|by apply saveTx_pending_unset].
  unfold credit. destruct (users db !! user x);
    by apply saveTx_pending_unset.
Qed.

Lemma verify_pending_unset gw now uid body db :
  pending_unset db → pending_unset (verify gw now uid body db).1.
Proof.
  intros Hok. unfold verify.
  destruct (notEmpty _); [|done]. simpl.
  destruct (findOneOf _ uid db) as [[i x]|]; [|done].
  case_bool_decide; [done|].
  destruct (_ && _); [|done].
  destruct (Bkash.withToken _ _) as [q|]; [|done].
  destruct (String.eqb _ "0000"); [|done].
  unfold credit. destruct (users db !! user x); [|done].
  by apply saveTx_pending_unset.
Qed.

Lemma recharge_pending_unset gw now random uid r db :
  pending_unset db → pending_unset (recharge gw now random uid r db).1.
Proof.
  intros Hok. unfold recharge, rechargeOpen.
  destruct (validRecharge r); [|done]. simpl.
  destruct (reqAmount r) as [a|]; [|done].
  destruct (reqPaymentMethod r) as [m|]; [|done].
  destruct (users db !! uid) as [u|]; [|done].
  destruct (insertTx _ db) as [db1|] eqn:Hins; [|done].
  apply insertTx_Some in Hins as (_ & _ & ->).
  assert (pending_unset (set_transactions
            (transactions db
             ++ [newRecharge (generateTransactionId now random) uid a m u]) db))
    as Hok1.
  { unfold pending_unset. simpl. apply Forall_app. split; [done|].
    by apply Forall_singleton. }
  unfold rechargeGateway. destruct (String.eqb _ "bkash"); [|done].
  destruct (Bkash.withToken _ _); by apply saveTx_pending_unset.
Qed.

Lemma contact_transactions now random uid pid db :
  transactions (Posts.contact now random uid pid db).1 = transactions db.
Proof.
  unfold Posts.contact.
  destruct (posts db !! pid) as [p|]; [|done].
  destruct (users db !! uid) as [u|]; [|done].
  destruct (negb _); [done|].
  destruct (User.deductContactViewCost u); [|done].
  by rewrite contact_view_rejected.
Qed.

Lemma profile_transactions uid body db :
  transactions (Auth.profile uid body db).1 = transactions db.
Proof.
  unfold Auth.profile. case_bool_decide; [|done].
  by destruct (users db !! uid).
Qed.

Lemma handle_pending_unset o db :
  pending_unset db → pending_unset (handle o db).1.
Proof.
  destruct o; simpl;
    auto using recharge_pending_unset, callback_pending_unset,
               verify_pending_unset.
  - unfold pending_unset. by rewrite contact_transactions.
  - unfold pending_unset. by rewrite profile_transactions.
Qed.

Lemma run_pending_unset ops db : pending_unset db → pending_unset (run ops db).
Proof.
  revert db. induction ops as [|o ops IH]; intros db Hok; [done|].
  apply IH. by apply handle_pending_unset.
Qed.

(** What a completing [verify] does: the same credit as the callback. *)
Lemma verify_completes gw now uid body db i x u q :
  notEmpty (body !! "transactionId") = true →
  findOneOf (castString (body !! "transactionId")) uid db = Some (i, x) →
  status x = pending → paymentMethod x = "bkash" →
  Bkash.withToken gw (Bkash.queryStatus gw (paymentId (paymentGateway x)))
  = Some q →
  Bkash.statusCode q = "0000" →
  users db !! user x = Some u →
  (verify gw now uid body db).1
  = saveTx i
      (set_balanceAfter (User.accountBalance u + amount x)
         (markCompleted (mkGatewayData (Bkash.trxID q) None None) now x))
      (set_users
         (<[user x :=
              User.set_accountBalance (User.accountBalance u + amount x) u]>
            (users db)) db).
Proof.
  intros Hne Hf Hst Hm Hq Hc Hu. unfold verify.
  rewrite Hne, Hf, Hst, Hm, Hq, Hc. simpl.
  unfold credit. by rewrite Hu.
Qed.

End PendingUnset.

(** ** Signed amounts and the balance the ledger accounts for *)

(** The ledger stores amounts unsigned; the type of the transaction gives
    the direction (a recharge or a refund credits the owner, the paid
    features debit). *)
Definition signedAmount (x : Transaction.t) : Z :=
  match Transaction.type x with
  | Transaction.recharge | Transaction.refund => Transaction.amount x
  | Transaction.contact_view | Transaction.featured_post
  | Transaction.subscription => - Transaction.amount x
  end.

(** Sum of the signed amounts of the completed transactions of [uid]. *)
Definition completedTotal (uid : ObjectId) (db : Db) : Z :=
  foldr Z.add 0
    (signedAmount <$>
       filter (λ x, Transaction.user x = uid
                    ∧ Transaction.status x = Transaction.completed)
              (transactions db)).

(** The before/after snapshots of every transaction agree with its status:
    unset [balanceAfter] while pending, a difference of exactly the signed
    amount once completed. *)
Definition snapshots_consistent (db : Db) : Prop :=
  Forall (λ x,
            match Transaction.status x with
            | Transaction.pending => Transaction.balanceAfter x = None
            | Transaction.completed =>
                ∃ b a, Transaction.balanceBefore x = Some b
                       ∧ Transaction.balanceAfter x = Some a
                       ∧ a - b = signedAmount x
            | _ => True
            end) (transactions db).

(** ** A concrete run: one user, two recharges, the gateway approving *)

Module Scenario.

Definition alice : User.t :=
  User.mk "Alice" "alice@example.bd" "01700000000" "hash" "guardian"
    0 0 0 false true false.

Definition post : Post.t := Post.mk "Math tutor" 2%nat "01800000000" 0.

Definition execOk : Bkash.ExecuteData :=
  Bkash.mkExecute "0000" (Some "TRX1") (Some "INV1") "Successful".

(** The payment id the gateway hands out for an invoice. *)
Definition payFor (invoice : string) : string := "PAY-" +:+ invoice.

Definition session (invoice : string) (_ : Z) : option Bkash.CreateData :=
  Some (Bkash.mkCreate (Some (payFor invoice)) (Some "https://pay.example")).

(** A gateway that approves everything. *)
Definition approving : Bkash.t :=
  Bkash.mk (Some "token") session (λ _, Some execOk) (λ _, Some execOk).

(** A gateway whose execute call answers with an error status code, as
    for a payment that was executed before. *)
Definition declining : Bkash.t :=
  Bkash.mk (Some "token") session
    (λ _, Some (Bkash.mkExecute "2062" None None "Already completed"))
    (λ _, None).

(** A gateway that cannot be reached. *)
Definition unreachable : Bkash.t :=
  Bkash.mk None (λ _ _, None) (λ _, None) (λ _, None).

Definition db0 : Db := mkDb {[ 1%nat := alice ]} [] {[ 7%nat := post ]}.

Definition hundred := Payments.mkRecharge (Some 100) (Some "bkash").
Definition fifty := Payments.mkRecharge (Some 50) (Some "bkash").

(** The webhook body for the transaction with id [tid]. *)
Definition webhook (tid status : string) : Body :=
  {[ "transactionId" := JStr tid; "status" := JStr status;
     "paymentID" := JStr (payFor tid) ]}.

Definition idA := Transaction.generateTransactionId 1000 "A1B2C3D4E".
Definition idB := Transaction.generateTransactionId 1001 "F5G6H7I8J".

Definition openA := Recharge approving 1000 "A1B2C3D4E" 1%nat hundred.
Definition openB := Recharge approving 1001 "F5G6H7I8J" 1%nat fifty.
Definition confirmA (t : Z) := Callback approving t (webhook idA "success").
Definition confirmB (t : Z) := Callback approving t (webhook idB "success").
Definition cancelA (t : Z) := Callback unreachable t (webhook idA "cancel").

(** The recharge of 100 opened and confirmed once. *)
Definition paid : Db := run [openA; confirmA 2000] db0.

End Scenario.

(** ** Balance snapshots *)

(** C4, as stated, fails: two recharges opened at balance 0 and then
    confirmed one after the other leave the second one completed with
    [balanceBefore] 0, [balanceAfter] 150 and amount 50. *)
Lemma snapshots_inconsistent_after_interleaved_recharges :
  ¬ snapshots_consistent
      (run [Scenario.openA; Scenario.openB;
            Scenario.confirmA 2000; Scenario.confirmB 2001] Scenario.db0).
Proof.
  intros H.
  apply Forall_lookup_1 with (i := 1%nat)
    (x := Transaction.mk Scenario.idB 1%nat Transaction.recharge 50 "bkash"
            (Transaction.mkGateway (Some "bkash") (Some "TRX1")
               (Some (Scenario.payFor Scenario.idB)) (Some "INV1") None)
            Transaction.completed "Account recharge via bkash" None None
            (Some 2001) None (Some 0) (Some 150)) in H; [|by vm_compute].
  simpl in H. destruct H as (b & a & [= <-] & [= <-] & Hd).
  vm_compute in Hd. discriminate.
Qed.

(** C4, amended.  Along any sequence of requests a pending transaction
    keeps [balanceAfter] unset.  A recharge request stores its transaction
    with the caller's balance as [balanceBefore].  When the callback or
    [verify] completes a pending transaction (named by a string id), the
    record keeps that [balanceBefore] and gets as [balanceAfter] the
    owner's new balance: the sum the code computes of the owner's balance
    read at completion and the amount.  So [balanceAfter] is
    [balanceBefore] plus the amount when the balance read at completion is
    still the one snapshotted at creation.  The contact-view record is
    built with [balanceAfter] the caller's balance after the debit and
    [balanceBefore] that balance plus the price of 5. *)
Theorem snapshots_follow_the_balance_at_completion :
  ∀ (ops : list Op) (db0 : Db),
    pending_unset db0 →
    let db := run ops db0 in
    let completedAs i x u db' :=
      ∃ x', transactions db' !! i = Some x'
        ∧ Transaction.status x' = Transaction.completed
        ∧ Transaction.balanceBefore x' = Transaction.balanceBefore x
        ∧ Transaction.balanceAfter x'
          = Some (User.accountBalance u + Transaction.amount x)
        ∧ balanceOf (Transaction.user x) db' = Transaction.balanceAfter x'
        ∧ ∀ b, Transaction.balanceBefore x = Some b →
            b = User.accountBalance u →
            Transaction.balanceAfter x' = Some (b + Transaction.amount x') in
    pending_unset db
    ∧ (∀ gw now random uid r,
         let out := Payments.recharge gw now random uid r db in
         transactions out.1 = transactions db
         ∨ ∃ u x', users db !! uid = Some u
             ∧ transactions out.1 = transactions db ++ [x']
             ∧ Transaction.balanceBefore x' = Some (User.accountBalance u)
             ∧ Transaction.balanceAfter x' = None)
    ∧ (∀ gw now body tid i x u ex,
         body !! "transactionId" = Some (JStr tid) →
         findOne (Some tid) db = Some (i, x) →
         Transaction.status x = Transaction.pending →
         Payments.isSuccess (body !! "status") = true →
         Bkash.withToken gw (Bkash.execute gw (body !! "paymentID")) = Some ex →
         Bkash.statusCode ex = "0000" →
         users db !! Transaction.user x = Some u →
         completedAs i x u (Payments.callback gw now body db).1)
    ∧ (∀ gw now uid body tid i x u q,
         body !! "transactionId" = Some (JStr tid) → tid ≠ "" →
         findOneOf (Some tid) uid db = Some (i, x) →
         Transaction.status x = Transaction.pending →
         Transaction.paymentMethod x = "bkash" →
         Bkash.withToken gw
           (Bkash.queryStatus gw
              (Transaction.paymentId (Transaction.paymentGateway x))) = Some q →
         Bkash.statusCode q = "0000" →
         users db !! Transaction.user x = Some u →
         completedAs i x u (Payments.verify gw now uid body db).1)
    ∧ (∀ id uid pid p u u' now,
         User.deductContactViewCost u = Some u' →
         let x := Posts.newContactView id uid pid p u' now in
         Transaction.amount x = 5
         ∧ Transaction.balanceAfter x = Some (User.accountBalance u - 5)
         ∧ Transaction.balanceBefore x = Some (User.accountBalance u - 5 + 5)).
Proof.
  intros ops db0 H0 db completedAs. subst db completedAs.
  split; [by apply run_pending_unset|]. split; [|split; [|split]].
  - intros gw now random uid r. apply recharge_snapshot.
  - intros gw now body tid i x u ex Hid Hf _ Hs Hex Hc Hu.
    unfold Payments.callback. rewrite Hid. simpl castString.
    rewrite Hf, Hs, Hex, Hc. unfold Payments.credit. rewrite Hu. simpl.
    eexists. split.
    { apply list_lookup_insert_eq.
      exact (lookup_lt_Some _ _ _ (findOne_lookup _ _ _ _ Hf)). }
    simpl. split_and!; try done.
    + unfold balanceOf. simpl. by rewrite lookup_insert_eq.
    + by intros b _ ->.
  - intros gw now uid body tid i x u q Hid Hne Hf Hst Hm Hq Hc Hu.
    rewrite (verify_completes gw now uid body _ i x u q); try done.
    2:{ rewrite Hid. simpl. by destruct (String.eqb_spec tid ""). }
    2:{ by rewrite Hid. }
    eexists. split.
    { apply saveTx_lookup. simpl.
      exact (lookup_lt_Some _ _ _ (findOneOf_lookup _ _ _ _ _ Hf)). }
    simpl. split_and!; try done.
    + unfold balanceOf. simpl. by rewrite lookup_insert_eq.
    + by intros b _ ->.
  - intros id uid pid p u u' now Hd.
    unfold User.deductContactViewCost in Hd.
    destruct (5 <=? User.accountBalance u); [|done].
    injection Hd as <-. done.
Qed.

(** ** Duplicate and late callbacks *)

(** C3 on the code: after the recharge of 100 has been opened and
    confirmed (balance 100, completed total 100), a second delivery of the
    same webhook credits the balance a second time: the balance is 200
    while the completed transactions of the user sum to 100.  A webhook
    reporting a cancellation for the same transaction leaves the balance
    at 100 and no completed transaction at all. *)
Theorem duplicate_callback_breaks_balance_equation :
  balanceOf 1%nat Scenario.paid = Some 100
  ∧ completedTotal 1%nat Scenario.paid = 100
  ∧ balanceOf 1%nat (run [Scenario.confirmA 3000] Scenario.paid) = Some 200
  ∧ completedTotal 1%nat (run [Scenario.confirmA 3000] Scenario.paid) = 100
  ∧ balanceOf 1%nat (run [Scenario.cancelA 3000] Scenario.paid) = Some 100
  ∧ completedTotal 1%nat (run [Scenario.cancelA 3000] Scenario.paid) = 0.
Proof. by vm_compute. Qed.

(** The contact route debits without leaving a completed transaction: the
    insert of its record is rejected by the schema. *)
Example contact_view_debit_without_record :
  let db := run [Contact 3000 "K9L8M7N6P" 1%nat 7%nat] Scenario.paid in
  balanceOf 1%nat db = Some 95 ∧ completedTotal 1%nat db = 100.
Proof. by vm_compute. Qed.

(** C1 on the code: for the completed (terminal) recharge of 100, a second
    [success] callback credits the balance again; a callback reporting
    another status, or one whose execute call the gateway declines, turns
    the stored status from [completed] to [failed]; only [verify] leaves
    the database as it is. *)
Theorem callback_not_idempotent_on_terminal_transaction :
  (Transaction.terminal ∘ Transaction.status) <$> transactions Scenario.paid
  = [true]
  ∧ balanceOf 1%nat Scenario.paid = Some 100
  ∧ balanceOf 1%nat
      (Payments.callback Scenario.approving 3000
         (Scenario.webhook Scenario.idA "success") Scenario.paid).1 = Some 200
  ∧ Transaction.status <$>
      transactions (Payments.callback Scenario.approving 3000
                      (Scenario.webhook Scenario.idA "cancel") Scenario.paid).1
    = [Transaction.failed]
  ∧ Transaction.status <$>
      transactions (Payments.callback Scenario.declining 3000
                      (Scenario.webhook Scenario.idA "success") Scenario.paid).1
    = [Transaction.failed]
  ∧ (Payments.verify Scenario.approving 3000 1%nat
       (Scenario.webhook Scenario.idA "success") Scenario.paid).1 = Scenario.paid.
Proof. by vm_compute. Qed.

(** [verify] never touches a transaction that is not pending. *)
Lemma verify_idempotent_on_non_pending gw now uid body db i x :
  findOneOf (castString (body !! "transactionId")) uid db = Some (i, x) →
  Transaction.status x ≠ Transaction.pending →
  (Payments.verify gw now uid body db).1 = db.
Proof.
  intros Hf Hst. unfold Payments.verify.
  destruct (Payments.notEmpty _); [|done]. simpl. rewrite Hf.
  case_bool_decide; [done|].
  rewrite (bool_decide_eq_false_2 _ Hst), andb_false_r. done.
Qed.

(** ** Two contact views against a balance of exactly one price *)

Section RaceInvariant.

Import Posts Race.

(** The response of a request that got past the balance check, whatever
    became of its transaction record. *)
Definition pastGate (r : Response) : Prop :=
  r = unlocked ∨ ∃ x, r = mkResponse 500 false (insertError x).

Lemma insufficient_not_pastGate : ¬ pastGate insufficient.
Proof. intros [?|[x ?]]; discriminate. Qed.

(** The request has written its debit. *)
Definition paid (pc : Pc) : Prop :=
  match pc with
  | Inserting _ _ | Counting _ => True
  | Done r => pastGate r
  | Start | HavePost _ | Saving _ _ => False
  end.

(** The in-memory user document of a request past the check holds the
    balance 0; a finished request was refused or got past the gate. *)
Definition pcok (pc : Pc) : Prop :=
  match pc with
  | Saving _ u' | Inserting _ u' => User.accountBalance u' = 0
  | Done r => r = insufficient ∨ pastGate r
  | Start | HavePost _ | Counting _ => True
  end.

Lemma savePostViews_keeps pid p d k :
  is_Some (posts d !! k) → is_Some (posts (savePostViews pid p d) !! k).
Proof.
  intros Hk. simpl. rewrite lookup_alter. case_decide; [subst|done].
  by apply fmap_is_Some.
Qed.

Variables (a b : Req).
Hypothesis same_user : uid b = uid a.

(** The invariant, for the request taking the step ([pc]) and the other
    one ([other]). *)
Definition inv (d : Db) (pc other : Pc) : Prop :=
  (∃ w, users d !! uid a = Some w
        ∧ (User.accountBalance w = 5 ∨ User.accountBalance w = 0)
        ∧ (User.accountBalance w = 5 →
             ¬ paid pc ∧ ¬ paid other
             ∧ pc ≠ Done insufficient ∧ other ≠ Done insufficient)
        ∧ (User.accountBalance w = 0 → paid pc ∨ paid other))
  ∧ is_Some (posts d !! pid a) ∧ is_Some (posts d !! pid b)
  ∧ pcok pc ∧ pcok other.

Lemma inv_sym d pc other : inv d pc other → inv d other pc.
Proof.
  intros ((w & Hw & Hb & H5 & H0) & Hpa & Hpb & Hpc & Hother).
  split; [|done]. exists w. split_and!; try done.
  - intros H. by destruct (H5 H) as (? & ? & ? & ?).
  - intros H. by destruct (H0 H); [right|left].
Qed.

Lemma cstep_inv (r : Req) d pc other :
  uid r = uid a → pid r = pid a ∨ pid r = pid b →
  inv d pc other →
  inv (cstep (now r) (random r) (uid r) (pid r) d pc).1
      (cstep (now r) (random r) (uid r) (pid r) d pc).2 other.
Proof.
  intros Hu Hp ((w & Hw & Hb & H5 & H0) & Hpa & Hpb & Hpc & Hother).
  assert (is_Some (posts d !! pid r)) as [p0 Hp0] by (by destruct Hp as [->| ->]).
  destruct pc as [|p|p u'|p u'|p'|resp]; simpl.
  - (* Post.findById *)
    rewrite Hp0. simpl. split; [|done].
    exists w. split_and!; [done..| |].
    + intros H. destruct (H5 H) as (_ & ? & _ & ?). split_and!; auto.
    + intros H. destruct (H0 H) as [[]|?]. by right.
  - (* User.findById and the check *)
    rewrite Hu, Hw. unfold User.canViewContact, User.deductContactViewCost.
    destruct (Z.leb_spec 5 (User.accountBalance w)) as [Hle|Hlt]; simpl.
    + assert (User.accountBalance w = 5) as Hw5 by lia.
      split; [|split_and!; try done; simpl; lia].
      exists w. split_and!; [done..| |].
      * intros _. destruct (H5 Hw5) as (_ & ? & _ & ?). split_and!; auto.
      * intros ?; lia.
    + assert (User.accountBalance w = 0) as Hw0 by lia.
      split; [|split_and!; try done; by left].
      exists w. split_and!; [done..| |].
      * intros ?; lia.
      * intros _. destruct (H0 Hw0) as [[]|?]. by right.
  - (* user.save() *)
    rewrite Hu. simpl in Hpc.
    split; [|done].
    exists (User.set_totalSpent (User.totalSpent u')
              (User.set_accountBalance (User.accountBalance u') w)).
    split_and!.
    + simpl. by rewrite lookup_alter_eq, Hw.
    + simpl. by right.
    + simpl. intros ?; lia.
    + intros _. by left.
  - (* transaction.save() *)
    split; [|split_and!; try done; right; right; eauto].
    exists w. split_and!; [done..| |].
    + intros H. by destruct (H5 H) as ([] & _).
    + intros _. left. right. eauto.
  - (* post.save() *)
    split.
    + exists w. split_and!; [done..| |].
      * intros H. by destruct (H5 H) as ([] & _).
      * intros _. left. by left.
    + split_and!; [by apply savePostViews_keeps..| |done].
      right. by left.
  - (* finished *)
    split; [|done]. by exists w.
Qed.

Lemma step1_inv st w :
  inv (db st) (pc1 st) (pc2 st) →
  inv (db (step1 a b st w)) (pc1 (step1 a b st w)) (pc2 (step1 a b st w)).
Proof.
  intros Hinv. destruct w; unfold step1.
  - pose proof (cstep_inv a (db st) (pc1 st) (pc2 st) eq_refl (or_introl eq_refl) Hinv)
      as H.
    by destruct (cstep _ _ _ _ _ _).
  - pose proof (cstep_inv b (db st) (pc2 st) (pc1 st) same_user
                  (or_intror eq_refl) (inv_sym _ _ _ Hinv)) as H.
    destruct (cstep _ _ _ _ _ _). by apply inv_sym.
Qed.

Lemma fold_inv sched st :
  inv (db st) (pc1 st) (pc2 st) →
  let st' := fold_left (step1 a b) sched st in
  inv (db st') (pc1 st') (pc2 st').
Proof.
  revert st. induction sched as [|w sched IH]; intros st Hinv; [done|].
  simpl. apply IH. by apply step1_inv.
Qed.

Lemma race_inv sched d u :
  users d !! uid a = Some u → User.accountBalance u = 5 →
  is_Some (posts d !! pid a) → is_Some (posts d !! pid b) →
  let st := race a b sched d in
  inv (db st) (pc1 st) (pc2 st).
Proof.
  intros Hu H5 Hpa Hpb. apply fold_inv. simpl.
  split; [|done]. exists u. split_and!; try done; auto.
  intros ?; lia.
Qed.

End RaceInvariant.

Module RaceScenario.

(** Alice with a balance of exactly one contact view. *)
Definition alice5 : User.t := User.set_accountBalance 5 Scenario.alice.

Definition db5 : Db :=
  mkDb {[ 1%nat := alice5 ]} [] {[ 7%nat := Scenario.post ]}.

Definition reqA : Race.Req := Race.mkReq 1000 "A1B2C3D4E" 1%nat 7%nat.
Definition reqB : Race.Req := Race.mkReq 1001 "F5G6H7I8J" 1%nat 7%nat.

(** The two requests taking turns at every [await]. *)
Definition alternating : list Race.Who :=
  [Race.First; Race.Second; Race.First; Race.Second;
   Race.First; Race.Second; Race.First; Race.Second].

(** One request after the other. *)
Definition sequential : list Race.Who :=
  [Race.First; Race.First; Race.First; Race.First;
   Race.Second; Race.Second; Race.Second; Race.Second].

End RaceScenario.

(** C2, as stated, fails: when the two requests take turns, both read the
    balance 5 before either has written, both get past the check (after
    four steps both hold a debited document they are about to save), and
    neither is answered with the insufficient-balance error. *)
Lemma racing_contact_views_both_pass :
  let mid := Race.race RaceScenario.reqA RaceScenario.reqB
               (take 4 RaceScenario.alternating) RaceScenario.db5 in
  let fin := Race.race RaceScenario.reqA RaceScenario.reqB
               RaceScenario.alternating RaceScenario.db5 in
  (∃ p1 u1 p2 u2, Race.pc1 mid = Posts.Saving p1 u1
                  ∧ Race.pc2 mid = Posts.Saving p2 u2)
  ∧ (∃ r1 r2, Race.pc1 fin = Posts.Done r1 ∧ Race.pc2 fin = Posts.Done r2
              ∧ r1 ≠ Posts.insufficient ∧ r2 ≠ Posts.insufficient)
  ∧ balanceOf 1%nat (Race.db fin) = Some 0.
Proof.
  split; [|split].
  - vm_compute. eauto 10.
  - vm_compute. do 2 eexists. split_and!; [reflexivity..| |]; discriminate.
  - by vm_compute.
Qed.

(** C2, amended.  For a user whose balance is exactly the price of 5 and
    two contact-view requests for existing posts:
    served one after the other, the first gets past the balance check and
    debits 5, the second is refused with the insufficient-balance error
    and changes nothing, and the balance ends at 0;
    interleaved at their [await]s in any order, the balance is 5 or 0 at
    every moment (never negative), and once both have finished it is 0,
    each request was either refused or got past the check, and at least
    one got past it. *)
Theorem contact_views_at_exactly_one_price :
  ∀ (a b : Race.Req) (d : Db) (u : User.t),
    Race.uid b = Race.uid a →
    users d !! Race.uid a = Some u →
    User.accountBalance u = 5 →
    is_Some (posts d !! Race.pid a) →
    is_Some (posts d !! Race.pid b) →
    (let first := Posts.contact (Race.now a) (Race.random a) (Race.uid a)
                    (Race.pid a) d in
     let second := Posts.contact (Race.now b) (Race.random b) (Race.uid b)
                     (Race.pid b) first.1 in
     pastGate first.2
     ∧ balanceOf (Race.uid a) first.1 = Some 0
     ∧ second = (first.1, Posts.insufficient))
    ∧ ∀ sched,
        let st := Race.race a b sched d in
        (∃ bal, balanceOf (Race.uid a) (Race.db st) = Some bal
                ∧ (bal = 5 ∨ bal = 0))
        ∧ ∀ r1 r2, Race.pc1 st = Posts.Done r1 → Race.pc2 st = Posts.Done r2 →
            balanceOf (Race.uid a) (Race.db st) = Some 0
            ∧ (r1 = Posts.insufficient ∨ pastGate r1)
            ∧ (r2 = Posts.insufficient ∨ pastGate r2)
            ∧ (pastGate r1 ∨ pastGate r2).
Proof.
  intros a b d u Hab Hu H5 [pa Hpa] [pb Hpb]. split.
  - destruct (contact_debits (Race.now a) (Race.random a) (Race.uid a)
                (Race.pid a) d u pa Hu Hpa ltac:(lia)) as [msg Hc].
    unfold Posts.contact in *. rewrite Hu, Hpa in *.
    unfold User.canViewContact, User.deductContactViewCost in *.
    destruct (Z.leb_spec 5 (User.accountBalance u)); [|lia]. simpl in Hc |- *.
    split; [right; eauto|].
    split.
    { unfold balanceOf. simpl. rewrite lookup_alter_eq, Hu. simpl.
      f_equal. lia. }
    rewrite Hpb, Hab, lookup_alter_eq, Hu. simpl.
    destruct (Z.leb_spec 5 (User.accountBalance u - 5)); [lia|]. done.
  - intros sched st.
    assert (is_Some (posts d !! Race.pid a)) as Hsa by eauto.
    assert (is_Some (posts d !! Race.pid b)) as Hsb by eauto.
    destruct (race_inv a b Hab sched d u Hu H5 Hsa Hsb)
      as ((w & Hw & Hb & Hw5 & Hw0) & _ & _ & Hpc1 & Hpc2).
    fold st in Hw, Hw5, Hw0, Hpc1, Hpc2.
    split.
    { exists (User.accountBalance w). unfold balanceOf. by rewrite Hw. }
    intros r1 r2 Hr1 Hr2. rewrite Hr1, Hr2 in *. simpl in *.
    assert (User.accountBalance w = 0) as Hz.
    { destruct Hb as [Hb|Hb]; [|done].
      destruct (Hw5 Hb) as (Hn1 & Hn2 & Hd1 & Hd2).
      destruct Hpc1 as [->|?]; [done|]. by destruct Hn1. }
    split_and!; try done.
    + unfold balanceOf. rewrite Hw. simpl. by f_equal.
    + auto.
Qed.

(** ** The scenarios of the design, run on the model *)

(** A user with balance 0 recharges 100; the gateway opens the session and
    executes the payment: the transaction is completed with
    [balanceBefore] 0 and [balanceAfter] 100, and the balance is 100. *)
Example recharge_of_100_from_0 :
  balanceOf 1%nat Scenario.paid = Some 100
  ∧ (λ x, (Transaction.status x, Transaction.balanceBefore x,
           Transaction.balanceAfter x)) <$> transactions Scenario.paid
    = [(Transaction.completed, Some 0, Some 100)]
  ∧ responses [Scenario.openA; Scenario.confirmA 2000] Scenario.db0
    = [mkResponse 200 true "Payment initiated successfully";
       mkResponse 200 true "Payment completed successfully"].
Proof. by vm_compute. Qed.

(** The gateway cannot be reached when the callback arrives: the
    transaction is recorded failed, the balance stays, the response is
    500. *)
Example callback_with_gateway_down :
  let out := Payments.callback Scenario.unreachable 2000
               (Scenario.webhook Scenario.idA "success")
               (run [Scenario.openA] Scenario.db0) in
  balanceOf 1%nat out.1 = Some 0
  ∧ Transaction.status <$> transactions out.1 = [Transaction.failed]
  ∧ out.2 = mkResponse 500 false "Payment execution failed".
Proof. by vm_compute. Qed.

(** The two contact views served one after the other, as a schedule of
    the small-step handler: the first is past the gate, the second is
    refused. *)
Example contact_views_in_sequence :
  let st := Race.race RaceScenario.reqA RaceScenario.reqB
              RaceScenario.sequential RaceScenario.db5 in
  pastGate (match Race.pc1 st with Posts.Done r => r | _ => Posts.notFound end)
  ∧ Race.pc2 st = Posts.Done Posts.insufficient
  ∧ balanceOf 1%nat (Race.db st) = Some 0.
Proof. split; [right; eexists; reflexivity|by vm_compute]. Qed.

(** ** The theorems at concrete inputs *)

(** C2 at Alice with a balance of 5 and two requests for post 7: served
    in sequence the second is refused and changes nothing; taking turns
    they finish with the balance at 0 and at least one past the gate. *)
Lemma contact_views_at_exactly_one_price_witness :
  let first := Posts.contact 1000 "A1B2C3D4E" 1%nat 7%nat RaceScenario.db5 in
  let st := Race.race RaceScenario.reqA RaceScenario.reqB
              RaceScenario.alternating RaceScenario.db5 in
  (Race.uid RaceScenario.reqB = Race.uid RaceScenario.reqA
   ∧ users RaceScenario.db5 !! 1%nat = Some RaceScenario.alice5
   ∧ User.accountBalance RaceScenario.alice5 = 5
   ∧ is_Some (posts RaceScenario.db5 !! 7%nat))
  ∧ balanceOf 1%nat first.1 = Some 0
  ∧ Posts.contact 1001 "F5G6H7I8J" 1%nat 7%nat first.1
    = (first.1, Posts.insufficient)
  ∧ balanceOf 1%nat (Race.db st) = Some 0
  ∧ ∃ r1 r2, Race.pc1 st = Posts.Done r1 ∧ Race.pc2 st = Posts.Done r2
             ∧ (pastGate r1 ∨ pastGate r2).
Proof.
  intros first st.
  assert (is_Some (posts RaceScenario.db5 !! 7%nat)) as Hp by by eexists.
  destruct (contact_views_at_exactly_one_price RaceScenario.reqA
              RaceScenario.reqB RaceScenario.db5 RaceScenario.alice5
              eq_refl eq_refl eq_refl Hp Hp) as [(_ & Hb & Hsnd) Hrace].
  split; [by split_and!|].
  split; [exact Hb|]. split; [exact Hsnd|].
  destruct (Hrace RaceScenario.alternating) as [_ Hdone].
  assert (∃ r1 r2, Race.pc1 st = Posts.Done r1 ∧ Race.pc2 st = Posts.Done r2)
    as (r1 & r2 & H1 & H2) by (vm_compute; eauto).
  destruct (Hdone r1 r2 H1 H2) as (Hz & _ & _ & Hpast).
  split; [exact Hz|]. by exists r1, r2.
Defined.

(** C4 at the ledger holding the opened recharge of 100, confirmed by its
    webhook. *)
Lemma snapshots_follow_the_balance_at_completion_witness :
  pending_unset Scenario.db0
  ∧ pending_unset (run [Scenario.openA] Scenario.db0)
  ∧ ∃ x', transactions (run [Scenario.openA; Scenario.confirmA 2000] Scenario.db0)
            !! 0%nat = Some x'
          ∧ Transaction.status x' = Transaction.completed
          ∧ Transaction.balanceBefore x' = Some 0
          ∧ Transaction.balanceAfter x' = Some 100.
Proof.
  assert (pending_unset Scenario.db0) as H0 by constructor.
  split; [exact H0|].
  destruct (snapshots_follow_the_balance_at_completion [Scenario.openA]
              Scenario.db0 H0) as (Hp & _ & Hcb & _ & _).
  split; [exact Hp|].
  edestruct (Hcb Scenario.approving 2000 (Scenario.webhook Scenario.idA "success")
               Scenario.idA 0%nat)
    as (x' & Hl & Hst & Hbb & Hba & _);
    [reflexivity | vm_compute; reflexivity | reflexivity | reflexivity
    | reflexivity | reflexivity | vm_compute; reflexivity |].
  exists x'. split_and!; [exact Hl | exact Hst | exact Hbb | exact Hba].
Defined.

(** C5 at the empty ledger, through a recharge, its confirmation (twice),
    two contact views and an attempt to set the balance by a profile
    update. *)
Lemma balance_never_negative_witness :
  ledger_ok Scenario.db0
  ∧ balanceOf 1%nat
      (run [Scenario.openA; Scenario.confirmA 2000; Scenario.confirmA 2001;
            Contact 3000 "K9L8M7N6P" 1%nat 7%nat;
            Contact 3001 "Q5R4S3T2U" 1%nat 7%nat;
            Profile 1%nat {[ "accountBalance" := JNum (-50) ]}]
         Scenario.db0) = Some 190
  ∧ 0 ≤ 190.
Proof.
  assert (ledger_ok Scenario.db0) as H0.
  { split; [|constructor]. apply map_Forall_singleton. simpl. lia. }
  split; [exact H0|]. split; [by vm_compute|].
  apply (balance_never_negative
           [Scenario.openA; Scenario.confirmA 2000; Scenario.confirmA 2001;
            Contact 3000 "K9L8M7N6P" 1%nat 7%nat;
            Contact 3001 "Q5R4S3T2U" 1%nat 7%nat;
            Profile 1%nat {[ "accountBalance" := JNum (-50) ]}]
           Scenario.db0 1%nat 190 H0).
  by vm_compute.
Defined.

(** C6 at a balance of 3 against the price of 5. *)
Lemma contact_insufficient_balance_no_effect_witness :
  let carol := User.set_accountBalance 3 Scenario.alice in
  let db := mkDb {[ 1%nat := carol ]} [] {[ 7%nat := Scenario.post ]} in
  (users db !! 1%nat = Some carol ∧ User.accountBalance carol < 5)
  ∧ (Posts.contact 1000 "A1B2C3D4E" 1%nat 7%nat db).1 = db
  ∧ (Posts.contact 1000 "A1B2C3D4E" 1%nat 7%nat db).2 = Posts.insufficient
  ∧ balanceOf 1%nat (Posts.contact 1000 "A1B2C3D4E" 1%nat 7%nat db).1 = Some 3.
Proof.
  intros carol db.
  assert (users db !! 1%nat = Some carol) as Hu by reflexivity.
  assert (User.accountBalance carol < 5) as Hlt by (simpl; lia).
  destruct (contact_insufficient_balance_no_effect 1000 "A1B2C3D4E" 1%nat 7%nat
              db carol Hu Hlt) as [Hdb Hresp].
  split; [by split|]. split; [exact Hdb|]. split.
  - apply Hresp. by eexists.
  - rewrite Hdb. reflexivity.
Defined.

(** C7 at the confirmation of the opened (pending) recharge of 100, and at
    its cancellation. *)
Lemma callback_response_matches_outcome_witness :
  let db := run [Scenario.openA] Scenario.db0 in
  let ok := Payments.callback Scenario.approving 2000
              (Scenario.webhook Scenario.idA "success") db in
  let no := Payments.callback Scenario.approving 2000
              (Scenario.webhook Scenario.idA "cancel") db in
  (Scenario.webhook Scenario.idA "success" !! "transactionId"
   = Some (JStr Scenario.idA)
   ∧ Scenario.webhook Scenario.idA "cancel" !! "transactionId"
     = Some (JStr Scenario.idA))
  ∧ (∃ x, transactions ok.1 !! 0%nat = Some x
          ∧ Transaction.status x = Transaction.completed ∧ code ok.2 = 200%nat)
  ∧ (∃ x, transactions no.1 !! 0%nat = Some x
          ∧ Transaction.status x = Transaction.failed ∧ code no.2 = 200%nat
          ∧ success no.2 = false).
Proof.
  intros db ok no.
  assert (Scenario.webhook Scenario.idA "success" !! "transactionId"
          = Some (JStr Scenario.idA)) as Hs by reflexivity.
  assert (Scenario.webhook Scenario.idA "cancel" !! "transactionId"
          = Some (JStr Scenario.idA)) as Hc by reflexivity.
  split; [by split|]. split.
  - destruct (callback_response_matches_outcome Scenario.approving 2000
                (Scenario.webhook Scenario.idA "success") db Scenario.idA Hs)
      as [_ H].
    edestruct (H 0%nat) as (x' & Hl & _ & _ & Hok);
      [vm_compute; reflexivity|reflexivity|].
    specialize (Hok eq_refl). vm_compute in Hok.
    exists x'. split; [exact Hl|]. split; [apply Hok|apply Hok].
  - destruct (callback_response_matches_outcome Scenario.approving 2000
                (Scenario.webhook Scenario.idA "cancel") db Scenario.idA Hc)
      as [_ H].
    edestruct (H 0%nat) as (x' & Hl & _ & Hno & _);
      [vm_compute; reflexivity|reflexivity|].
    specialize (Hno eq_refl).
    exists x'. split; [exact Hl|]. split_and!; apply Hno.
Defined.

(** C8 at a forged webhook carrying an amount of 999999 for the recharge
    of 100. *)
Lemma callback_never_uses_request_amount_witness :
  let db := run [Scenario.openA] Scenario.db0 in
  let honest := Scenario.webhook Scenario.idA "success" in
  let forged := <[ "amount" := JNum 999999 ]> honest in
  delete "amount" forged = delete "amount" honest
  ∧ Payments.callback Scenario.approving 2000 forged db
    = Payments.callback Scenario.approving 2000 honest db
  ∧ balanceOf 1%nat (Payments.callback Scenario.approving 2000 forged db).1
    = Some 100.
Proof.
  intros db honest forged.
  assert (delete "amount" forged = delete "amount" honest) as Heq by by vm_compute.
  split; [exact Heq|].
  destruct (callback_never_uses_request_amount Scenario.approving 2000 forged
              honest db Heq) as [Hsame _].
  split; [exact Hsame|]. by vm_compute.
Defined.

(** C9, as stated, fails: with the recharge of 100 stored under the id of
    the draw (1000, "A1B2C3D4E"), a request within bounds that draws the
    same clock value and suffix creates no transaction; it is answered
    with 500 and the database is as before. *)
Lemma recharge_with_a_stored_id_creates_nothing :
  let db := run [Scenario.openA] Scenario.db0 in
  Payments.validRecharge Scenario.fifty = true
  ∧ Payments.recharge Scenario.approving 1000 "A1B2C3D4E" 1%nat Scenario.fifty db
    = (db, mkResponse 500 false "Server error occurred while initiating payment").
Proof. by vm_compute. Qed.

(** C9 at a request for 5 (below the bound), at the recharge of 100 on the
    empty ledger, and at a recharge of 50 drawn one millisecond later. *)
Lemma recharge_validates_before_persisting_witness :
  let low := Payments.mkRecharge (Some 5) (Some "bkash") in
  let db := run [Scenario.openA] Scenario.db0 in
  Payments.recharge Scenario.approving 1000 "A1B2C3D4E" 1%nat low Scenario.db0
  = (Scenario.db0, mkResponse 400 false "Validation failed")
  ∧ (∃ x, transactions
            (Payments.recharge Scenario.approving 1000 "A1B2C3D4E" 1%nat
               Scenario.hundred Scenario.db0).1 = [x]
          ∧ Transaction.transactionId x = Scenario.idA
          ∧ Transaction.status x = Transaction.pending
          ∧ Transaction.balanceAfter x = None)
  ∧ length (transactions
              (Payments.recharge Scenario.approving 1001 "F5G6H7I8J" 1%nat
                 Scenario.fifty db).1) = 2%nat.
Proof.
  intros low db. split; [|split].
  - apply (recharge_validates_before_persisting Scenario.approving 1000
             "A1B2C3D4E" 1%nat low Scenario.db0).
    intros (a & m & [= <-] & _ & [Hlo _] & _). lia.
  - destruct (recharge_validates_before_persisting Scenario.approving 1000
                "A1B2C3D4E" 1%nat Scenario.hundred Scenario.db0) as [_ H].
    destruct (H 100 "bkash" Scenario.alice eq_refl eq_refl ltac:(lia)
                ltac:(apply elem_of_cons; by left) eq_refl)
      as (_ & [[(y & Hy & _) _]|(_ & _ & x' & Hl & Hid & _ & _ & _ & Hba & Hst)]
          & _).
    { by apply elem_of_nil in Hy. }
    exists x'. split; [exact Hl|]. split; [exact Hid|]. split; [|exact Hba].
    destruct Hst as [Hst|(_ & _ & Hgw)]; [exact Hst|].
    vm_compute in Hgw. discriminate.
  - destruct (recharge_validates_before_persisting Scenario.approving 1001
                "F5G6H7I8J" 1%nat Scenario.fifty db) as [_ H].
    destruct (H 50 "bkash" Scenario.alice eq_refl eq_refl ltac:(lia)
                ltac:(apply elem_of_cons; by left) eq_refl) as (_ & _ & Hlen).
    apply Hlen. intros y Hy.
    apply list_elem_of_singleton in Hy as ->.
    exists 1000, "A1B2C3D4E". split; [reflexivity|]. split; [reflexivity|].
    left. lia.
Defined.

(** * Further properties of the payment routes *)

(** ** [POST /verify]: scope and effect *)

Section Verify.

Import Transaction Payments.

Implicit Types (db : Db) (x : Transaction.t) (body : Body).

(** Saving a changed document that still answers the query keeps it the
    first match. *)
Lemma list_find_insert_same {A} (P : A → Prop) `{∀ a, Decision (P a)}
    (l : list A) i a a' :
  list_find P l = Some (i, a) → P a' →
  list_find P (<[i := a']> l) = Some (i, a').
Proof.
  intros (Hi & _ & Hlt)%list_find_Some Ha'.
  apply list_find_insert_Some. right. left.
  split_and!; [done..|by eapply lookup_lt_Some|done|].
  intros j z Hj Hji. by apply (Hlt j z).
Qed.

Lemma findOneOf_owner tid uid db i x :
  findOneOf tid uid db = Some (i, x) →
  castString (Some (JStr (transactionId x))) = Some (transactionId x)
  ∧ tid = Some (transactionId x) ∧ user x = uid.
Proof.
  destruct tid as [s|]; simpl; [|done].
  intros (_ & [<- <-] & _)%list_find_Some. done.
Qed.

(** The three ways [verify] can end. *)
Lemma verify_cases gw now uid body db :
  let out := verify gw now uid body db in
  out.1 = db
  ∨ ∃ i x u q,
      notEmpty (body !! "transactionId") = true
      ∧ findOneOf (castString (body !! "transactionId")) uid db = Some (i, x)
      ∧ status x = pending ∧ paymentMethod x = "bkash"
      ∧ users db !! user x = Some u
      ∧ Bkash.withToken gw (Bkash.queryStatus gw (paymentId (paymentGateway x)))
        = Some q
      ∧ Bkash.statusCode q = "0000"
      ∧ out.1
        = saveTx i
            (set_balanceAfter (User.accountBalance u + amount x)
               (markCompleted (mkGatewayData (Bkash.trxID q) None None) now x))
            (set_users
               (<[user x :=
                    User.set_accountBalance (User.accountBalance u + amount x) u]>
                  (users db)) db).
Proof.
  simpl. unfold verify.
  destruct (notEmpty _) eqn:Hne; [|by left]. simpl.
  destruct (findOneOf _ uid db) as [[i x]|] eqn:Hf; [|by left].
  case_bool_decide as Hc; [by left|].
  destruct (String.eqb_spec (paymentMethod x) "bkash") as [Hm|]; [|by left].
  case_bool_decide as Hp; [|by left]. simpl.
  destruct (Bkash.withToken _ _) as [q|] eqn:Hq; [|by left].
  destruct (String.eqb_spec (Bkash.statusCode q) "0000") as [H0|]; [|by left].
  unfold credit. destruct (users db !! user x) as [u|] eqn:Hu; [|by left].
  right. by exists i, x, u, q.
Qed.

End Verify.

(** X1.  [verify] is scoped to the caller: when none of the caller's
    transactions carries the requested id (the id is unknown, or it is the
    id of another user's transaction), the answer is 404 and nothing is
    changed, whatever the gateway would say. *)
Theorem verify_refuses_foreign_transaction :
  ∀ (gw : Bkash.t) (now : Z) (uid : ObjectId) (body : Body) (db : Db) (tid : string),
    body !! "transactionId" = Some (JStr tid) → tid ≠ "" →
    (∀ x, x ∈ transactions db → Transaction.transactionId x = tid →
          Transaction.user x ≠ uid) →
    Payments.verify gw now uid body db
    = (db, mkResponse 404 false "Transaction not found").
Proof.
  intros gw now uid body db tid Hb Hne Hforeign.
  unfold Payments.verify. rewrite Hb. simpl.
  destruct (String.eqb_spec tid ""); [done|]. simpl.
  destruct (list_find _ _) as [[i x]|] eqn:Hf; [|done].
  apply list_find_Some in Hf as (Hi & [Hid Hu] & _).
  destruct (Hforeign x); [by eapply list_elem_of_lookup_2|done..].
Qed.

(** X2.  [verify] changes the database in one way only: it completes a
    pending bkash transaction of the caller that the gateway reports as
    paid, adding the stored amount to the owner's balance.  Every other
    transaction, every other user and every post stay as they were; in
    particular [verify] never records a failure. *)
Theorem verify_only_completes_own_pending :
  ∀ (gw : Bkash.t) (now : Z) (uid : ObjectId) (body : Body) (db : Db),
    let db' := (Payments.verify gw now uid body db).1 in
    db' = db
    ∨ ∃ i x x' u,
        transactions db !! i = Some x
        ∧ Transaction.user x = uid
        ∧ Transaction.status x = Transaction.pending
        ∧ Transaction.paymentMethod x = "bkash"
        ∧ users db !! uid = Some u
        ∧ transactions db' = <[i := x']> (transactions db)
        ∧ Transaction.status x' = Transaction.completed
        ∧ Transaction.transactionId x' = Transaction.transactionId x
        ∧ Transaction.amount x' = Transaction.amount x
        ∧ Transaction.balanceAfter x'
          = Some (User.accountBalance u + Transaction.amount x)
        ∧ users db'
          = <[uid := User.set_accountBalance
                       (User.accountBalance u + Transaction.amount x) u]> (users db)
        ∧ posts db' = posts db.
Proof.
  intros gw now uid body db db'. subst db'.
  destruct (verify_cases gw now uid body db)
    as [?|(i & x & u & q & _ & Hf & Hst & Hm & Hu & _ & _ & ->)]; [by left|].
  right. pose proof (findOneOf_owner _ _ _ _ _ Hf) as (_ & _ & Hown).
  eexists i, x, _, u. rewrite <- Hown.
  split_and!; try done. by eapply findOneOf_lookup.
Qed.

(** X3.  [verify] is idempotent: asking again, at any later time and with
    the same gateway answers, changes nothing more. *)
Theorem verify_twice_is_verify_once :
  ∀ (gw : Bkash.t) (now now' : Z) (uid : ObjectId) (body : Body) (db : Db),
    (Payments.verify gw now' uid body (Payments.verify gw now uid body db).1).1
    = (Payments.verify gw now uid body db).1.
Proof.
  intros gw now now' uid body db.
  destruct (verify_cases gw now uid body db)
    as [Hsame|(i & x & u & q & _ & Hf & Hst & Hm & Hu & Hq & H0 & Hout)].
  - simpl in Hsame. rewrite Hsame.
    destruct (verify_cases gw now' uid body db)
      as [?|(i & x & u & q & Hne & Hf & Hst & Hm & Hu & Hq & H0 & _)]; [done|].
    (* the first call would have completed it too *)
    rewrite (verify_completes gw now uid body db i x u q) in Hsame by done.
    apply (f_equal transactions) in Hsame. simpl in Hsame.
    pose proof (findOneOf_lookup _ _ _ _ _ Hf) as Hi.
    apply (f_equal (λ l, Transaction.status <$> l !! i)) in Hsame.
    rewrite list_lookup_insert_eq in Hsame by by eapply lookup_lt_Some.
    rewrite Hi in Hsame. simpl in Hsame. congruence.
  - simpl in Hout. rewrite Hout.
    apply verify_idempotent_on_non_pending with (i := i)
      (x := Transaction.set_balanceAfter
              (User.accountBalance u + Transaction.amount x)
              (Transaction.markCompleted
                 (Transaction.mkGatewayData (Bkash.trxID q) None None) now x));
      [|done].
    destruct (castString (body !! "transactionId")) as [s|]; [|done].
    simpl in Hf |- *.
    eapply list_find_insert_same; [exact Hf|].
    apply list_find_Some in Hf as (_ & ? & _). done.
Qed.

(** ** [POST /callback]: what it leaves alone *)

(** X4.  A callback that names a transaction by a string id touches at
    most the first stored transaction with that id and at most the balance
    of that transaction's owner: the number of transactions, every other
    transaction, every other user and all posts are unchanged; when no
    stored transaction carries the id nothing changes, and a callback that
    does not report [success] changes no user at all. *)
Theorem callback_touches_one_transaction_and_its_owner :
  ∀ (gw : Bkash.t) (now : Z) (body : Body) (db : Db) (tid : string),
    body !! "transactionId" = Some (JStr tid) →
    let db' := (Payments.callback gw now body db).1 in
    posts db' = posts db
    ∧ length (transactions db') = length (transactions db)
    ∧ ((∀ x, x ∈ transactions db → Transaction.transactionId x ≠ tid) → db' = db)
    ∧ ∀ i x, findOne (Some tid) db = Some (i, x) →
        (∀ j, j ≠ i → transactions db' !! j = transactions db !! j)
        ∧ (∀ k, k ≠ Transaction.user x → users db' !! k = users db !! k)
        ∧ (Payments.isSuccess (body !! "status") = false → users db' = users db).
Proof.
  intros gw now body db tid Hid db'. subst db'. unfold Payments.callback.
  rewrite Hid. simpl castString.
  destruct (findOne (Some tid) db) as [[i x]|] eqn:Hf.
  2:{ split_and!; try done. }
  assert (∀ y, posts (saveTx i y db) = posts db
               ∧ length (transactions (saveTx i y db)) = length (transactions db)
               ∧ (∀ j, j ≠ i → transactions (saveTx i y db) !! j
                               = transactions db !! j)
               ∧ (∀ k, k ≠ Transaction.user x →
                       users (saveTx i y db) !! k = users db !! k)
               ∧ users (saveTx i y db) = users db) as Hfail.
  { intros y. simpl. split_and!; try done.
    - apply length_insert.
    - intros j Hj. by apply list_lookup_insert_ne. }
  assert (∀ d : Db,
            (∀ y, y ∈ transactions db → Transaction.transactionId y ≠ tid) →
            d = db) as Hknown.
  { intros d Hnone. simpl in Hf. apply list_find_Some in Hf as (Hi & Hx & _).
    destruct (Hnone x); [by eapply list_elem_of_lookup_2|done]. }
  destruct (Payments.isSuccess _).
  - destruct (Bkash.withToken _ _) as [ex|].
    + destruct (String.eqb _ "0000").
      * unfold Payments.credit.
        destruct (users db !! Transaction.user x) as [u|]; simpl.
        -- split_and!; try done.
           ++ apply length_insert.
           ++ apply Hknown.
           ++ intros ? ? [= <- <-]. split_and!; try done.
              ** intros j Hj. by apply list_lookup_insert_ne.
              ** intros k Hk. by apply lookup_insert_ne.
        -- destruct (Hfail (Transaction.markFailed "Payment execution error" now x))
             as (? & ? & ? & ? & ?).
           split_and!; try done; [apply Hknown|].
           intros ? ? [= <- <-]. by split_and!.
      * destruct (Hfail (Transaction.markFailed
                           ("bKash execution failed: " +:+ Bkash.statusMessage ex)
                           now x)) as (? & ? & ? & ? & ?).
        split_and!; try done; [apply Hknown|].
        intros ? ? [= <- <-]. by split_and!.
    + destruct (Hfail (Transaction.markFailed "Payment execution error" now x))
        as (? & ? & ? & ? & ?).
      split_and!; try done; [apply Hknown|].
      intros ? ? [= <- <-]. by split_and!.
  - destruct (Hfail (Transaction.markFailed "Payment cancelled by user" now x))
      as (? & ? & ? & ? & ?).
    split_and!; try done; [apply Hknown|].
    intros ? ? [= <- <-]. by split_and!.
Qed.

(** ** Opening a recharge and confirming it *)

Section HappyPath.

Import Transaction Payments.

(** What an accepted recharge request leaves behind. *)
Lemma recharge_accepted gw now random uid a m u db :
  10 ≤ a ≤ 10000 → m ∈ rechargeMethods →
  users db !! uid = Some u →
  findOne (Some (generateTransactionId now random)) db = None →
  ∃ x', (recharge gw now random uid (mkRecharge (Some a) (Some m)) db).1
        = set_transactions (transactions db ++ [x']) db
      ∧ transactionId x' = generateTransactionId now random
      ∧ user x' = uid ∧ amount x' = a ∧ type x' = Transaction.recharge
      ∧ balanceBefore x' = Some (User.accountBalance u)
      ∧ balanceAfter x' = None
      ∧ (status x' = pending
         ∨ status x' = failed ∧ m = "bkash"
           ∧ Bkash.withToken gw
               (Bkash.create gw (generateTransactionId now random) a) = None).
Proof.
  intros Ha Hm Hu Hfresh.
  assert (validRecharge (mkRecharge (Some a) (Some m)) = true) as Hv.
  { apply validRecharge_spec. by exists a, m. }
  unfold recharge, rechargeOpen. rewrite Hv. simpl. rewrite Hu.
  rewrite insertTx_fresh; [|by apply bool_decide_eq_true, rechargeMethods_valid|done].
  unfold rechargeGateway. simpl.
  assert (∀ y y0, <[length (transactions db) := y]> (transactions db ++ [y0])
                  = transactions db ++ [y]) as Hins.
  { intros y y0. by rewrite insert_app_r_alt, Nat.sub_diag by done. }
  destruct (String.eqb_spec m "bkash") as [->|Hne].
  - destruct (Bkash.withToken _ _) as [cd|] eqn:Hgw; eexists;
      (split; [unfold saveTx, set_transactions; simpl; by rewrite Hins|]);
      simpl; split_and!; try done; auto.
  - eexists. split; [done|]. simpl. split_and!; try done. by left.
Qed.

End HappyPath.

(** X5.  End to end, on whole numbers: a valid recharge request by an
    existing user (with a fresh id), followed by the success callback for
    that id which the gateway executes with status code "0000", sets the
    user's balance to the sum the code computes of the old balance and the
    requested amount, leaves the other users alone and leaves one new
    transaction, completed at the time of the callback, whose snapshots
    are the old balance and that sum.  This holds whether or not the
    session could be opened when the recharge was requested: the callback
    does not look at the status it finds. *)
Theorem recharge_then_callback_credits_the_amount :
  ∀ (gw gw' : Bkash.t) (now now' : Z) (random pay : string) (uid : ObjectId)
    (a : Z) (m : string) (u : User.t) (db : Db) (ex : Bkash.ExecuteData),
    let id := Transaction.generateTransactionId now random in
    let body : Body :=
      {[ "transactionId" := JStr id; "status" := JStr "success";
         "paymentID" := JStr pay ]} in
    10 ≤ a ≤ 10000 → m ∈ Payments.rechargeMethods →
    users db !! uid = Some u →
    findOne (Some id) db = None →
    Bkash.withToken gw' (Bkash.execute gw' (Some (JStr pay))) = Some ex →
    Bkash.statusCode ex = "0000" →
    let db' := run [Recharge gw now random uid
                      (Payments.mkRecharge (Some a) (Some m));
                    Callback gw' now' body] db in
    balanceOf uid db' = Some (User.accountBalance u + a)
    ∧ (∀ k, k ≠ uid → users db' !! k = users db !! k)
    ∧ ∃ x, transactions db' = transactions db ++ [x]
        ∧ Transaction.transactionId x = id
        ∧ Transaction.status x = Transaction.completed
        ∧ Transaction.amount x = a
        ∧ Transaction.balanceBefore x = Some (User.accountBalance u)
        ∧ Transaction.balanceAfter x = Some (User.accountBalance u + a)
        ∧ Transaction.completedAt x = Some now'.
Proof.
  intros gw gw' now now' random pay uid a m u db ex id body
    Ha Hm Hu Hfresh Hex H0 db'.
  subst db'. unfold run. simpl.
  destruct (recharge_accepted gw now random uid a m u db Ha Hm Hu Hfresh)
    as (x' & -> & Hid & Hown & Hamt & _ & Hbb & _ & Hst).
  fold id in Hid, Hst, Hfresh.
  assert (findOne (Some id) (set_transactions (transactions db ++ [x']) db)
          = Some (length (transactions db), x')) as Hf.
  { simpl in Hfresh |- *. rewrite list_find_app_r by done. simpl.
    by rewrite decide_True by done. }
  unfold Payments.callback.
  replace (castString (body !! "transactionId")) with (Some id) by done.
  replace (Payments.isSuccess (body !! "status")) with true by done.
  replace (body !! "paymentID") with (Some (JStr pay)) by done.
  rewrite Hf, Hex, H0. simpl. unfold Payments.credit. simpl.
  rewrite Hown, Hu. simpl.
  split; [|split].
  - unfold balanceOf. simpl. rewrite lookup_insert_eq. simpl. by rewrite Hamt.
  - intros k Hk. by rewrite lookup_insert_ne.
  - eexists. split.
    { by rewrite insert_app_r_alt, Nat.sub_diag by done. }
    simpl. rewrite Hamt. by split_and!.
Qed.

(** X6.  The two reconciliation paths agree: for a pending bkash
    transaction that both the callback (by id) and the owner's [verify]
    find, with the gateway reporting status code "0000" to either, the
    callback and [verify] leave the same users, the same posts and the
    same transaction record up to the gateway sub-document (the callback
    also stores the gateway's reference). *)
Theorem verify_and_callback_complete_alike :
  ∀ (gw gw' : Bkash.t) (now : Z) (uid : ObjectId) (body body' : Body) (db : Db)
    (i : nat) (x : Transaction.t) (u : User.t) (q ex : Bkash.ExecuteData),
    Payments.notEmpty (body !! "transactionId") = true →
    findOneOf (castString (body !! "transactionId")) uid db = Some (i, x) →
    Transaction.status x = Transaction.pending →
    Transaction.paymentMethod x = "bkash" →
    users db !! Transaction.user x = Some u →
    Bkash.withToken gw
      (Bkash.queryStatus gw (Transaction.paymentId (Transaction.paymentGateway x)))
    = Some q →
    Bkash.statusCode q = "0000" →
    findOne (castString (body' !! "transactionId")) db = Some (i, x) →
    Payments.isSuccess (body' !! "status") = true →
    Bkash.withToken gw' (Bkash.execute gw' (body' !! "paymentID")) = Some ex →
    Bkash.statusCode ex = "0000" →
    let dv := (Payments.verify gw now uid body db).1 in
    let dc := (Payments.callback gw' now body' db).1 in
    users dv = users dc ∧ posts dv = posts dc
    ∧ ∃ xv xc, transactions dv = <[i := xv]> (transactions db)
               ∧ transactions dc = <[i := xc]> (transactions db)
               ∧ Transaction.set_paymentGateway Transaction.noGateway xv
                 = Transaction.set_paymentGateway Transaction.noGateway xc.
Proof.
  intros gw gw' now uid body body' db i x u q ex
    Hne Hf Hst Hm Hu Hq H0 Hf' Hs Hex H0' dv dc. subst dv dc.
  rewrite (verify_completes gw now uid body db i x u q) by done.
  unfold Payments.callback. rewrite Hf', Hs, Hex, H0'.
  unfold Payments.credit. rewrite Hu. simpl.
  split; [done|]. split; [done|]. by eexists _, _.
Qed.

(** ** What no request sequence does to the ledger *)

(** The fields of a transaction that say what it is. *)
Definition core (x : Transaction.t)
  : string * ObjectId * Transaction.Kind * Z * string * option Z :=
  (Transaction.transactionId x, Transaction.user x, Transaction.type x,
   Transaction.amount x, Transaction.paymentMethod x,
   Transaction.balanceBefore x).

Definition cores (db : Db) : list _ := core <$> transactions db.

Definition ids (db : Db) : list string :=
  Transaction.transactionId <$> transactions db.

Section AppendOnly.

Import Transaction Payments.

Implicit Types (db : Db) (x : Transaction.t).

Lemma saveTx_cores i x x' db :
  transactions db !! i = Some x → core x' = core x →
  cores (saveTx i x' db) = cores db.
Proof.
  intros Hi Hc. unfold cores. simpl.
  rewrite list_fmap_insert, Hc. apply list_insert_id.
  by rewrite list_lookup_fmap, Hi.
Qed.

Lemma findOne_None_ids s db : findOne (Some s) db = None ↔ s ∉ ids db.
Proof.
  simpl. rewrite list_find_None, Forall_forall. unfold ids.
  rewrite list_elem_of_fmap. split.
  - intros H (x & -> & Hx). by apply (H x).
  - intros H x Hx Hid. apply H. by exists x.
Qed.

(** One request either keeps the identifying fields of every stored
    transaction, or appends one transaction with an id not seen before. *)
Lemma handle_cores o db :
  cores (handle o db).1 = cores db
  ∨ ∃ x, cores (handle o db).1 = cores db ++ [core x]
         ∧ transactionId x ∉ ids db.
Proof.
  destruct o as [gw now random uid r|gw now body|gw now uid body
                |now random uid pid|uid body]; simpl.
  - (* recharge *)
    unfold recharge, rechargeOpen.
    destruct (validRecharge r) eqn:Hv; [|by left]. simpl.
    apply validRecharge_spec in Hv as (a & m & Ha & Hm & Hb & Hin).
    rewrite Ha, Hm.
    destruct (users db !! uid) as [u|] eqn:Hu; [|by left].
    destruct (insertTx _ db) as [db1|] eqn:Hins; [|by left].
    apply insertTx_Some in Hins as (_ & Hfresh & ->). simpl in Hfresh.
    right. exists (newRecharge (generateTransactionId now random) uid a m u).
    split; [|by apply findOne_None_ids].
    unfold rechargeGateway. simpl.
    assert (cores (set_transactions
                     (transactions db
                      ++ [newRecharge (generateTransactionId now random) uid a m u])
                     db)
            = cores db
              ++ [core (newRecharge (generateTransactionId now random) uid a m u)])
      as Hc by (unfold cores; simpl; by rewrite fmap_app).
    destruct (String.eqb m "bkash"); [|done].
    destruct (Bkash.withToken _ _); rewrite <- Hc;
      apply saveTx_cores
        with (x := newRecharge (generateTransactionId now random) uid a m u);
      try done; simpl; by rewrite lookup_app_r, Nat.sub_diag by done.
  - (* callback *)
    left. unfold callback.
    destruct (findOne _ db) as [[i x]|] eqn:Hf; [|done].
    pose proof (findOne_lookup _ _ _ _ Hf) as Hi.
    destruct (isSuccess _); [|by eapply saveTx_cores].
    destruct (Bkash.withToken _ _) as [ex|]; [|by eapply saveTx_cores].
    destruct (String.eqb _ "0000"); [|by eapply saveTx_cores].
    unfold credit. destruct (users db !! user x); [|by eapply saveTx_cores].
    simpl. by apply (saveTx_cores i x _ (set_users _ db)).
  - (* verify *)
    left.
    destruct (verify_cases gw now uid body db)
      as [->|(i & x & u & q & _ & Hf & _ & _ & _ & _ & _ & ->)]; [done|].
    apply (saveTx_cores i x _ (set_users _ db)); [|done].
    by eapply findOneOf_lookup.
  - left. unfold cores. by rewrite contact_transactions.
  - left. unfold cores. by rewrite profile_transactions.
Qed.

Lemma cores_ids db : ids db = (λ c, c.1.1.1.1.1) <$> cores db.
Proof. unfold ids, cores. rewrite <- list_fmap_compose. done. Qed.

Lemma run_cores ops db : cores db `prefix_of` cores (run ops db).
Proof.
  revert db. induction ops as [|o ops IH]; intros db; [done|].
  simpl. etrans; [|apply IH].
  destruct (handle_cores o db) as [->|(x & -> & _)]; [done|].
  by apply prefix_app_r.
Qed.

Lemma run_ids_NoDup ops db : NoDup (ids db) → NoDup (ids (run ops db)).
Proof.
  revert db. induction ops as [|o ops IH]; intros db Hnd; [done|].
  simpl. apply IH.
  rewrite cores_ids.
  destruct (handle_cores o db) as [->|(x & -> & Hfresh)];
    [by rewrite <- cores_ids|].
  rewrite fmap_app, <- cores_ids. simpl.
  apply NoDup_app. split_and!; [done| |apply NoDup_singleton].
  intros s Hs ->%list_elem_of_singleton. done.
Qed.

End AppendOnly.

(** X7.  The ledger is append-only in what identifies a transaction: along
    any sequence of requests no transaction is removed or moved, and the
    id, owner, type, amount, payment method and [balanceBefore] of a stored
    transaction never change. *)
Theorem ledger_is_append_only :
  ∀ (ops : list Op) (db : Db) (i : nat) (x : Transaction.t),
    transactions db !! i = Some x →
    ∃ x', transactions (run ops db) !! i = Some x' ∧ core x' = core x.
Proof.
  intros ops db i x Hi.
  destruct (run_cores ops db) as [new Hnew].
  assert (cores (run ops db) !! i = Some (core x)) as Hc.
  { rewrite Hnew. apply lookup_app_l_Some.
    unfold cores. by rewrite list_lookup_fmap, Hi. }
  unfold cores in Hc. rewrite list_lookup_fmap in Hc.
  apply fmap_Some in Hc as (x' & Hx' & Hc). by exists x'.
Qed.

(** X8.  Transaction ids stay unique: if no two stored transactions share
    an id, no sequence of requests makes two of them share one (the insert
    refuses an id already stored, and no update rewrites an id). *)
Theorem transaction_ids_stay_unique :
  ∀ (ops : list Op) (db : Db),
    NoDup (ids db) → NoDup (ids (run ops db)).
Proof. intros. by apply run_ids_NoDup. Qed.

(** ** What the money routes do to user documents *)

(** Everything in the user document besides the two money counters the
    ledger writes. *)
Definition identity (u : User.t)
  : string * string * string * string * string * Z * bool * bool * bool :=
  (User.name u, User.email u, User.phone u, User.password u, User.userType u,
   User.totalEarned u, User.isVerified u, User.isActive u, User.isBanned u).

(** The requests served by routes/payments.js and the contact route. *)
Definition moneyOp (o : Op) : bool :=
  match o with
  | Profile _ _ => false
  | _ => true
  end.

Section UserFrame.

Import Transaction Payments.

Implicit Types (db : Db) (k : ObjectId).

Lemma credit_identity gd now i x db db' u' k :
  credit gd now i x db = Some (db', u') →
  identity <$> users db' !! k = identity <$> users db !! k.
Proof.
  intros (u & Hu & -> & ->)%credit_Some. simpl.
  destruct (decide (user x = k)) as [<-|].
  - by rewrite lookup_insert_eq, Hu.
  - by rewrite lookup_insert_ne.
Qed.

Lemma handle_identity o db k :
  moneyOp o = true →
  identity <$> users (handle o db).1 !! k = identity <$> users db !! k.
Proof.
  destruct o as [gw now random uid r|gw now body|gw now uid body
                |now random uid pid|uid body]; simpl; [| | | |done]; intros _.
  - unfold recharge. destruct (rechargeOpen _ _ _ _ _) as [?|[[db1 i] x]] eqn:Ho;
      [done|].
    rewrite rechargeGateway_users.
    unfold rechargeOpen in Ho.
    destruct (negb _); [done|].
    destruct (reqAmount r), (reqPaymentMethod r); try done.
    destruct (users db !! uid); [|done].
    destruct (insertTx _ db) as [d|] eqn:Hins; [|done].
    apply insertTx_Some in Hins as (_ & _ & ->). by injection Ho as <- _ _.
  - unfold callback.
    destruct (findOne _ db) as [[i x]|]; [|done].
    destruct (isSuccess _); [|done].
    destruct (Bkash.withToken _ _) as [ex|]; [|done].
    destruct (String.eqb _ "0000"); [|done].
    destruct (credit _ now i x db) as [[d u']|] eqn:Hc; [|done].
    simpl. by eapply credit_identity.
  - destruct (verify_cases gw now uid body db)
      as [->|(i & x & u & q & _ & _ & _ & _ & Hu & _ & _ & ->)]; [done|].
    simpl. destruct (decide (user x = k)) as [<-|].
    + by rewrite lookup_insert_eq, Hu.
    + by rewrite lookup_insert_ne.
  - unfold Posts.contact.
    destruct (posts db !! pid); [|done].
    destruct (users db !! uid) as [u|] eqn:Hu; [|done].
    destruct (negb _); [done|].
    destruct (User.deductContactViewCost u) as [u'|]; [|done].
    rewrite contact_view_rejected. simpl.
    rewrite lookup_alter. case_decide as Hk; [subst|done].
    by destruct (users db !! k).
Qed.

Lemma run_identity ops db k :
  Forall (λ o, moneyOp o = true) ops →
  identity <$> users (run ops db) !! k = identity <$> users db !! k.
Proof.
  revert db. induction ops as [|o ops IH]; intros db Hall; [done|].
  apply Forall_cons in Hall as [Ho Hall].
  simpl. rewrite IH by done. by apply handle_identity.
Qed.

End UserFrame.

(** X9.  The money routes (recharge, callback, verify, contact view) write
    nothing of a user document but [accountBalance] and [totalSpent]: along
    any sequence of such requests no user appears or disappears, and name,
    email, phone, password, user type, [totalEarned] and the verified,
    active and banned flags of every user stay as they were. *)
Theorem money_routes_keep_user_identity :
  ∀ (ops : list Op) (db : Db) (k : ObjectId),
    Forall (λ o, moneyOp o = true) ops →
    identity <$> users (run ops db) !! k = identity <$> users db !! k.
Proof. intros. by apply run_identity. Qed.


(** * Reading the ledger: [GET /transactions], [GET /transaction/:id] *)

Module History.

Local Open Scope nat_scope.

(** The names the query string uses for the enumerated fields. *)
Definition kindName (k : Transaction.Kind) : string :=
  match k with
  | Transaction.recharge => "recharge"
  | Transaction.contact_view => "contact_view"
  | Transaction.featured_post => "featured_post"
  | Transaction.subscription => "subscription"
  | Transaction.refund => "refund"
  end.

Definition statusName (s : Transaction.Status) : string :=
  match s with
  | Transaction.pending => "pending"
  | Transaction.completed => "completed"
  | Transaction.failed => "failed"
  | Transaction.cancelled => "cancelled"
  | Transaction.refunded => "refunded"
  end.

(** [if (type) filter.type = type]: a missing or empty parameter does not
    filter. *)
Definition wanted (param : option string) (name : string) : bool :=
  if truthy param then bool_decide (param = Some name) else true.

(** The filter [{ user, type?, status? }]. *)
Definition matches (uid : ObjectId) (type status : option string)
    (x : Transaction.t) : bool :=
  bool_decide (Transaction.user x = uid)
  && wanted type (kindName (Transaction.type x))
  && wanted status (statusName (Transaction.status x)).

(** [Math.ceil(totalCount / limit)] for a positive [limit]. *)
Definition ceilDiv (n limit : nat) : nat := (n + limit - 1) / limit.

(** The [pagination] object.  With [limit] 0 the quotient is not a finite
    number ([null] in the JSON, here [None]). *)
Record Pagination := mkPagination {
  currentPage : nat;
  totalPages : option nat;
  totalCount : nat;
  hasNextPage : bool;
  hasPreviousPage : bool
}.

Definition pagination (page limit n : nat) : Pagination :=
  mkPagination page
    (if limit =? 0 then None else Some (ceilDiv n limit))
    n
    (if limit =? 0 then negb (n =? 0) else page <? ceilDiv n limit)
    (1 <? page).

(** [.skip((page - 1) * limit).limit(limit)] on the sorted result: [None]
    when the skip is negative, which MongoDB refuses; a limit of 0 is no
    limit. *)
Definition paginate {A} (page limit : nat) (l : list A) : option (list A) :=
  if (page =? 0) && negb (limit =? 0) then None
  else if limit =? 0 then Some l
  else Some (take limit (drop ((page - 1) * limit) l)).

(** The caller's transactions that pass the filter, newest first
    ([sort({ createdAt: -1 })]; documents are stored in the order of their
    creation). *)
Definition selected (uid : ObjectId) (type status : option string) (db : Db)
  : list Transaction.t :=
  reverse (filter (λ x, matches uid type status x = true) (transactions db)).

(** [GET /api/payments/transactions] for the authenticated user [uid];
    [page] and [limit] are the numbers [parseInt] reads from the query
    (1 and 20 when the parameter is absent). *)
Definition listTransactions (uid : ObjectId) (page limit : option nat)
    (type status : option string) (db : Db)
  : Response * option (list Transaction.t * Pagination) :=
  let p := default 1 page in
  let l := default 20 limit in
  let all := selected uid type status db in
  match paginate p l all with
  | None =>
      (mkResponse 500 false "Server error occurred while fetching transactions",
       None)
  | Some items => (mkResponse 200 true "", Some (items, pagination p l (length all)))
  end.

(** [GET /api/payments/transaction/:id] for the authenticated user. *)
Definition getTransaction (uid : ObjectId) (id : string) (db : Db)
  : Response * option Transaction.t :=
  match findOneOf (Some id) uid db with
  | None => (mkResponse 404 false "Transaction not found", None)
  | Some (_, x) => (mkResponse 200 true "", Some x)
  end.

End History.

Section HistoryFacts.

Import History.

Local Open Scope nat_scope.

Lemma ceilDiv_gt (p limit n : nat) :
  1 ≤ limit → (p < ceilDiv n limit ↔ p * limit < n).
Proof.
  intros Hl. unfold ceilDiv.
  pose proof (Nat.div_mod_eq (n + limit - 1) limit) as Hdm.
  pose proof (Nat.mod_upper_bound (n + limit - 1) limit ltac:(lia)) as Hlt.
  split; intros H; nia.
Qed.

Lemma paginate_Some {A} (page limit : nat) (l : list A) :
  1 ≤ page → 1 ≤ limit →
  paginate page limit l = Some (take limit (drop ((page - 1) * limit) l)).
Proof.
  intros Hp Hl. unfold paginate.
  destruct page, limit; simpl; try lia. done.
Qed.

(** The first [k] pages, one after the other, are the first [k * limit]
    items. *)
Lemma pages_concat {A} (limit k : nat) (l : list A) :
  concat ((λ p, take limit (drop (p * limit) l)) <$> seq 0 k) = take (k * limit) l.
Proof.
  induction k as [|k IH]; [done|].
  rewrite seq_S, fmap_app, concat_app, IH. simpl.
  rewrite app_nil_r, take_take_drop. f_equal. lia.
Qed.

End HistoryFacts.

(** X11.  The transaction history is scoped and filtered: every
    transaction [GET /transactions] returns is a stored transaction of the
    caller, of the requested type and status when these are given, and a
    page holds at most [limit] items when [limit] is positive. *)
Theorem history_returns_only_own_matching_transactions :
  ∀ (uid : ObjectId) (page limit : option nat) (type status : option string)
    (db : Db) (r : Response) (items : list Transaction.t)
    (pg : History.Pagination) (x : Transaction.t),
    History.listTransactions uid page limit type status db = (r, Some (items, pg)) →
    x ∈ items →
    x ∈ transactions db
    ∧ Transaction.user x = uid
    ∧ (∀ t, type = Some t → t ≠ "" → History.kindName (Transaction.type x) = t)
    ∧ (∀ s, status = Some s → s ≠ "" →
            History.statusName (Transaction.status x) = s)
    ∧ (default 20 limit ≠ 0 → length items ≤ default 20 limit)%nat.
Proof.
  intros uid page limit type status db r items pg x Hlist Hx.
  unfold History.listTransactions in Hlist.
  destruct (History.paginate _ _ _) as [its|] eqn:Hp; [|done].
  injection Hlist as _ <- _.
  assert (its ⊆ History.selected uid type status db
          ∧ (default 20 limit ≠ 0 → length its ≤ default 20 limit)%nat)
    as [Hsub Hlen].
  { unfold History.paginate in Hp.
    destruct (_ && _); [done|].
    destruct (Nat.eqb_spec (default 20%nat limit) 0%nat) as [->|Hl0];
      injection Hp as <-; [done|].
    split.
    - etrans; [apply subseteq_take|]. apply subseteq_drop.
    - intros _. rewrite length_take. lia. }
  apply Hsub in Hx. unfold History.selected in Hx.
  apply elem_of_reverse, list_elem_of_filter in Hx as [Hm Hin].
  unfold History.matches in Hm.
  apply andb_true_iff in Hm as [[Hu Ht]%andb_true_iff Hs].
  split_and!; [done| | | |done].
  - by apply bool_decide_eq_true in Hu.
  - intros t -> Hne. unfold History.wanted in Ht. simpl in Ht.
    destruct (String.eqb_spec t ""); [done|]. simpl in Ht.
    apply bool_decide_eq_true in Ht. congruence.
  - intros s -> Hne. unfold History.wanted in Hs. simpl in Hs.
    destruct (String.eqb_spec s ""); [done|]. simpl in Hs.
    apply bool_decide_eq_true in Hs. congruence.
Qed.

Section Pages.

Import History.

Local Open Scope nat_scope.

Lemma listTransactions_page uid (page limit : nat) type status db :
  1 ≤ page → 1 ≤ limit →
  listTransactions uid (Some page) (Some limit) type status db
  = (mkResponse 200 true "",
     Some (take limit (drop ((page - 1) * limit) (selected uid type status db)),
           pagination page limit (length (selected uid type status db)))).
Proof.
  intros Hp Hl. unfold listTransactions. simpl.
  by rewrite paginate_Some.
Qed.

Lemma take_drop_nonempty {A} (n k : nat) (l : list A) :
  1 ≤ n → (take n (drop k l) ≠ [] ↔ k < length l).
Proof.
  intros Hn. split.
  - intros Hne. destruct (decide (k < length l)); [done|].
    rewrite drop_ge in Hne by lia. by destruct n.
  - intros Hk Heq. apply (f_equal length) in Heq.
    rewrite length_take, length_drop in Heq. simpl in Heq. lia.
Qed.

End Pages.

(** X12.  The pages of the history partition it: for a positive [limit],
    the pages 1, 2, ..., [totalPages] of [GET /transactions], one after the
    other, are exactly the caller's matching transactions, newest first,
    each once. *)
Theorem history_pages_partition_the_history :
  ∀ (uid : ObjectId) (limit : nat) (type status : option string) (db : Db),
    (1 ≤ limit)%nat →
    let all := History.selected uid type status db in
    let items p :=
      match (History.listTransactions uid (Some p) (Some limit) type status db).2 with
      | Some (its, _) => its
      | None => []
      end in
    concat (items <$> seq 1 (History.ceilDiv (length all) limit)) = all.
Proof.
  intros uid limit type status db Hl all items.
  rewrite <- fmap_S_seq, <- list_fmap_compose.
  rewrite (list_fmap_ext _ (λ p, take limit (drop (p * limit) all))%nat).
  2:{ intros i p _. unfold items. simpl.
      rewrite listTransactions_page by lia. simpl. fold all.
      do 3 f_equal. lia. }
  rewrite pages_concat. apply take_ge.
  destruct (decide (History.ceilDiv (length all) limit * limit < length all)%nat)
    as [Hlt|]; [|lia].
  apply (ceilDiv_gt _ limit) in Hlt; [lia|done].
Qed.

(** X13.  The page flags tell the truth: for a positive [page] and
    [limit], [hasNextPage] is set exactly when the next page is not empty,
    [hasPreviousPage] exactly when the page is not the first,
    [totalCount] is the number of matching transactions, and a page after
    the last one is empty. *)
Theorem history_page_flags :
  ∀ (uid : ObjectId) (page limit : nat) (type status : option string) (db : Db),
    (1 ≤ page)%nat → (1 ≤ limit)%nat →
    let all := History.selected uid type status db in
    ∃ its next pg pg',
      History.listTransactions uid (Some page) (Some limit) type status db
      = (mkResponse 200 true "", Some (its, pg))
      ∧ History.listTransactions uid (Some (S page)) (Some limit) type status db
        = (mkResponse 200 true "", Some (next, pg'))
      ∧ (History.hasNextPage pg = true ↔ next ≠ [])
      ∧ (History.hasPreviousPage pg = true ↔ 1 < page)%nat
      ∧ History.totalCount pg = length all
      ∧ History.totalPages pg = Some (History.ceilDiv (length all) limit)
      ∧ (History.ceilDiv (length all) limit < page → its = [])%nat.
Proof.
  intros uid page limit type status db Hp Hl all.
  do 4 eexists.
  split; [by apply listTransactions_page|].
  split; [apply listTransactions_page; lia|].
  fold all. simpl.
  destruct limit as [|l']; [lia|]. simpl Nat.eqb. cbv iota.
  split_and!; [| |done|done|].
  - rewrite Nat.ltb_lt, ceilDiv_gt, take_drop_nonempty by lia.
    replace (page - 0)%nat with page by lia. done.
  - apply Nat.ltb_lt.
  - intros Hlast.
    assert (¬ (page - 1 < History.ceilDiv (length all) (S l'))%nat) as Hn by lia.
    rewrite ceilDiv_gt in Hn by lia.
    rewrite drop_ge by lia. done.
Qed.

(** X14.  [GET /transaction/:id] discloses a transaction only to its
    owner: what it returns is a stored transaction with the requested id
    owned by the caller, and it answers 404 exactly when the caller owns
    no transaction with that id. *)
Theorem transaction_detail_is_scoped_to_owner :
  ∀ (uid : ObjectId) (id : string) (db : Db),
    let out := History.getTransaction uid id db in
    (∀ x, out.2 = Some x →
          x ∈ transactions db ∧ Transaction.transactionId x = id
          ∧ Transaction.user x = uid ∧ code out.1 = 200%nat)
    ∧ (out.2 = None ↔ code out.1 = 404%nat)
    ∧ (code out.1 = 404%nat ↔
       ∀ x, x ∈ transactions db → Transaction.transactionId x = id →
            Transaction.user x ≠ uid).
Proof.
  intros uid id db out. subst out. unfold History.getTransaction. simpl.
  destruct (list_find _ _) as [[i x]|] eqn:Hf; simpl.
  - apply list_find_Some in Hf as (Hi & [Hid Hu] & _).
    split_and!.
    + intros y [= <-]. split_and!; try done. by eapply list_elem_of_lookup_2.
    + done.
    + split; [done|]. intros H. destruct (H x); try done.
      by eapply list_elem_of_lookup_2.
  - apply list_find_None in Hf. rewrite Forall_forall in Hf.
    split_and!; [done|done|]. split; [|done].
    intros _ x Hx Hid Hu. by apply (Hf x).
Qed.

(** * Transaction ids *)

(** X15.  Two generated transaction ids whose timestamps have the same
    number of digits (as [Date.now()] has from 2001 to 2286) are equal
    only if they were made in the same millisecond with the same random
    suffix. *)
Theorem generated_ids_differ_unless_same_draw :
  ∀ (now now' : Z) (random random' : string),
    String.length (pretty now) = String.length (pretty now') →
    Transaction.generateTransactionId now random
    = Transaction.generateTransactionId now' random' →
    now = now' ∧ random = random'.
Proof.
  intros now now' random random' Hlen Heq.
  unfold Transaction.generateTransactionId in Heq.
  injection Heq as Heq.
  destruct (string_app_inj_length _ _ _ _ Hlen Heq) as [Hnow ->].
  split; [|done]. by apply (inj pretty).
Qed.

(** Without the condition on the digits the suffix can make up for the
    timestamp. *)
Example generated_ids_can_collide :
  Transaction.generateTransactionId 12 "3X" = Transaction.generateTransactionId 123 "X".
Proof. reflexivity. Qed.

(** * middleware/auth.js (in src/unnamed/part_000) *)

Module Middleware.

(** What [jwt.verify(token, secret)] does with a token: the payload's
    [userId] ([None] when the payload has none), or one of the exceptions
    the middleware tells apart. *)
Inductive Jwt :=
  | Decoded (userId : option ObjectId)
  | TokenExpiredError
  | JsonWebTokenError
  | OtherError.

(** [s.replace('Bearer ', '')]: the first occurrence removed. *)
Fixpoint removeFirst (pat s : string) : string :=
  if String.prefix pat s then
    String.substring (String.length pat) (String.length s - String.length pat) s
  else
    match s with
    | EmptyString => EmptyString
    | String c s' => String c (removeFirst pat s')
    end.

(** [req.header('Authorization')?.replace('Bearer ', '')], [None] when it
    is falsy. *)
Definition tokenOf (header : option string) : option string :=
  match header with
  | Some h => let t := removeFirst "Bearer " h in
              if String.eqb t "" then None else Some t
  | None => None
  end.

Definition unauthorized (msg : string) : Response := mkResponse 401 false msg.

(** [auth]: a response, or the [req.userId] and [req.user] handed to the
    next handler. *)
Definition auth (jwt : string → Jwt) (header : option string) (db : Db)
  : Response + ObjectId * User.t :=
  match tokenOf header with
  | None => inl (unauthorized "No token provided, authorization denied")
  | Some token =>
      match jwt token with
      | Decoded userId =>
          match userId ≫= λ uid, (λ u, (uid, u)) <$> users db !! uid with
          | None => inl (unauthorized "Token is not valid - user not found")
          | Some (uid, u) =>
              if negb (User.isActive u) || User.isBanned u
              then inl (unauthorized "Account is inactive or banned")
              else inr (uid, u)
          end
      | TokenExpiredError => inl (unauthorized "Token has expired")
      | JsonWebTokenError => inl (unauthorized "Invalid token")
      | OtherError => inl (mkResponse 500 false "Server error in authentication")
      end
  end.

(** [optionalAuth]: never a response; the user when there is one to
    name. *)
Definition optionalAuth (jwt : string → Jwt) (header : option string) (db : Db)
  : option (ObjectId * User.t) :=
  match tokenOf header with
  | None => None
  | Some token =>
      match jwt token with
      | Decoded userId =>
          match userId ≫= λ uid, (λ u, (uid, u)) <$> users db !! uid with
          | Some (uid, u) =>
              if User.isActive u && negb (User.isBanned u)
              then Some (uid, u) else None
          | None => None
          end
      | _ => None
      end
  end.

(** [adminOnly], on the [req.user] of the request: [None] lets the request
    through. *)
Definition adminOnly (user : option User.t) : option Response :=
  match user with
  | Some u =>
      if negb (String.eqb (User.userType u) "admin")
      then Some (mkResponse 403 false "Admin access required")
      else None
  | None => Some (mkResponse 403 false "Admin access required")
  end.

(** A route declared as [router.x(path, auth, handler)]. *)
Definition protect (jwt : string → Jwt) (header : option string)
    (handler : ObjectId → Db → Db * Response) (db : Db) : Db * Response :=
  match auth jwt header db with
  | inl r => (db, r)
  | inr (uid, _) => handler uid db
  end.

End Middleware.

Lemma auth_passes jwt header db uid u :
  Middleware.auth jwt header db = inr (uid, u) ↔
  ∃ token, Middleware.tokenOf header = Some token
           ∧ jwt token = Middleware.Decoded (Some uid)
           ∧ users db !! uid = Some u
           ∧ User.isActive u = true ∧ User.isBanned u = false.
Proof.
  unfold Middleware.auth. split.
  - destruct (Middleware.tokenOf header) as [token|]; [|done].
    destruct (jwt token) as [[uid'|]| | |] eqn:Hj; try done. simpl.
    destruct (users db !! uid') as [u'|] eqn:Hu; [|done]. simpl.
    destruct (User.isActive u') eqn:Ha, (User.isBanned u') eqn:Hb; try done.
    simpl. intros [= <- <-]. by exists token.
  - intros (token & -> & -> & Hu & Ha & Hb). simpl.
    by rewrite Hu; simpl; rewrite Ha, Hb.
Qed.

(** X16.  [auth] lets a request through exactly when its token decodes to
    the id of a stored user who is active and not banned, and then hands
    on that id and that user.  Every other request is answered by the
    middleware itself, so a route behind [auth] changes nothing for a
    banned or deactivated account, however valid the token. *)
Theorem auth_admits_exactly_active_users :
  ∀ (jwt : string → Middleware.Jwt) (header : option string) (db : Db)
    (handler : ObjectId → Db → Db * Response),
    (∀ uid u,
       Middleware.auth jwt header db = inr (uid, u) ↔
       ∃ token, Middleware.tokenOf header = Some token
                ∧ jwt token = Middleware.Decoded (Some uid)
                ∧ users db !! uid = Some u
                ∧ User.isActive u = true ∧ User.isBanned u = false)
    ∧ (∀ token uid u,
         Middleware.tokenOf header = Some token →
         jwt token = Middleware.Decoded (Some uid) →
         users db !! uid = Some u →
         User.isActive u = false ∨ User.isBanned u = true →
         Middleware.protect jwt header handler db
         = (db, Middleware.unauthorized "Account is inactive or banned")).
Proof.
  intros jwt header db handler. split.
  - intros uid u. apply auth_passes.
  - intros token uid u Ht Hj Hu Hoff.
    unfold Middleware.protect, Middleware.auth. rewrite Ht, Hj. simpl.
    rewrite Hu. simpl.
    by destruct Hoff as [-> | ->]; [|rewrite orb_true_r].
Qed.

(** X17.  Behind [auth], the handlers never meet a missing caller: the
    recharge route never answers "User not found" and the contact route
    never fails on a null user. *)
Theorem auth_rules_out_missing_caller :
  ∀ (jwt : string → Middleware.Jwt) (header : option string) (db : Db)
    (gw : Bkash.t) (now : Z) (random : string) (r : Payments.RechargeReq)
    (pid : ObjectId),
    (Middleware.protect jwt header
       (λ uid, Payments.recharge gw now random uid r) db).2
    ≠ mkResponse 404 false "User not found"
    ∧ (Middleware.protect jwt header
         (λ uid, Posts.contact now random uid pid) db).2
      ≠ mkResponse 500 false "Cannot read properties of null".
Proof.
  intros jwt header db gw now random r pid.
  unfold Middleware.protect.
  destruct (Middleware.auth jwt header db) as [resp|[uid u]] eqn:Hauth.
  - unfold Middleware.auth in Hauth. simpl.
    destruct (Middleware.tokenOf header) as [token|]; [|by injection Hauth as <-].
    destruct (jwt token) as [userId| | |];
      [|by injection Hauth as <-..].
    destruct (userId ≫= _) as [[uid u]|]; [|by injection Hauth as <-].
    destruct (_ || _); [by injection Hauth as <-|done].
  - apply auth_passes in Hauth as (_ & _ & _ & Hu & _).
    split.
    + unfold Payments.recharge, Payments.rechargeOpen.
      destruct (negb _); [done|].
      destruct (Payments.reqAmount r), (Payments.reqPaymentMethod r); try done.
      rewrite Hu. destruct (insertTx _ db); [|done].
      unfold Payments.rechargeGateway. destruct (String.eqb _ _); [|done].
      by destruct (Bkash.withToken _ _).
    + unfold Posts.contact. destruct (posts db !! pid); [|done].
      rewrite Hu. destruct (negb _); [done|].
      destruct (User.deductContactViewCost u); [|done].
      by destruct (insertTx _ _).
Qed.

(** X18.  [optionalAuth] names a user exactly when [auth] would let the
    same request through, and names the same user; it never answers the
    request itself. *)
Theorem optionalAuth_agrees_with_auth :
  ∀ (jwt : string → Middleware.Jwt) (header : option string) (db : Db)
    (uid : ObjectId) (u : User.t),
    Middleware.optionalAuth jwt header db = Some (uid, u)
    ↔ Middleware.auth jwt header db = inr (uid, u).
Proof.
  intros jwt header db uid u.
  unfold Middleware.optionalAuth, Middleware.auth.
  destruct (Middleware.tokenOf header) as [token|]; [|done].
  destruct (jwt token) as [userId| | |]; try done.
  destruct (userId ≫= _) as [[uid' u']|]; [|done].
  destruct (User.isActive u'), (User.isBanned u'); simpl; try done.
  split; by intros [= <- <-].
Qed.

(** X19.  [adminOnly] turns away every user the schema allows: the user
    type it asks for, "admin", is not among the types a user document can
    have. *)
Theorem adminOnly_rejects_every_valid_user :
  ∀ (u : User.t),
    User.userType u ∈ User.userTypes →
    Middleware.adminOnly (Some u)
    = Some (mkResponse 403 false "Admin access required").
Proof.
  intros u. unfold Middleware.adminOnly, User.userTypes.
  rewrite !elem_of_cons, elem_of_nil.
  by intros [->|[->|[->|[->|[->|[]]]]]].
Qed.

(** * routes/posts.js: deleting a post *)

Module PostRoutes.

(** [DELETE /api/posts/:id] for the authenticated user [uid]. *)
Definition deletePost (uid pid : ObjectId) (db : Db) : Db * Response :=
  match posts db !! pid with
  | None => (db, mkResponse 404 false "Post not found")
  | Some p =>
      if negb (bool_decide (Post.postedBy p = uid))
      then (db, mkResponse 403 false "Not authorized to delete this post")
      else (set_posts (delete pid (posts db)) db,
            mkResponse 200 true "Post deleted successfully")
  end.

End PostRoutes.

(** X20.  Only its owner can delete a post: [DELETE /posts/:id] either
    changes nothing, or removes exactly the post named, which the caller
    had posted; users, transactions and the other posts are untouched.  A
    caller who is not the owner is answered 403, and after a deletion the
    contact route answers 404 for that post without charging anyone. *)
Theorem only_the_owner_deletes_a_post :
  ∀ (uid pid : ObjectId) (db : Db),
    let out := PostRoutes.deletePost uid pid db in
    users out.1 = users db ∧ transactions out.1 = transactions db
    ∧ (out.1 = db
       ∨ ∃ p, posts db !! pid = Some p ∧ Post.postedBy p = uid
              ∧ posts out.1 = delete pid (posts db)
              ∧ code out.2 = 200%nat
              ∧ ∀ now random uid',
                  Posts.contact now random uid' pid out.1
                  = (out.1, Posts.notFound))
    ∧ (∀ p, posts db !! pid = Some p → Post.postedBy p ≠ uid →
            out = (db, mkResponse 403 false "Not authorized to delete this post")).
Proof.
  intros uid pid db out. subst out. unfold PostRoutes.deletePost.
  destruct (posts db !! pid) as [p|] eqn:Hp; [|by split_and!; auto].
  case_bool_decide as Ho; simpl.
  - split_and!; [done|done| |congruence].
    right. exists p. split_and!; try done.
    intros now random uid'. unfold Posts.contact. simpl.
    by rewrite lookup_delete_eq.
  - split_and!; [done|done|by left|]. by intros ? [= <-] _.
Qed.

(** * routes/posts.js: favourites *)

Module Favorites.

(** [POST /api/posts/:id/favorite] works on one field of the post, its
    [favorites] array; the collection is seen here through that field. *)
Definition Store := gmap ObjectId (list ObjectId).

(** The new array and the [isFavorited] of the response. *)
Definition toggle (uid : ObjectId) (favorites : list ObjectId)
  : list ObjectId * bool :=
  if bool_decide (uid ∈ favorites)
  then (filter (λ id, id ≠ uid) favorites, false)
  else (favorites ++ [uid], true).

(** The handler: the store after [post.save()], the response, and its
    [data] ([isFavorited], [favoritesCount]). *)
Definition favorite (uid pid : ObjectId) (st : gmap ObjectId (list ObjectId))
  : gmap ObjectId (list ObjectId) * Response * option (bool * nat) :=
  match st !! pid with
  | None => (st, mkResponse 404 false "Post not found", None)
  | Some favorites =>
      let '(favorites', now_favorited) := toggle uid favorites in
      (<[pid := favorites']> st,
       mkResponse 200 true
         (if now_favorited then "Added to favorites" else "Removed from favorites"),
       Some (now_favorited, length favorites'))
  end.

End Favorites.

(** X21.  The favourite button is a switch for the caller alone: one
    request flips whether the caller is among the post's favourites and
    changes nobody else's membership; the response says what the caller
    now is; an array without duplicates stays without duplicates and its
    length moves by one; and a second request brings everybody's
    membership back to where it was. *)
Theorem favorite_toggles_the_caller_only :
  ∀ (uid pid : ObjectId) (st : gmap ObjectId (list ObjectId))
    (favorites : list ObjectId),
    st !! pid = Some favorites →
    ∃ (favorites' : list ObjectId) (is_now : bool),
      Favorites.favorite uid pid st
      = (<[pid := favorites']> st,
         mkResponse 200 true
           (if is_now then "Added to favorites" else "Removed from favorites"),
         Some (is_now, length favorites'))
      ∧ (uid ∈ favorites' ↔ uid ∉ favorites)
      ∧ (is_now = true ↔ uid ∈ favorites')
      ∧ (∀ k, k ≠ uid → (k ∈ favorites' ↔ k ∈ favorites))
      ∧ (NoDup favorites →
         NoDup favorites'
         ∧ length favorites' = if is_now then S (length favorites)
                               else pred (length favorites))
      ∧ ∃ (favorites'' : list ObjectId) (is_then : bool),
          Favorites.favorite uid pid (<[pid := favorites']> st)
          = (<[pid := favorites'']> st,
             mkResponse 200 true
               (if is_then then "Added to favorites" else "Removed from favorites"),
             Some (is_then, length favorites''))
          ∧ ∀ k, k ∈ favorites'' ↔ k ∈ favorites.
Proof.
  intros uid pid st favorites Hst.
  assert (∀ k l, k ∈ filter (λ id, id ≠ uid) l ↔ k ≠ uid ∧ k ∈ l) as Hfilter
    by (intros k l; exact (list_elem_of_filter (λ id, id ≠ uid) l k)).
  unfold Favorites.favorite. rewrite Hst. unfold Favorites.toggle.
  case_bool_decide as Hin.
  - (* was a favourite: removed, then added again *)
    eexists _, false. split; [done|].
    split_and!.
    + rewrite Hfilter. intuition (subst; auto; congruence).
    + rewrite Hfilter. intuition (subst; auto; congruence).
    + intros k Hk. rewrite Hfilter. intuition (subst; auto; congruence).
    + intros Hnd. split; [by apply NoDup_filter|].
      clear Hst. induction Hnd as [|y l Hy Hnd IH]; [by apply elem_of_nil in Hin|].
      rewrite filter_cons. destruct (decide (y ≠ uid)) as [Hne|Heq].
      * apply elem_of_cons in Hin as [?|Hin]; [congruence|].
        simpl. rewrite IH by done. destruct l; [by apply elem_of_nil in Hin|done].
      * apply dec_stable in Heq as ->. simpl. f_equal.
        clear IH Hin. induction l as [|z l IHl]; [done|].
        apply not_elem_of_cons in Hy as [Hz Hy].
        rewrite filter_cons, decide_True by done.
        f_equal. apply IHl; [done|]. by apply NoDup_cons in Hnd as [_ ?].
    + rewrite lookup_insert_eq.
      rewrite bool_decide_eq_false_2 by (rewrite Hfilter; intuition (subst; auto; congruence)).
      rewrite insert_insert_eq. eexists _, true. split; [done|].
      intros k. rewrite elem_of_app, Hfilter, list_elem_of_singleton.
      destruct (decide (k = uid)) as [->|]; intuition (subst; auto; congruence).
  - (* was not: added, then removed *)
    eexists _, true. split; [done|].
    split_and!.
    + rewrite elem_of_app, list_elem_of_singleton. intuition (subst; auto; congruence).
    + rewrite elem_of_app, list_elem_of_singleton. intuition (subst; auto; congruence).
    + intros k Hk. rewrite elem_of_app, list_elem_of_singleton. intuition (subst; auto; congruence).
    + intros Hnd. split.
      * apply NoDup_app. split_and!; [done| |apply NoDup_singleton].
        intros k Hk ->%list_elem_of_singleton. done.
      * rewrite length_app. simpl. lia.
    + rewrite lookup_insert_eq.
      rewrite bool_decide_eq_true_2
        by (rewrite elem_of_app, list_elem_of_singleton; auto).
      rewrite insert_insert_eq. eexists _, false. split; [done|].
      intros k. rewrite Hfilter, elem_of_app, list_elem_of_singleton.
      destruct (decide (k = uid)) as [->|]; intuition (subst; auto; congruence).
Qed.

(** * routes/auth.js: what a profile update stores *)

(** The paths of the user document that the model has, as JSON. *)
Definition modelledPaths : list string :=
  ["name"; "email"; "phone"; "password"; "userType";
   "accountBalance"; "totalSpent"; "totalEarned";
   "isVerified"; "isActive"; "isBanned"].

Definition field (k : string) (u : User.t) : option JsValue :=
  if String.eqb k "name" then Some (JStr (User.name u))
  else if String.eqb k "email" then Some (JStr (User.email u))
  else if String.eqb k "phone" then Some (JStr (User.phone u))
  else if String.eqb k "password" then Some (JStr (User.password u))
  else if String.eqb k "userType" then Some (JStr (User.userType u))
  else if String.eqb k "accountBalance" then Some (JNum (User.accountBalance u))
  else if String.eqb k "totalSpent" then Some (JNum (User.totalSpent u))
  else if String.eqb k "totalEarned" then Some (JNum (User.totalEarned u))
  else if String.eqb k "isVerified" then Some (JBool (User.isVerified u))
  else if String.eqb k "isActive" then Some (JBool (User.isActive u))
  else if String.eqb k "isBanned" then Some (JBool (User.isBanned u))
  else None.

Section ProfileStores.

Ltac case_key k :=
  repeat match goal with
         | |- context [String.eqb k ?s] =>
             destruct (String.eqb_spec k s); [subst; simpl in *; try done|]
         | H : context [String.eqb k ?s] |- _ =>
             destruct (String.eqb_spec k s); [subst; simpl in *; try done|]
         end.

Lemma field_setPath k k' v u :
  k ∈ modelledPaths → Auth.pathOk k' v = true →
  field k (Auth.setPath k' v u) = if decide (k = k') then Some v else field k u.
Proof.
  intros Hk Hok. unfold modelledPaths in Hk.
  repeat (apply elem_of_cons in Hk as [->|Hk]);
    [..|by apply elem_of_nil in Hk];
    destruct u, v; unfold Auth.pathOk in Hok; simpl in *;
    case_key k'; simpl; try done;
    match goal with
    | |- context [decide (?a = k')] =>
        destruct (decide (a = k')) as [<-|];
        [try (vm_compute in Hok; discriminate)|]
    end; try done; congruence.
Qed.

Lemma strip_lookup_unprotected (body : Body) k :
  k ∉ protectedKeys → Auth.strip body !! k = body !! k.
Proof.
  unfold protectedKeys, Auth.strip. rewrite !not_elem_of_cons.
  intros (? & ? & ? & ? & ? & _).
  by rewrite !lookup_delete_ne by done.
Qed.

Lemma applySet_field (updates : Body) u k :
  k ∈ modelledPaths →
  map_Forall (λ k v, Auth.pathOk k v = true) updates →
  field k (Auth.applySet updates u) = from_option Some (field k u) (updates !! k).
Proof.
  intros Hk. unfold Auth.applySet.
  apply (map_fold_weak_ind
           (λ r (m : Body), map_Forall (λ k v, Auth.pathOk k v = true) m →
                            field k r = from_option Some (field k u) (m !! k))).
  - done.
  - intros k' v m r Hnone IH Hall.
    apply map_Forall_insert in Hall as [Hok Hall]; [|done].
    rewrite field_setPath by done.
    destruct (decide (k = k')) as [->|Hne].
    + by rewrite lookup_insert_eq.
    + rewrite lookup_insert_ne by done. by apply IH.
Qed.

End ProfileStores.

(** The bookkeeping paths a profile update reaches, with the values it
    stores as they are: a whole number of magnitude up to 2^53 on the two
    totals, a boolean on [isActive], one of the five user types on
    [userType]. *)
Definition bookkeeping (k : string) (v : JsValue) : Prop :=
  match v with
  | JNum n => (k = "totalSpent" ∨ k = "totalEarned") ∧ Z.abs n ≤ 2 ^ 53
  | JBool _ => k = "isActive"
  | JStr s => k = "userType" ∧ s ∈ User.userTypes
  | JNull => False
  end.

Lemma bookkeeping_pathOk k v : bookkeeping k v → Auth.pathOk k v = true.
Proof.
  destruct v as [|b|n|s]; simpl; [done|..].
  - by intros ->.
  - by intros [[-> | ->] _].
  - intros [-> Hs]. unfold Auth.pathOk. simpl. by apply bool_decide_eq_true.
Qed.

Lemma bookkeeping_key k v :
  bookkeeping k v → k ∈ ["totalSpent"; "totalEarned"; "isActive"; "userType"].
Proof.
  rewrite !elem_of_cons.
  destruct v as [|b|n|s]; simpl; [done|..]; intuition auto.
Qed.

(** X22.  The profile route lets the caller overwrite the bookkeeping
    fields the handler does not strip.  A body that gives, besides keys
    the handler strips, only [totalSpent] or [totalEarned] as a whole
    number, [isActive] as a boolean or [userType] as one of the five types
    is answered 200: each of these four fields then holds the given value,
    or its old value when the body has no such key, and the caller's name,
    email, phone, password, balance and the verified and banned flags,
    every other user, the transactions and the posts are as before. *)
Theorem profile_update_writes_the_bookkeeping_fields :
  ∀ (uid : ObjectId) (body : Body) (db : Db) (u : User.t),
    users db !! uid = Some u →
    (∀ k v, body !! k = Some v → k ∈ protectedKeys ∨ bookkeeping k v) →
    let out := Auth.profile uid body db in
    out.2 = mkResponse 200 true "Profile updated successfully"
    ∧ transactions out.1 = transactions db ∧ posts out.1 = posts db
    ∧ (∀ k, k ≠ uid → users out.1 !! k = users db !! k)
    ∧ ∃ u', users out.1 !! uid = Some u'
        ∧ (∀ k, k ∈ ["totalSpent"; "totalEarned"; "isActive"; "userType"] →
                field k u' = from_option Some (field k u) (body !! k))
        ∧ (∀ k, k ∈ ["name"; "email"; "phone"; "password"; "accountBalance";
                     "isVerified"; "isBanned"] →
                field k u' = field k u).
Proof.
  intros uid body db u Hu Hbody out. subst out.
  assert (∀ k v, Auth.strip body !! k = Some v →
                 (k ∉ protectedKeys) ∧ body !! k = Some v) as Hstrip.
  { intros k v Hk. destruct (decide (k ∈ protectedKeys)) as [Hin|Hout].
    - by rewrite strip_lookup_protected in Hk.
    - by rewrite strip_lookup_unprotected in Hk. }
  assert (map_Forall (λ k v, Auth.pathOk k v = true) (Auth.strip body)) as Hall.
  { intros k v Hk. destruct (Hstrip k v Hk) as [Hout Hb].
    destruct (Hbody k v Hb) as [?|Hw]; [done|]. by apply bookkeeping_pathOk. }
  unfold Auth.profile. rewrite bool_decide_eq_true_2 by done. rewrite Hu. simpl.
  split_and!; try done.
  - intros k Hk. by rewrite lookup_insert_ne.
  - eexists. split; [by rewrite lookup_insert_eq|]. split.
    + intros k Hk.
      assert (k ∈ modelledPaths ∧ k ∉ protectedKeys) as [Hm Hout].
      { unfold modelledPaths, protectedKeys.
        repeat (apply elem_of_cons in Hk as [->|Hk]);
          [..|by apply elem_of_nil in Hk];
          (split; [rewrite !elem_of_cons; auto 12
                  |rewrite !not_elem_of_cons; split_and!;
                   try discriminate; apply not_elem_of_nil]). }
      by rewrite applySet_field, strip_lookup_unprotected.
    + intros k Hk.
      assert (k ∈ modelledPaths) as Hm.
      { unfold modelledPaths.
        repeat (apply elem_of_cons in Hk as [->|Hk]);
          [..|by apply elem_of_nil in Hk]; rewrite !elem_of_cons; auto 12. }
      rewrite applySet_field by done.
      destruct (Auth.strip body !! k) as [v|] eqn:Hv; [|done].
      destruct (Hstrip k v Hv) as [Hout Hb].
      destruct (Hbody k v Hb) as [?|Hw]; [done|].
      apply bookkeeping_key in Hw.
      repeat (apply elem_of_cons in Hk as [->|Hk]);
        [..|by apply elem_of_nil in Hk];
        repeat (apply elem_of_cons in Hw as [Hw|Hw]; [discriminate|]);
        by apply elem_of_nil in Hw.
Qed.

(** * routes/auth.js: passwords

    [bcrypt] is seen through two functions: [hash] is what
    [bcrypt.hash(p, salt)] returns for the salt drawn by the request, and
    [compare] is [bcrypt.compare].  [toLowerCase] is the JavaScript string
    method; [sign] is [jwt.sign] applied to the user id. *)

Module AuthRoutes.

Definition set_password (pw : string) (u : User.t) : User.t :=
  User.mk (User.name u) (User.email u) (User.phone u) pw (User.userType u)
    (User.accountBalance u) (User.totalSpent u) (User.totalEarned u)
    (User.isVerified u) (User.isActive u) (User.isBanned u).

(** [user.password = newPassword; await user.save()], with the pre-save
    hook of models/User.js: the password is hashed when the assignment
    changed it, and left alone when it did not ([isModified] is false for
    a value equal to the stored one). *)
Definition savePassword (hash : string → string) (newPassword : string)
    (u : User.t) : User.t :=
  if String.eqb newPassword (User.password u) then u
  else set_password (hash newPassword) u.

(** [body(...).notEmpty()] and [body(...).isLength({ min: 6 })] on the text
    of a field. *)
Definition filled (o : option string) : bool := truthy o.
Definition longEnough (o : option string) : bool :=
  match o with
  | Some s => (6 <=? String.length s)%nat
  | None => false
  end.

(** [PUT /api/auth/change-password] for the authenticated user [uid]. *)
Definition changePassword (compare : string → string → bool)
    (hash : string → string) (uid : ObjectId)
    (currentPassword newPassword : option string) (db : Db) : Db * Response :=
  if negb (filled currentPassword && longEnough newPassword) then
    (db, mkResponse 400 false "Validation failed")
  else
    match currentPassword, newPassword with
    | Some current, Some new =>
        match users db !! uid with
        | None => (db, mkResponse 404 false "User not found")
        | Some u =>
            if negb (compare current (User.password u)) then
              (db, mkResponse 400 false "Current password is incorrect")
            else
              (set_users (<[uid := savePassword hash new u]> (users db)) db,
               mkResponse 200 true "Password changed successfully")
        end
    | _, _ => (db, mkResponse 400 false "Validation failed")
    end.

(** [User.findOne({ $or: [{ email }, { phone }] })]: one of the users that
    match, here the first in the order of the ids. *)
Definition findByIdentifier (toLowerCase : string → string) (identifier : string)
    (db : Db) : option (ObjectId * User.t) :=
  snd <$> list_find (λ ku, User.email ku.2 = toLowerCase identifier
                           ∨ User.phone ku.2 = identifier)
            (map_to_list (users db)).

(** [POST /api/auth/login]: the response and, on success, the user id and
    the token.  The handler also stamps [lastActive], a field outside the
    model; the hook leaves the password alone on that save. *)
Definition login (compare : string → string → bool)
    (toLowerCase : string → string) (sign : ObjectId → string)
    (identifier password : option string) (db : Db)
  : Response * option (ObjectId * string) :=
  if negb (filled identifier && filled password) then
    (mkResponse 400 false "Validation failed", None)
  else
    match identifier, password with
    | Some ident, Some pw =>
        match findByIdentifier toLowerCase ident db with
        | None => (mkResponse 401 false "Invalid credentials", None)
        | Some (uid, u) =>
            if negb (User.isActive u) || User.isBanned u then
              (mkResponse 401 false "Account is inactive or banned", None)
            else if negb (compare pw (User.password u)) then
              (mkResponse 401 false "Invalid credentials", None)
            else (mkResponse 200 true "Login successful", Some (uid, sign uid))
        end
    | _, _ => (mkResponse 400 false "Validation failed", None)
    end.

End AuthRoutes.

(** Everything in a user document but the password. *)
Definition besidesPassword (u : User.t)
  : string * string * string * string * Z * Z * Z * bool * bool * bool :=
  (User.name u, User.email u, User.phone u, User.userType u,
   User.accountBalance u, User.totalSpent u, User.totalEarned u,
   User.isVerified u, User.isActive u, User.isBanned u).

(** A user that alone answers to an identifier is the one found. *)
Lemma findByIdentifier_unique toLowerCase ident db uid u :
  users db !! uid = Some u →
  User.phone u = ident ∨ User.email u = toLowerCase ident →
  (∀ k v, users db !! k = Some v →
          User.email v = toLowerCase ident ∨ User.phone v = ident → k = uid) →
  AuthRoutes.findByIdentifier toLowerCase ident db = Some (uid, u).
Proof.
  intros Hu Hmatch Honly. unfold AuthRoutes.findByIdentifier.
  destruct (list_find _ _) as [[i [k v]]|] eqn:Hf; simpl.
  - apply list_find_Some in Hf as (Hi & HP & _). simpl in HP.
    apply list_elem_of_lookup_2, elem_of_map_to_list in Hi.
    assert (k = uid) as -> by by eapply Honly. congruence.
  - apply list_find_None in Hf. rewrite Forall_forall in Hf.
    destruct (Hf (uid, u)); [by apply elem_of_map_to_list|].
    simpl. tauto.
Qed.

Section Passwords.

Import AuthRoutes.

Variables (compare : string → string → bool) (hash : string → string).

Lemma changePassword_cases uid current new db :
  let out := changePassword compare hash uid current new db in
  out.1 = db ∧ code out.2 ≠ 200%nat
  ∨ ∃ c n u, current = Some c ∧ new = Some n ∧ c ≠ ""
             ∧ (6 ≤ String.length n)%nat
             ∧ users db !! uid = Some u
             ∧ compare c (User.password u) = true
             ∧ out = (set_users (<[uid := savePassword hash n u]> (users db)) db,
                      mkResponse 200 true "Password changed successfully").
Proof.
  simpl. unfold changePassword.
  destruct (filled current) eqn:Hc; [|by left].
  destruct (longEnough new) eqn:Hn; [|by left]. simpl.
  destruct current as [c|]; [|done]. destruct new as [n|]; [|done].
  destruct (users db !! uid) as [u|] eqn:Hu; [|by left].
  destruct (compare c (User.password u)) eqn:Hcmp; [|by left]. simpl.
  right. exists c, n, u. split_and!; try done.
  - unfold filled, truthy in Hc. by destruct (String.eqb_spec c "").
  - unfold longEnough in Hn. by apply Nat.leb_le in Hn.
Qed.

Lemma savePassword_besides n u :
  besidesPassword (savePassword hash n u) = besidesPassword u.
Proof. unfold savePassword. by destruct (String.eqb _ _). Qed.

End Passwords.

(** X23.  Changing the password changes the password and nothing else: a
    request either leaves the database as it was (and is not answered 200),
    or it came with the caller's current password and a new one of at
    least six characters, and then every field of every user except the
    caller's password, all transactions and all posts are as before. *)
Theorem change_password_touches_only_the_password :
  ∀ (compare : string → string → bool) (hash : string → string)
    (uid : ObjectId) (current new : option string) (db : Db),
    let out := AuthRoutes.changePassword compare hash uid current new db in
    (out.1 = db ∧ code out.2 ≠ 200%nat
     ∨ ∃ c n u, current = Some c ∧ new = Some n
                ∧ users db !! uid = Some u
                ∧ compare c (User.password u) = true
                ∧ (6 ≤ String.length n)%nat
                ∧ code out.2 = 200%nat)
    ∧ (∀ k, besidesPassword <$> users out.1 !! k = besidesPassword <$> users db !! k)
    ∧ (∀ k, k ≠ uid → users out.1 !! k = users db !! k)
    ∧ transactions out.1 = transactions db ∧ posts out.1 = posts db.
Proof.
  intros compare hash uid current new db out. subst out.
  destruct (changePassword_cases compare hash uid current new db)
    as [[Hsame Hcode]|(c & n & u & -> & -> & _ & Hlen & Hu & Hcmp & Hout)].
  - simpl in Hsame. rewrite Hsame. split_and!; auto.
  - simpl in Hout. rewrite Hout. simpl. split_and!; try done.
    + right. by exists c, n, u.
    + intros k. destruct (decide (uid = k)) as [<-|].
      * by rewrite lookup_insert_eq, Hu; simpl; rewrite savePassword_besides.
      * by rewrite lookup_insert_ne.
    + intros k Hk. by rewrite lookup_insert_ne.
Qed.

(** X24.  The new password works: after a successful change to a password
    that differs from the stored hash, and with [bcrypt] accepting a
    password against its own hash, the stored password is the hash of the
    new one, and a login by phone number with the new password succeeds
    for an active, unbanned user whom that identifier alone names, and
    names that user. *)
Theorem changed_password_logs_in :
  ∀ (compare : string → string → bool) (hash : string → string)
    (toLowerCase : string → string) (sign : ObjectId → string)
    (uid : ObjectId) (current new : string) (db : Db) (u : User.t),
    users db !! uid = Some u →
    User.isActive u = true → User.isBanned u = false →
    User.phone u ≠ "" →
    (∀ k v, users db !! k = Some v →
            User.email v = toLowerCase (User.phone u)
            ∨ User.phone v = User.phone u → k = uid) →
    new ≠ User.password u →
    compare new (hash new) = true →
    let out := AuthRoutes.changePassword compare hash uid (Some current)
                 (Some new) db in
    out.2 = mkResponse 200 true "Password changed successfully" →
    (User.password <$> users out.1 !! uid) = Some (hash new)
    ∧ AuthRoutes.login compare toLowerCase sign (Some (User.phone u)) (Some new)
        out.1
      = (mkResponse 200 true "Login successful", Some (uid, sign uid)).
Proof.
  intros compare hash toLowerCase sign uid current new db u
    Hu Hact Hban Hphone Honly Hnew Hbcrypt out Hok. subst out.
  destruct (changePassword_cases compare hash uid (Some current) (Some new) db)
    as [[_ Hcode]|(c & n & u0 & [= <-] & [= <-] & _ & Hlen & Hu0 & _ & Hout)].
  { simpl in Hcode. by rewrite Hok in Hcode. }
  simpl in Hout. rewrite Hout. simpl.
  assert (u0 = u) as -> by congruence.
  assert (AuthRoutes.savePassword hash new u
          = AuthRoutes.set_password (hash new) u) as Hsaved.
  { unfold AuthRoutes.savePassword. by destruct (String.eqb_spec new (User.password u)). }
  rewrite Hsaved, lookup_insert_eq. split; [done|].
  unfold AuthRoutes.login. simpl.
  destruct (String.eqb_spec (User.phone u) ""); [done|].
  assert (new ≠ "") as Hne by (intros ->; simpl in Hlen; lia).
  destruct (String.eqb_spec new ""); [done|]. simpl.
  rewrite (findByIdentifier_unique toLowerCase (User.phone u) _ uid
             (AuthRoutes.set_password (hash new) u)).
  - simpl. by rewrite Hact, Hban, Hbcrypt.
  - simpl. by rewrite lookup_insert_eq.
  - simpl. by left.
  - simpl. intros k v Hk Hm.
    destruct (decide (uid = k)) as [<-|Hne']; [done|].
    rewrite lookup_insert_ne in Hk by done. by eapply Honly.
Qed.

(** * The integers of the embedding and the doubles of the code

    On whole numbers of magnitude below 2^53 the sum, the difference and
    the comparison of binary64 are those of the integers: every such
    number has a canonical double, and the rounding of [SpecFloat] leaves
    an exactly representable result alone. *)

Section WholeNumbers.

Import SpecFloat.

(** [p] shifted left by [k] binary places. *)
Definition lshift (p : positive) (k : Z) : positive :=
  match k with Zpos j => Pos.iter xO p j | _ => p end.

Lemma lshift_value p k : 0 ≤ k → Zpos (lshift p k) = Zpos p * 2 ^ k.
Proof.
  destruct k as [|j|j]; simpl; [lia| |lia]. intros _.
  induction j as [|j IH] using Pos.peano_ind.
  - simpl. lia.
  - rewrite Pos.iter_succ, Pos2Z.inj_succ, Z.pow_succ_r by lia.
    rewrite Pos2Z.inj_xO, IH. lia.
Qed.

Lemma lshift_digits p k :
  0 ≤ k → Zpos (digits2_pos (lshift p k)) = Zpos (digits2_pos p) + k.
Proof.
  destruct k as [|j|j]; simpl; [lia| |lia]. intros _.
  induction j as [|j IH] using Pos.peano_ind.
  - simpl. lia.
  - rewrite Pos.iter_succ. simpl. rewrite Pos2Z.inj_succ, IH. lia.
Qed.

Lemma lshift_add p k j : 0 ≤ k → 0 ≤ j → lshift (lshift p k) j = lshift p (k + j).
Proof.
  intros Hk Hj.
  destruct k as [|k|k], j as [|j|j]; simpl; try lia; try reflexivity.
  by rewrite Pos.add_comm, Pos.iter_add.
Qed.

Lemma iter_pos_iter {A} (f : A → A) p x : iter_pos f p x = Pos.iter f x p.
Proof.
  revert x. induction p as [p IH|p IH|]; intros x; simpl; [| |done].
  - by rewrite !IH, !Pos.iter_swap.
  - by rewrite !IH.
Qed.

Lemma shr_lshift m j :
  Pos.iter shr_1 (Build_shr_record (Zpos (Pos.iter xO m j)) false false) j
  = Build_shr_record (Zpos m) false false.
Proof.
  induction j as [|j IH] using Pos.peano_ind; [done|].
  rewrite !Pos.iter_succ, <- Pos.iter_swap. simpl. exact IH.
Qed.

Lemma digits2_pos_bounds p :
  2 ^ (Zpos (digits2_pos p) - 1) ≤ Zpos p < 2 ^ Zpos (digits2_pos p).
Proof.
  induction p as [p IH|p IH|]; simpl digits2_pos;
    rewrite ?Pos2Z.inj_succ; [| |simpl; lia].
  - replace (Z.succ (Zpos (digits2_pos p)) - 1) with (Z.succ (Zpos (digits2_pos p) - 1))
      by lia.
    rewrite !Z.pow_succ_r by lia. lia.
  - replace (Z.succ (Zpos (digits2_pos p)) - 1) with (Z.succ (Zpos (digits2_pos p) - 1))
      by lia.
    rewrite !Z.pow_succ_r by lia. lia.
Qed.

Lemma digits2_pos_le p n : 0 ≤ n → Zpos p < 2 ^ n → Zpos (digits2_pos p) ≤ n.
Proof.
  intros Hn Hp. destruct (digits2_pos_bounds p) as [Hlo _].
  destruct (Z.le_gt_cases (Zpos (digits2_pos p)) n) as [|Hgt]; [done|].
  assert (2 ^ n ≤ 2 ^ (Zpos (digits2_pos p) - 1)) by (apply Z.pow_le_mono_r; lia).
  lia.
Qed.

Lemma shr_fexp_exact m e j :
  Zpos (digits2_pos m) = 53 → 0 ≤ j → -1074 ≤ e →
  shr_fexp 53 1024 (Zpos (lshift m j)) (e - j) loc_Exact
  = (Build_shr_record (Zpos m) false false, e).
Proof.
  intros Hd Hj He. unfold shr_fexp. simpl Zdigits2.
  rewrite lshift_digits, Hd by done. unfold fexp, emin.
  replace (Z.max (53 + j + (e - j) - 53) (3 - 1024 - 53) - (e - j)) with j by lia.
  simpl shr_record_of_loc.
  destruct j as [|j|j]; [| |lia]; simpl.
  - f_equal. lia.
  - rewrite iter_pos_iter, shr_lshift. f_equal. lia.
Qed.

Lemma round_aux_exact s m e j :
  Zpos (digits2_pos m) = 53 → 0 ≤ j → -1074 ≤ e ≤ 971 →
  binary_round_aux 53 1024 s (Zpos (lshift m j)) (e - j) loc_Exact
  = S754_finite s m e.
Proof.
  intros Hd Hj He. unfold binary_round_aux.
  rewrite shr_fexp_exact by (done || lia). simpl.
  pose proof (shr_fexp_exact m e 0 Hd ltac:(lia) ltac:(lia)) as H0.
  simpl in H0. rewrite Z.sub_0_r in H0. rewrite H0. simpl.
  destruct (Z.leb_spec e (1024 - 53)); [done|lia].
Qed.

(** The canonical double of a positive whole number below 2^53. *)
Definition canonical (s : bool) (p : positive) : spec_float :=
  S754_finite s (lshift p (53 - Zpos (digits2_pos p))) (Zpos (digits2_pos p) - 53).

Lemma round_exact s p k :
  Zpos p < 2 ^ 53 → 0 ≤ k →
  binary_round 53 1024 s (lshift p k) (- k) = canonical s p.
Proof.
  intros Hp Hk. apply digits2_pos_le in Hp; [|lia].
  pose proof (Pos2Z.is_pos (digits2_pos p)) as Hd0.
  set (d := Zpos (digits2_pos p)) in *.
  assert (Zpos (digits2_pos (lshift p (53 - d))) = 53) as Hm.
  { rewrite lshift_digits by lia. fold d. lia. }
  unfold binary_round. rewrite lshift_digits by done. fold d.
  unfold fexp, emin, shl_align.
  replace (Z.max (d + k + - k - 53) (3 - 1024 - 53) - - k) with (d - 53 + k) by lia.
  replace (Z.max (d + k + - k - 53) (3 - 1024 - 53)) with (d - 53) by lia.
  destruct (d - 53 + k) as [|j|j] eqn:Hj.
  - replace (lshift p k) with (lshift (lshift p (53 - d)) 0)
      by (rewrite lshift_add by lia; f_equal; lia).
    replace (- k) with (d - 53 - 0) by lia.
    apply round_aux_exact; [done|lia|lia].
  - replace (lshift p k) with (lshift (lshift p (53 - d)) (Zpos j))
      by (rewrite lshift_add by lia; f_equal; lia).
    replace (- k) with (d - 53 - Zpos j) by lia.
    apply round_aux_exact; [done|lia|lia].
  - replace (Pos.iter xO (lshift p k) j) with (lshift (lshift p (53 - d)) 0).
    2:{ change (Pos.iter xO (lshift p k) j) with (lshift (lshift p k) (Zpos j)).
        rewrite !lshift_add by lia. f_equal. lia. }
    replace (d - 53) with (d - 53 - 0) at 1 by lia.
    apply round_aux_exact; [done|lia|lia].
Qed.

Lemma ofZ_pos p : Zpos p < 2 ^ 53 → Binary64.ofZ (Zpos p) = canonical false p.
Proof. intros Hp. exact (round_exact false p 0 Hp ltac:(lia)). Qed.

Lemma ofZ_neg p : Zpos p < 2 ^ 53 → Binary64.ofZ (Zneg p) = canonical true p.
Proof. intros Hp. exact (round_exact true p 0 Hp ltac:(lia)). Qed.

Lemma normalize_exact n k :
  Z.abs n < 2 ^ 53 → 0 ≤ k →
  binary_normalize 53 1024 (n * 2 ^ k) (- k) false = Binary64.ofZ n.
Proof.
  intros Hn Hk. destruct n as [|p|p].
  - done.
  - rewrite ofZ_pos by lia. rewrite <- lshift_value by done. simpl.
    apply round_exact; lia.
  - rewrite ofZ_neg by lia.
    replace (Zneg p * 2 ^ k) with (- Zpos (lshift p k))
      by (rewrite lshift_value by done; lia).
    simpl. apply round_exact; lia.
Qed.


Lemma normalize_exact_neg n e :
  Z.abs n < 2 ^ 53 → e ≤ 0 →
  binary_normalize 53 1024 (n * 2 ^ (- e)) e false = Binary64.ofZ n.
Proof.
  intros Hn He. pose proof (normalize_exact n (- e) Hn ltac:(lia)) as H.
  by rewrite Z.opp_involutive in H.
Qed.

Lemma align_canon p ez :
  Zpos p < 2 ^ 53 → ez ≤ Zpos (digits2_pos p) - 53 →
  Zpos (fst (shl_align (lshift p (53 - Zpos (digits2_pos p)))
               (Zpos (digits2_pos p) - 53) ez))
  = Zpos p * 2 ^ (- ez).
Proof.
  intros Hp Hez. apply digits2_pos_le in Hp; [|lia].
  set (d := Zpos (digits2_pos p)) in *.
  rewrite <- lshift_value by lia. f_equal.
  unfold shl_align. destruct (ez - (d - 53)) as [|j|j] eqn:Hj; simpl fst.
  - f_equal. lia.
  - lia.
  - change (Pos.iter xO (lshift p (53 - d)) j) with (lshift (lshift p (53 - d)) (Zpos j)).
    rewrite lshift_add by lia. f_equal. lia.
Qed.

Lemma cond_Zopp_mul s n k : cond_Zopp s n * k = cond_Zopp s (n * k).
Proof. destruct s; simpl; lia. Qed.

Lemma add_canon sa pa sb pb :
  Zpos pa < 2 ^ 53 → Zpos pb < 2 ^ 53 →
  Z.abs (cond_Zopp sa (Zpos pa) + cond_Zopp sb (Zpos pb)) < 2 ^ 53 →
  SFadd 53 1024 (canonical sa pa) (canonical sb pb)
  = Binary64.ofZ (cond_Zopp sa (Zpos pa) + cond_Zopp sb (Zpos pb)).
Proof.
  intros Ha Hb Hab. unfold canonical, SFadd.
  set (ez := Z.min (Zpos (digits2_pos pa) - 53) (Zpos (digits2_pos pb) - 53)).
  rewrite !align_canon by (done || lia).
  rewrite <- !cond_Zopp_mul, <- Z.mul_add_distr_r.
  pose proof (digits2_pos_le pa 53 ltac:(lia) Ha).
  pose proof (digits2_pos_le pb 53 ltac:(lia) Hb).
  apply normalize_exact_neg; [done|lia].
Qed.

Lemma sub_canon sa pa sb pb :
  Zpos pa < 2 ^ 53 → Zpos pb < 2 ^ 53 →
  Z.abs (cond_Zopp sa (Zpos pa) - cond_Zopp sb (Zpos pb)) < 2 ^ 53 →
  SFsub 53 1024 (canonical sa pa) (canonical sb pb)
  = Binary64.ofZ (cond_Zopp sa (Zpos pa) - cond_Zopp sb (Zpos pb)).
Proof.
  intros Ha Hb Hab. unfold canonical, SFsub.
  set (ez := Z.min (Zpos (digits2_pos pa) - 53) (Zpos (digits2_pos pb) - 53)).
  rewrite !align_canon by (done || lia).
  rewrite <- !cond_Zopp_mul, <- Z.mul_sub_distr_r.
  pose proof (digits2_pos_le pa 53 ltac:(lia) Ha).
  pose proof (digits2_pos_le pb 53 ltac:(lia) Hb).
  apply normalize_exact_neg; [done|lia].
Qed.

Lemma ofZ_canon n :
  Z.abs n < 2 ^ 53 →
  Binary64.ofZ n = match n with
                   | Z0 => S754_zero false
                   | Zpos p => canonical false p
                   | Zneg p => canonical true p
                   end.
Proof.
  intros Hn. destruct n as [|p|p]; [done|..].
  - apply ofZ_pos. lia.
  - apply ofZ_neg. lia.
Qed.

Theorem add_whole a b :
  Z.abs a < 2 ^ 53 → Z.abs b < 2 ^ 53 → Z.abs (a + b) < 2 ^ 53 →
  Binary64.add (Binary64.ofZ a) (Binary64.ofZ b) = Binary64.ofZ (a + b).
Proof.
  intros Ha Hb Hab. unfold Binary64.add.
  rewrite (ofZ_canon a Ha), (ofZ_canon b Hb).
  destruct a as [|pa|pa], b as [|pb|pb]; try done;
    try (by rewrite ?Z.add_0_r; symmetry; apply ofZ_canon).
  - exact (add_canon false pa false pb ltac:(lia) ltac:(lia) Hab).
  - exact (add_canon false pa true pb ltac:(lia) ltac:(lia) Hab).
  - exact (add_canon true pa false pb ltac:(lia) ltac:(lia) Hab).
  - exact (add_canon true pa true pb ltac:(lia) ltac:(lia) Hab).
Qed.

Theorem sub_whole a b :
  Z.abs a < 2 ^ 53 → Z.abs b < 2 ^ 53 → Z.abs (a - b) < 2 ^ 53 →
  Binary64.sub (Binary64.ofZ a) (Binary64.ofZ b) = Binary64.ofZ (a - b).
Proof.
  intros Ha Hb Hab. unfold Binary64.sub.
  rewrite (ofZ_canon a Ha), (ofZ_canon b Hb).
  destruct a as [|pa|pa], b as [|pb|pb].
  - done.
  - change (canonical true pb = Binary64.ofZ (Zneg pb)). symmetry. apply ofZ_neg. lia.
  - change (canonical false pb = Binary64.ofZ (Zpos pb)). symmetry. apply ofZ_pos. lia.
  - change (canonical false pa = Binary64.ofZ (Zpos pa)). symmetry. apply ofZ_pos. lia.
  - exact (sub_canon false pa false pb ltac:(lia) ltac:(lia) Hab).
  - exact (sub_canon false pa true pb ltac:(lia) ltac:(lia) Hab).
  - change (canonical true pa = Binary64.ofZ (Zneg pa)). symmetry. apply ofZ_neg. lia.
  - exact (sub_canon true pa false pb ltac:(lia) ltac:(lia) Hab).
  - exact (sub_canon true pa true pb ltac:(lia) ltac:(lia) Hab).
Qed.

Lemma digits_lt pa pb :
  Zpos (digits2_pos pa) < Zpos (digits2_pos pb) → Zpos pa < Zpos pb.
Proof.
  intros Hd. destruct (digits2_pos_bounds pa) as [_ Ha].
  destruct (digits2_pos_bounds pb) as [Hb _].
  assert (2 ^ Zpos (digits2_pos pa) ≤ 2 ^ (Zpos (digits2_pos pb) - 1))
    by (apply Z.pow_le_mono_r; lia).
  lia.
Qed.

Lemma compare_canon pa pb :
  Zpos pa < 2 ^ 53 → Zpos pb < 2 ^ 53 →
  match Zpos (digits2_pos pa) - 53 ?= Zpos (digits2_pos pb) - 53 with
  | Lt => Lt
  | Gt => Gt
  | Eq => Pos.compare_cont Eq (lshift pa (53 - Zpos (digits2_pos pa)))
            (lshift pb (53 - Zpos (digits2_pos pb)))
  end = (Zpos pa ?= Zpos pb).
Proof.
  intros Ha Hb.
  apply digits2_pos_le in Ha; [|lia]. apply digits2_pos_le in Hb; [|lia].
  destruct (Z.compare_spec (Zpos (digits2_pos pa) - 53)
              (Zpos (digits2_pos pb) - 53)) as [Heq|Hlt|Hgt].
  - assert (Zpos (digits2_pos pa) = Zpos (digits2_pos pb)) as Hd by lia.
    rewrite <- Hd.
    change (Pos.compare_cont Eq ?x ?y) with (Zpos x ?= Zpos y).
    rewrite !lshift_value by lia.
    assert (0 < 2 ^ (53 - Zpos (digits2_pos pa))) as Hpow
      by (apply Z.pow_pos_nonneg; lia).
    destruct (Z.compare_spec (Zpos pa) (Zpos pb)) as [Hc|Hc|Hc].
    + apply Z.compare_eq_iff. by rewrite Hc.
    + apply Z.compare_lt_iff. by apply Z.mul_lt_mono_pos_r.
    + apply Z.compare_gt_iff. by apply Z.mul_lt_mono_pos_r.
  - symmetry. apply Z.compare_lt_iff, digits_lt. lia.
  - symmetry. apply Z.compare_gt_iff, digits_lt. lia.
Qed.

Theorem compare_whole a b :
  Z.abs a < 2 ^ 53 → Z.abs b < 2 ^ 53 →
  SFcompare (Binary64.ofZ a) (Binary64.ofZ b) = Some (a ?= b).
Proof.
  intros Ha Hb. rewrite (ofZ_canon a Ha), (ofZ_canon b Hb).
  destruct a as [|pa|pa], b as [|pb|pb]; try done.
  - unfold canonical, SFcompare. f_equal. apply compare_canon; lia.
  - unfold canonical, SFcompare. f_equal.
    change (Zneg pa ?= Zneg pb) with (CompOpp (Zpos pa ?= Zpos pb)).
    rewrite <- (compare_canon pa pb) by lia.
    by destruct (_ - 53 ?= _ - 53).
Qed.

Lemma geb_whole a b :
  Z.abs a < 2 ^ 53 → Z.abs b < 2 ^ 53 →
  Binary64.geb (Binary64.ofZ a) (Binary64.ofZ b) = (b <=? a).
Proof.
  intros Ha Hb. unfold Binary64.geb, SFleb, Z.leb.
  rewrite compare_whole by done. by destruct (b ?= a).
Qed.

End WholeNumbers.

(** X25.  On whole numbers of magnitude below 2^53 the arithmetic of the
    embedding is the arithmetic of the code.  The balance that [credit]
    stores is the double the code's [+=] computes from the doubles of the
    old balance and the amount; the gate [canViewContact] decides on the
    double as on the integer; and [deductContactViewCost] computes on
    doubles the doubles of the balance less 5 and of [totalSpent] plus 5. *)
Theorem whole_numbers_are_computed_exactly :
  ∀ (u : User.t) (a : Z),
    Z.abs (User.accountBalance u) < 2 ^ 53 →
    Z.abs (User.totalSpent u) + 5 < 2 ^ 53 →
    Z.abs a < 2 ^ 53 →
    Z.abs (User.accountBalance u + a) < 2 ^ 53 →
    let balance := Binary64.ofZ (User.accountBalance u) in
    let spent := Binary64.ofZ (User.totalSpent u) in
    (∀ gd now i x db db' u',
       users db !! Transaction.user x = Some u → Transaction.amount x = a →
       Payments.credit gd now i x db = Some (db', u') →
       Binary64.ofZ (User.accountBalance u')
       = Binary64.credit balance (Binary64.ofZ a))
    ∧ Binary64.canViewContact balance = User.canViewContact u
    ∧ Binary64.deductContactViewCost balance spent
      = (λ u', (Binary64.ofZ (User.accountBalance u'),
                Binary64.ofZ (User.totalSpent u')))
          <$> User.deductContactViewCost u.
Proof.
  intros u a Hb Hs Ha Hsum balance spent. subst balance spent.
  assert (Binary64.geb (Binary64.ofZ (User.accountBalance u)) (Binary64.ofZ 5)
          = (5 <=? User.accountBalance u)) as Hgate
    by (apply geb_whole; [done|reflexivity]).
  split; [|split].
  - intros gd now i x db db' u' Hu Hx Hc. unfold Payments.credit in Hc.
    rewrite Hu in Hc. injection Hc as _ <-. simpl. rewrite Hx.
    symmetry. by apply add_whole.
  - exact Hgate.
  - unfold Binary64.deductContactViewCost, User.deductContactViewCost.
    rewrite Hgate. destruct (Z.leb_spec 5 (User.accountBalance u)); [|done].
    cbv iota. rewrite sub_whole, add_whole by lia. reflexivity.
Qed.

(** Outside the whole numbers the code rounds.  A fractional amount passes
    the validation of [POST /recharge] ([isFloat], [parseFloat]): a balance
    of 10.1 credited with 10.2 becomes a number that is not 20.3, and the
    difference of the two snapshots is then less than the amount, with no
    other change of the balance in between. *)
Example fractional_credit_is_rounded :
  let before := Binary64.ratio 101 10 in
  let amount := Binary64.ratio 102 10 in
  let after := Binary64.credit before amount in
  SpecFloat.SFeqb after (Binary64.ratio 203 10) = false
  ∧ SpecFloat.SFltb (Binary64.sub after before) amount = true.
Proof. by vm_compute. Qed.

(** Above 2^53 as well: at a [totalSpent] of 2^53 (the field can be
    written through the profile route) the price of a contact view is
    added as 4. *)
Example large_total_rounds_the_price :
  Binary64.deductContactViewCost (Binary64.ofZ 10) (Binary64.ofZ (2 ^ 53))
  = Some (Binary64.ofZ 5, Binary64.ofZ (2 ^ 53 + 4)).
Proof. by vm_compute. Qed.

(** * The further theorems at concrete inputs *)

Module Scenario2.

(** Bob, the second user, active and not banned. *)
Definition bob : User.t :=
  User.mk "Bob" "bob@example.bd" "01900000000" "hash-b" "teacher"
    0 0 0 false true false.

(** Alice with the recharge of 100 opened, and Bob. *)
Definition opened : Db :=
  let d := run [Scenario.openA] Scenario.db0 in
  set_users (<[2%nat := bob]> (users d)) d.

(** Both recharges of the first scenario opened and confirmed. *)
Definition twoPaid : Db :=
  run [Scenario.openA; Scenario.openB;
       Scenario.confirmA 2000; Scenario.confirmB 2001] Scenario.db0.

(** A toy [bcrypt]: the hash is the password behind a marker. *)
Definition hash (p : string) : string := "$2a$12$" +:+ p.
Definition compare (candidate stored : string) : bool :=
  String.eqb stored (hash candidate).

(** Alice with a stored hash of "secret1". *)
Definition withPassword : Db :=
  mkDb {[ 1%nat := AuthRoutes.set_password (hash "secret1") Scenario.alice;
          2%nat := bob ]} [] ∅.

End Scenario2.

(** X1 at Bob asking about Alice's recharge. *)
Lemma verify_refuses_foreign_transaction_witness :
  Payments.verify Scenario.approving 3000 2%nat
    (Scenario.webhook Scenario.idA "success") Scenario2.opened
  = (Scenario2.opened, mkResponse 404 false "Transaction not found").
Proof.
  apply (verify_refuses_foreign_transaction Scenario.approving 3000 2%nat
           (Scenario.webhook Scenario.idA "success") Scenario2.opened
           Scenario.idA); [by vm_compute|by vm_compute|].
  intros x Hx _. vm_compute in Hx.
  apply list_elem_of_singleton in Hx as ->. by vm_compute.
Defined.

(** X4 at Bob's ledger with Alice's opened recharge, the webhook reporting a
    cancellation: one transaction before and after, and no user changed. *)
Lemma callback_touches_one_transaction_and_its_owner_witness :
  let body := Scenario.webhook Scenario.idA "cancel" in
  let db' := (Payments.callback Scenario.unreachable 2000 body
                Scenario2.opened).1 in
  body !! "transactionId" = Some (JStr Scenario.idA)
  ∧ length (transactions db') = 1%nat
  ∧ users db' = users Scenario2.opened
  ∧ posts db' = posts Scenario2.opened.
Proof.
  intros body db'.
  assert (body !! "transactionId" = Some (JStr Scenario.idA)) as Hid
    by reflexivity.
  split; [exact Hid|].
  destruct (callback_touches_one_transaction_and_its_owner Scenario.unreachable
              2000 body Scenario2.opened Scenario.idA Hid)
    as (Hposts & Hlen & _ & Hfound).
  split; [exact Hlen|]. split; [|exact Hposts].
  edestruct (Hfound 0%nat) as (_ & _ & Husers); [vm_compute; reflexivity|].
  by apply Husers.
Defined.

(** X5 at Alice's recharge of 100 and its confirmation. *)
Lemma recharge_then_callback_credits_the_amount_witness :
  balanceOf 1%nat Scenario.paid = Some 100.
Proof.
  refine (proj1 (recharge_then_callback_credits_the_amount
                   Scenario.approving Scenario.approving 1000 2000 "A1B2C3D4E"
                   (Scenario.payFor Scenario.idA) 1%nat 100 "bkash"
                   Scenario.alice Scenario.db0 Scenario.execOk
                   _ _ _ _ _ _)); try reflexivity.
  - lia.
  - apply elem_of_cons. by left.
Defined.

(** X6 at Alice's opened recharge, confirmed by either path. *)
Lemma verify_and_callback_complete_alike_witness :
  users (Payments.verify Scenario.approving 2000 1%nat
           (Scenario.webhook Scenario.idA "success") Scenario2.opened).1
  = users (Payments.callback Scenario.approving 2000
             (Scenario.webhook Scenario.idA "success") Scenario2.opened).1.
Proof.
  refine (proj1 (verify_and_callback_complete_alike
                   Scenario.approving Scenario.approving 2000 1%nat
                   (Scenario.webhook Scenario.idA "success")
                   (Scenario.webhook Scenario.idA "success")
                   Scenario2.opened 0%nat
                   (Transaction.mk Scenario.idA 1%nat Transaction.recharge 100
                      "bkash"
                      (Transaction.mkGateway (Some "bkash") None
                         (Some (Scenario.payFor Scenario.idA)) None None)
                      Transaction.pending "Account recharge via bkash"
                      None None None None (Some 0) None)
                   Scenario.alice Scenario.execOk Scenario.execOk
                   _ _ _ _ _ _ _ _ _ _ _)); by vm_compute.
Defined.

(** X7 at the first transaction of the opened ledger, through its
    confirmation, a cancellation and a second recharge. *)
Lemma ledger_is_append_only_witness :
  ∃ x x',
    transactions (run [Scenario.openA] Scenario.db0) !! 0%nat = Some x
    ∧ transactions
        (run [Scenario.confirmA 2000; Scenario.cancelA 2001; Scenario.openB]
           (run [Scenario.openA] Scenario.db0)) !! 0%nat = Some x'
    ∧ core x' = core x.
Proof.
  eexists.
  destruct (ledger_is_append_only
              [Scenario.confirmA 2000; Scenario.cancelA 2001; Scenario.openB]
              (run [Scenario.openA] Scenario.db0) 0%nat _
              ltac:(vm_compute; reflexivity)) as (x' & Hx' & Hc).
  exists x'. split; [by vm_compute|]. by split.
Defined.

(** X8 at the empty ledger and the same id drawn twice. *)
Lemma transaction_ids_stay_unique_witness :
  NoDup (ids Scenario.db0)
  ∧ NoDup (ids (run [Scenario.openA; Scenario.openA; Scenario.openB] Scenario.db0)).
Proof.
  assert (NoDup (ids Scenario.db0)) as H0 by constructor.
  split; [exact H0|].
  exact (transaction_ids_stay_unique
           [Scenario.openA; Scenario.openA; Scenario.openB] Scenario.db0 H0).
Defined.

(** X9 at a recharge, its confirmation and a contact view. *)
Lemma money_routes_keep_user_identity_witness :
  identity <$>
    users (run [Scenario.openA; Scenario.confirmA 2000;
                Contact 3000 "K9L8M7N6P" 1%nat 7%nat] Scenario.db0) !! 1%nat
  = Some (identity Scenario.alice).
Proof.
  rewrite (money_routes_keep_user_identity
             [Scenario.openA; Scenario.confirmA 2000;
              Contact 3000 "K9L8M7N6P" 1%nat 7%nat] Scenario.db0 1%nat).
  - reflexivity.
  - repeat constructor.
Defined.

(** X11 at the first page of Alice's completed recharges. *)
Lemma history_returns_only_own_matching_transactions_witness :
  ∃ x its pg,
    History.listTransactions 1%nat (Some 1%nat) (Some 1%nat) (Some "recharge")
      (Some "completed") Scenario2.twoPaid
    = (mkResponse 200 true "", Some (its, pg))
    ∧ x ∈ its
    ∧ Transaction.user x = 1%nat
    ∧ History.statusName (Transaction.status x) = "completed".
Proof.
  eexists _, _, _.
  split; [vm_compute; reflexivity|].
  split; [apply list_elem_of_here|].
  edestruct (history_returns_only_own_matching_transactions
               1%nat (Some 1%nat) (Some 1%nat) (Some "recharge")
               (Some "completed") Scenario2.twoPaid)
    as (_ & Hu & _ & Hs & _);
    [vm_compute; reflexivity|apply list_elem_of_here|].
  split; [exact Hu|]. by apply Hs.
Defined.

(** X12 at Alice's two transactions, one per page. *)
Lemma history_pages_partition_the_history_witness :
  (1 ≤ 1)%nat
  ∧ History.ceilDiv (length (History.selected 1%nat None None Scenario2.twoPaid))
      1 = 2%nat
  ∧ concat
      ((λ p, match (History.listTransactions 1%nat (Some p) (Some 1%nat) None
                      None Scenario2.twoPaid).2 with
             | Some (its, _) => its
             | None => []
             end) <$> [1%nat; 2%nat])
    = History.selected 1%nat None None Scenario2.twoPaid.
Proof.
  split; [lia|]. split; [by vm_compute|].
  exact (history_pages_partition_the_history 1%nat 1%nat None None
           Scenario2.twoPaid ltac:(lia)).
Defined.

(** X13 at the first of Alice's two pages. *)
Lemma history_page_flags_witness :
  ∃ its pg,
    History.listTransactions 1%nat (Some 1%nat) (Some 1%nat) None None
      Scenario2.twoPaid = (mkResponse 200 true "", Some (its, pg))
    ∧ History.hasNextPage pg = true
    ∧ History.totalCount pg = 2%nat.
Proof.
  destruct (history_page_flags 1%nat 1%nat 1%nat None None Scenario2.twoPaid
              ltac:(lia) ltac:(lia))
    as (its & next & pg & pg' & Hl & Hn & Hnext & _ & Hcount & _).
  exists its, pg. split; [exact Hl|]. split.
  - apply Hnext. vm_compute in Hn. injection Hn as <- _. discriminate.
  - rewrite Hcount. by vm_compute.
Defined.

(** X15 at two ids of the same millisecond. *)
Lemma generated_ids_differ_unless_same_draw_witness :
  String.length (pretty 1700000000000) = String.length (pretty 1700000000001)
  ∧ Transaction.generateTransactionId 1700000000000 "A1B2C3D4E"
    ≠ Transaction.generateTransactionId 1700000000001 "A1B2C3D4E".
Proof.
  split; [by vm_compute|].
  intros Heq.
  destruct (generated_ids_differ_unless_same_draw 1700000000000 1700000000001
              "A1B2C3D4E" "A1B2C3D4E" ltac:(by vm_compute) Heq) as [Hnow _].
  discriminate.
Defined.

(** X19 at Alice, a guardian. *)
Lemma adminOnly_rejects_every_valid_user_witness :
  User.userType Scenario.alice ∈ User.userTypes
  ∧ Middleware.adminOnly (Some Scenario.alice)
    = Some (mkResponse 403 false "Admin access required").
Proof.
  assert (User.userType Scenario.alice ∈ User.userTypes) as Hin.
  { apply elem_of_cons. right. apply elem_of_cons. by left. }
  split; [exact Hin|].
  exact (adminOnly_rejects_every_valid_user Scenario.alice Hin).
Defined.

(** X21 at a post favoured by users 3 and 1, toggled by user 1. *)
Lemma favorite_toggles_the_caller_only_witness :
  let st : gmap ObjectId (list ObjectId) := {[ 7%nat := [3%nat; 1%nat] ]} in
  st !! 7%nat = Some [3%nat; 1%nat]
  ∧ ∃ favorites' is_now,
      Favorites.favorite 1%nat 7%nat st
      = (<[7%nat := favorites']> st,
         mkResponse 200 true
           (if is_now : bool then "Added to favorites"
            else "Removed from favorites"),
         Some (is_now, length favorites'))
      ∧ (1%nat ∈ favorites' ↔ 1%nat ∉ [3%nat; 1%nat]).
Proof.
  intros st. split; [reflexivity|].
  destruct (favorite_toggles_the_caller_only 1%nat 7%nat st [3%nat; 1%nat]
              eq_refl) as (f' & is_now & Hf & Hflip & _).
  by exists f', is_now.
Defined.

(** X22 at Alice crediting herself with earnings, becoming a teacher and
    trying to set her balance. *)
Lemma profile_update_writes_the_bookkeeping_fields_witness :
  let body : Body :=
    {[ "totalEarned" := JNum 1000000; "userType" := JStr "teacher";
       "accountBalance" := JNum 999 ]} in
  users Scenario.db0 !! 1%nat = Some Scenario.alice
  ∧ (∀ k v, body !! k = Some v → k ∈ protectedKeys ∨ bookkeeping k v)
  ∧ ∃ u', users (Auth.profile 1%nat body Scenario.db0).1 !! 1%nat = Some u'
          ∧ field "totalEarned" u' = Some (JNum 1000000)
          ∧ field "userType" u' = Some (JStr "teacher")
          ∧ field "accountBalance" u' = Some (JNum 0).
Proof.
  intros body.
  assert (∀ k v, body !! k = Some v → k ∈ protectedKeys ∨ bookkeeping k v)
    as Hbody.
  { intros k v Hk. unfold body in Hk.
    destruct (decide (k = "totalEarned")) as [->|].
    { vm_compute in Hk. injection Hk as <-. right. simpl. split; [auto|lia]. }
    destruct (decide (k = "userType")) as [->|].
    { vm_compute in Hk. injection Hk as <-. right. simpl. split; [done|].
      apply elem_of_cons. by left. }
    destruct (decide (k = "accountBalance")) as [->|].
    { left. unfold protectedKeys. rewrite !elem_of_cons. auto. }
    rewrite lookup_insert_ne, lookup_insert_ne, lookup_singleton_ne in Hk by done.
    done. }
  split; [reflexivity|]. split; [exact Hbody|].
  destruct (profile_update_writes_the_bookkeeping_fields 1%nat body Scenario.db0
              Scenario.alice eq_refl Hbody)
    as (_ & _ & _ & _ & u' & Hu' & Hset & Hkept).
  exists u'. split; [exact Hu'|]. split_and!.
  - rewrite (Hset "totalEarned"); [reflexivity|].
    rewrite !elem_of_cons. auto.
  - rewrite (Hset "userType"); [reflexivity|].
    rewrite !elem_of_cons. auto.
  - rewrite (Hkept "accountBalance"); [reflexivity|].
    rewrite !elem_of_cons. auto 10.
Defined.

(** X24 at Alice changing "secret1" to "secret2" and logging in. *)
Lemma changed_password_logs_in_witness :
  let out := AuthRoutes.changePassword Scenario2.compare Scenario2.hash 1%nat
               (Some "secret1") (Some "secret2") Scenario2.withPassword in
  out.2 = mkResponse 200 true "Password changed successfully"
  ∧ AuthRoutes.login Scenario2.compare id (λ _, "jwt") (Some "01700000000")
      (Some "secret2") out.1
    = (mkResponse 200 true "Login successful", Some (1%nat, "jwt"))
  ∧ AuthRoutes.login Scenario2.compare id (λ _, "jwt") (Some "01700000000")
      (Some "secret1") out.1
    = (mkResponse 401 false "Invalid credentials", None).
Proof.
  intros out.
  assert (out.2 = mkResponse 200 true "Password changed successfully") as Hok
    by by vm_compute.
  split; [exact Hok|]. split; [|by vm_compute].
  refine (proj2 (changed_password_logs_in Scenario2.compare Scenario2.hash id
                   (λ _, "jwt") 1%nat "secret1" "secret2" Scenario2.withPassword
                   (AuthRoutes.set_password (Scenario2.hash "secret1")
                      Scenario.alice)
                   _ _ _ _ _ _ _ Hok)); try (by vm_compute).
  intros k v Hk Hm.
  destruct (decide (k = 1%nat)) as [->|Hne]; [done|].
  destruct (decide (k = 2%nat)) as [->|Hne2].
  - vm_compute in Hk. injection Hk as <-. vm_compute in Hm.
    destruct Hm; discriminate.
  - unfold Scenario2.withPassword in Hk. simpl in Hk.
    rewrite lookup_insert_ne, lookup_singleton_ne in Hk by done. done.
Defined.

(** X25 at Alice with a balance of 100 and a recharge of 50. *)
Lemma whole_numbers_are_computed_exactly_witness :
  let u := User.set_accountBalance 100 Scenario.alice in
  (Z.abs (User.accountBalance u) < 2 ^ 53
   ∧ Z.abs (User.totalSpent u) + 5 < 2 ^ 53
   ∧ Z.abs 50 < 2 ^ 53
   ∧ Z.abs (User.accountBalance u + 50) < 2 ^ 53)
  ∧ Binary64.canViewContact (Binary64.ofZ 100) = true
  ∧ Binary64.deductContactViewCost (Binary64.ofZ 100) (Binary64.ofZ 0)
    = Some (Binary64.ofZ 95, Binary64.ofZ 5).
Proof.
  intros u.
  assert (Z.abs (User.accountBalance u) < 2 ^ 53) as H1 by (simpl; lia).
  assert (Z.abs (User.totalSpent u) + 5 < 2 ^ 53) as H2 by (simpl; lia).
  assert (Z.abs 50 < 2 ^ 53) as H3 by lia.
  assert (Z.abs (User.accountBalance u + 50) < 2 ^ 53) as H4 by (simpl; lia).
  destruct (whole_numbers_are_computed_exactly u 50 H1 H2 H3 H4)
    as (_ & Hgate & Hdebit).
  split; [by split_and!|]. split; [exact Hgate|exact Hdebit].
Defined.
